(** * scene-plus-engine: transformers, segmentation and offer rules

    A shallow embedding of the Python sources

      - [src/data_pipeline/transformers/{base,retail,scene,partner}.py] and
        [src/data_pipeline/validation/schemas.py]
      - [src/models/{base,customer_segmentation,recommendation}.py]

    Conventions.  A Python call that may raise returns a [result]; a method
    that mutates [self] returns the new object next to its outcome.  The
    aggregates and the standardized features are exact rationals ([Q])
    extended, where the code divides, with the IEEE special values; the
    scores of the offers are computed in binary64, each operation rounded to
    the nearest double.  Timestamps are integers counting seconds. *)

From Stdlib Require Import List String Ascii DecimalString ZArith QArith Qminmax
  Qround Bool Lia Lqa Permutation Sorted.
Import ListNotations.
Local Open Scope string_scope.

(** ** The Python runtime: exceptions and results *)

Module Py.

(** The exception classes the sources raise or catch.  [ValidationError] is
    the class defined in [transformers/base.py]; [pydantic_ValidationError]
    is the one the pydantic schemas raise. *)
Inductive exn_class :=
  | Exception
  | KeyError | IndexError | ValueError | TypeError | AttributeError
  | NameError | OverflowError | ZeroDivisionError
  | pydantic_ValidationError
  | TransformerError | ValidationError | TransformationError
  | ModelError | FeatureError | PredictionError.

Definition exn_class_eqb (a b : exn_class) : bool :=
  match a, b with
  | Exception, Exception | KeyError, KeyError | IndexError, IndexError
  | ValueError, ValueError
  | TypeError, TypeError | AttributeError, AttributeError
  | NameError, NameError | OverflowError, OverflowError
  | ZeroDivisionError, ZeroDivisionError
  | pydantic_ValidationError, pydantic_ValidationError
  | TransformerError, TransformerError | ValidationError, ValidationError
  | TransformationError, TransformationError
  | ModelError, ModelError | FeatureError, FeatureError
  | PredictionError, PredictionError => true
  | _, _ => false
  end.

(** The base class of each class, as the [class X(Y)] statements give it.
    pydantic's error derives from [ValueError]; the built-in classes are
    given their nearest base among the classes listed, [Exception]. *)
Definition base (c : exn_class) : option exn_class :=
  match c with
  | Exception => None
  | pydantic_ValidationError => Some ValueError
  | ValidationError | TransformationError => Some TransformerError
  | FeatureError | PredictionError => Some ModelError
  | _ => Some Exception
  end.

(** [issubclass c d]; three steps reach the root from every class. *)
Fixpoint issubclass_fuel (n : nat) (c d : exn_class) : bool :=
  exn_class_eqb c d ||
  match n, base c with
  | S n', Some p => issubclass_fuel n' p d
  | _, _ => false
  end.

Definition issubclass := issubclass_fuel 3.

Record exn := mk_exn { cls : exn_class; str : string }.

Definition isinstance (e : exn) (c : exn_class) : bool := issubclass (cls e) c.

Inductive result (A : Type) :=
  | Ok (a : A)
  | Raise (e : exn).
Arguments Ok {A} a.
Arguments Raise {A} e.

Definition bind {A B} (r : result A) (k : A -> result B) : result B :=
  match r with
  | Ok a => k a
  | Raise e => Raise e
  end.

(** [try: body except Exception as e: handler e] *)
Definition try_except {A} (body : result A) (handler : exn -> result A)
  : result A :=
  match body with
  | Ok a => Ok a
  | Raise e => if isinstance e Exception then handler e else Raise e
  end.

Definition raise {A} (c : exn_class) (m : string) : result A :=
  Raise (mk_exn c m).

(** [str(KeyError(k))] is the repr of the key. *)
Definition key_error {A} (k : string) : result A :=
  raise KeyError ("'" ++ k ++ "'").

Definition raises {A} (r : result A) (c : exn_class) : Prop :=
  exists e, r = Raise e /\ cls e = c.

Fixpoint mapM {A B} (f : A -> result B) (l : list A) : result (list B) :=
  match l with
  | [] => Ok []
  | x :: xs =>
      bind (f x) (fun y => bind (mapM f xs) (fun ys => Ok (y :: ys)))
  end.

End Py.

Import Py.

Declare Scope py_scope.
Notation "x <- c ;; k" := (Py.bind c (fun x => k))
  (at level 61, c at next level, right associativity) : py_scope.
Local Open Scope py_scope.

(** ** Dynamically typed cells, dicts and data frames *)

#[local] Set Warnings "-register-all".

Inductive object :=
  | VNone
  | VNaN
  | VStr (s : string)
  | VNum (q : Q)
  | VTime (t : Z)
  | VNaT
  | VList (l : list object)
  | VDict (d : list (string * object)).

Definition dict := list (string * object).

Fixpoint lookup {A} (k : string) (d : list (string * A)) : option A :=
  match d with
  | [] => None
  | (k', v) :: d' => if String.eqb k k' then Some v else lookup k d'
  end.

(** ASCII case folding, the part of [str.lower] the banner names need. *)
Definition lower_ascii (c : ascii) : ascii :=
  let n := nat_of_ascii c in
  if (65 <=? n)%nat && (n <=? 90)%nat then ascii_of_nat (n + 32) else c.

Fixpoint lower (s : string) : string :=
  match s with
  | EmptyString => EmptyString
  | String c s' => String (lower_ascii c) (lower s')
  end.

Module Pandas.

Definition Series := list object.

(** A frame is its columns in order, each with its cells.  Labels are
    taken to be distinct, and every column has as many cells as the first. *)
Definition DataFrame := list (string * Series).

(** [data[c]] *)
Definition getitem (data : DataFrame) (c : string) : result Series :=
  match lookup c data with
  | Some s => Ok s
  | None => key_error c
  end.

(** [data[c] = s] *)
Fixpoint setitem (data : DataFrame) (c : string) (s : Series) : DataFrame :=
  match data with
  | [] => [(c, s)]
  | (c', s') :: rest =>
      if String.eqb c c' then (c, s) :: rest else (c', s') :: setitem rest c s
  end.

(** [data.rename(columns=mapping)] *)
Definition rename (data : DataFrame) (mapping : list (string * string))
  : DataFrame :=
  map (fun '(c, s) =>
         (match lookup c mapping with Some c' => c' | None => c end, s)) data.

Definition nrows (data : DataFrame) : nat :=
  match data with
  | [] => O
  | (_, s) :: _ => List.length s
  end.

(** [data.to_dict('records')] *)
Definition to_dict_records (data : DataFrame) : list dict :=
  map (fun i => map (fun '(c, s) => (c, nth i s VNone)) data)
      (seq 0 (nrows data)).

(** A column of numbers has dtype float64 and one of timestamps (or NaT,
    the missing timestamp) datetime64; every other column is an object
    column. *)
Definition is_numeric (v : object) : bool :=
  match v with VNum _ | VNaN => true | _ => false end.

Definition is_time (v : object) : bool :=
  match v with VTime _ | VNaT => true | _ => false end.

Definition dtype_is_object (s : Series) : bool :=
  negb (forallb is_numeric s) && negb (forallb is_time s) ||
  match s with [] => true | _ => false end.

(** [Series.fillna(value)].  pandas refuses a call that gives neither a
    value nor a method: [fillna(None)] raises [ValueError]. *)
Definition fillna (s : Series) (fill : option object) : result Series :=
  match fill with
  | None => raise ValueError "Must specify a fill 'value' or 'method'."
  | Some v =>
      Ok (map (fun x => match x with VNone | VNaN | VNaT => v | _ => x end) s)
  end.

(** [Series.str.lower()]: only object columns have the accessor; a missing
    cell (None, NaN, NaT) is kept as it is, and any other cell that is not
    a string becomes NaN. *)
Definition str_lower (s : Series) : result Series :=
  if dtype_is_object s then
    Ok (map (fun x => match x with
                      | VStr t => VStr (lower t)
                      | VNone => VNone
                      | VNaT => VNaT
                      | _ => VNaN
                      end) s)
  else raise AttributeError "Can only use .str accessor with string values!".

End Pandas.

(** ** The transformers of the data pipeline *)

Module Transformers.
Import Pandas.

(** The text functions of Python and its packages that the sources call on
    string cells: the timestamp parser behind [pd.to_datetime], [float],
    [int], [str] of a number, and [json.loads]. *)
Class TextLibrary := {
  parse_datetime : string -> option Z;
  python_float : string -> option Q;
  python_int : string -> option Z;
  python_str : Q -> string;
  json_loads : string -> result object
}.

(** A library that recognises no text, for batches whose cells already
    hold timestamps, numbers and lists. *)
Definition typed_cells : TextLibrary := {|
  parse_datetime := fun _ => None;
  python_float := fun _ => None;
  python_int := fun _ => None;
  python_str := fun _ => "";
  json_loads := fun _ => raise ValueError "Expecting value"
|}.

Section Transformers.

Context {text : TextLibrary}.

(** [pd.to_datetime(series)]; a missing cell becomes NaT. *)
Definition to_datetime_cell (v : object) : result object :=
  match v with
  | VTime t => Ok (VTime t)
  | VNone | VNaN | VNaT => Ok VNaT
  | VStr s =>
      match parse_datetime s with
      | Some t => Ok (VTime t)
      | None => raise ValueError ("Unknown datetime string format: " ++ s)
      end
  | VNum q => Ok (VTime (Qfloor (q / 1000000000)))
  | VList _ | VDict _ =>
      raise TypeError "<class 'list'> is not convertible to datetime"
  end.

Definition to_datetime (s : Series) : result Series := mapM to_datetime_cell s.

(** [series.astype(float)] *)
Definition astype_float_cell (v : object) : result object :=
  match v with
  | VNum q => Ok (VNum q)
  | VNone | VNaN => Ok VNaN
  | VStr s =>
      match python_float s with
      | Some q => Ok (VNum q)
      | None => raise ValueError ("could not convert string to float: " ++ s)
      end
  | VTime _ | VNaT =>
      raise TypeError "Cannot cast DatetimeArray to dtype float64"
  | VList _ | VDict _ =>
      raise TypeError "float() argument must be a string or a real number"
  end.

Definition astype_float (s : Series) : result Series :=
  mapM astype_float_cell s.

(** *** validation/schemas.py

    A schema takes the record as keyword arguments and returns the
    validated fields ([validated.dict()]) or raises pydantic's
    [ValidationError]; the message names the first field that fails.
    Fields coerce as pydantic's [str], [float] and [datetime] do: a number
    is accepted where text is expected, and text where a number is; NaT is
    an instance of [datetime] and passes as one. *)

Definition invalid {A} (field why : string) : result A :=
  raise pydantic_ValidationError (field ++ ": " ++ why).

Definition field_str (record : dict) (k : string) : result object :=
  match lookup k record with
  | None => invalid k "field required"
  | Some (VStr s) => Ok (VStr s)
  | Some (VNum q) => Ok (VStr (python_str q))
  | Some VNaN => Ok (VStr "nan")
  | Some VNone => invalid k "none is not an allowed value"
  | Some _ => invalid k "str type expected"
  end.

Definition field_optional_str (record : dict) (k : string) : result object :=
  match lookup k record with
  | None | Some VNone => Ok VNone
  | Some (VStr s) => Ok (VStr s)
  | Some (VNum q) => Ok (VStr (python_str q))
  | Some VNaN => Ok (VStr "nan")
  | Some _ => invalid k "str type expected"
  end.

Definition field_datetime (record : dict) (k : string) : result object :=
  match lookup k record with
  | None => invalid k "field required"
  | Some (VTime t) => Ok (VTime t)
  | Some VNaT => Ok VNaT
  | Some (VNum q) => Ok (VTime (Qfloor q))
  | Some (VStr s) =>
      match parse_datetime s with
      | Some t => Ok (VTime t)
      | None => invalid k "invalid datetime format"
      end
  | Some VNone => invalid k "none is not an allowed value"
  | Some _ => invalid k "invalid type; expected datetime, string, bytes, int or float"
  end.

Definition coerce_float (k : string) (v : object) : result (option Q) :=
  match v with
  | VNum q => Ok (Some q)
  | VNaN => Ok None
  | VStr s =>
      match python_float s with
      | Some q => Ok (Some q)
      | None => invalid k "value is not a valid float"
      end
  | VNone => invalid k "none is not an allowed value"
  | _ => invalid k "value is not a valid float"
  end.

Definition float_value (x : option Q) : object :=
  match x with Some q => VNum q | None => VNaN end.

(** [float = Field(...)] *)
Definition field_float (record : dict) (k : string) : result object :=
  match lookup k record with
  | None => invalid k "field required"
  | Some v => x <- coerce_float k v ;; Ok (float_value x)
  end.

(** [float = Field(..., ge=0)]; NaN fails every comparison. *)
Definition field_float_ge0 (record : dict) (k : string) : result object :=
  match lookup k record with
  | None => invalid k "field required"
  | Some v =>
      x <- coerce_float k v ;;
      match x with
      | Some q =>
          if Qle_bool 0 q then Ok (VNum q)
          else invalid k "ensure this value is greater than or equal to 0"
      | None => invalid k "ensure this value is greater than or equal to 0"
      end
  end.

(** [Optional[float] = Field(0.0)] *)
Definition field_optional_float (record : dict) (k : string) (default : Q)
  : result object :=
  match lookup k record with
  | None => Ok (VNum default)
  | Some VNone => Ok VNone
  | Some v => x <- coerce_float k v ;; Ok (float_value x)
  end.

Definition is_dict (v : object) : bool :=
  match v with VDict _ => true | _ => false end.

Definition has_key (k : string) (v : object) : bool :=
  match v with
  | VDict d => match lookup k d with Some _ => true | None => false end
  | _ => false
  end.

(** [RetailTransaction.validate_items] *)
Definition validate_items (v : list object) : result (list object) :=
  match v with
  | [] => invalid "items" "Transaction must have at least one item"
  | _ =>
      if forallb (fun item =>
                    forallb (fun k => has_key k item) ["sku"; "quantity"; "price"])
                 v
      then Ok v
      else invalid "items" "Each item must have sku, quantity, and price"
  end.

(** [items: List[dict] = Field(...)] with its validator *)
Definition field_items (record : dict) (k : string) : result object :=
  match lookup k record with
  | None => invalid k "field required"
  | Some (VList l) =>
      if forallb is_dict l then v <- validate_items l ;; Ok (VList v)
      else invalid k "value is not a valid dict"
  | Some VNone => invalid k "none is not an allowed value"
  | Some _ => invalid k "value is not a valid list"
  end.

Definition RetailTransaction (record : dict) : result dict :=
  transaction_id <- field_str record "transaction_id" ;;
  store_id <- field_str record "store_id" ;;
  customer_id <- field_str record "customer_id" ;;
  transaction_timestamp <- field_datetime record "transaction_timestamp" ;;
  total_amount <- field_float_ge0 record "total_amount" ;;
  banner <- field_str record "banner" ;;
  items <- field_items record "items" ;;
  payment_method <- field_str record "payment_method" ;;
  points_earned <- field_optional_float record "points_earned" 0 ;;
  Ok [("transaction_id", transaction_id); ("store_id", store_id);
      ("customer_id", customer_id);
      ("transaction_timestamp", transaction_timestamp);
      ("total_amount", total_amount); ("banner", banner); ("items", items);
      ("payment_method", payment_method); ("points_earned", points_earned)].

(** [SceneTransaction.validate_transaction_type] *)
Definition validate_transaction_type (v : object) : result object :=
  match v with
  | VStr s =>
      if existsb (String.eqb (lower s)) ["earn"; "redeem"]
      then Ok (VStr (lower s))
      else invalid "transaction_type"
             "Transaction type must be one of ['earn', 'redeem']"
  | _ => Ok v
  end.

Definition SceneTransaction (record : dict) : result dict :=
  transaction_id <- field_str record "transaction_id" ;;
  member_id <- field_str record "member_id" ;;
  transaction_type <- field_str record "transaction_type" ;;
  transaction_type <- validate_transaction_type transaction_type ;;
  points <- field_float record "points" ;;
  transaction_timestamp <- field_datetime record "transaction_timestamp" ;;
  partner <- field_str record "partner" ;;
  source_transaction_id <- field_optional_str record "source_transaction_id" ;;
  Ok [("transaction_id", transaction_id); ("member_id", member_id);
      ("transaction_type", transaction_type); ("points", points);
      ("transaction_timestamp", transaction_timestamp); ("partner", partner);
      ("source_transaction_id", source_transaction_id)].

(** *** transformers/base.py *)

Record BaseTransformer := {
  schema : dict -> result dict;
  error_records : list (dict * string)
}.

(** [BaseTransformer.__init__] *)
Definition init (schema : dict -> result dict) : BaseTransformer :=
  {| schema := schema; error_records := [] |}.

Definition clear_errors (self : BaseTransformer) : BaseTransformer :=
  {| schema := schema self; error_records := [] |}.

Definition get_error_report (self : BaseTransformer) : list (dict * string) :=
  error_records self.

(** [validate_record]: the [except ValidationError] clause names the class
    that base.py defines after the import, a subclass of
    [TransformerError]; an exception of any other class propagates. *)
Definition validate_record (self : BaseTransformer) (record : dict)
  : result (option dict) * BaseTransformer :=
  match schema self record with
  | Ok validated => (Ok (Some validated), self)
  | Raise e =>
      if isinstance e ValidationError then
        (Ok None,
         {| schema := schema self;
            error_records := error_records self ++ [(record, str e)] |})
      else (Raise e, self)
  end.

Definition is_empty {A} (l : list A) : bool :=
  match l with [] => true | _ => false end.

(** The loop [for record in data.to_dict('records')] of both transformers;
    [if validated:] passes a dict that has an entry, and neither [None] nor
    the empty dict. *)
Fixpoint validate_loop (self : BaseTransformer) (records : list dict)
    (validated_records : list dict)
  : result (list dict) * BaseTransformer :=
  match records with
  | [] => (Ok validated_records, self)
  | record :: rest =>
      match validate_record self record with
      | (Ok (Some validated), self') =>
          if is_empty validated then validate_loop self' rest validated_records
          else validate_loop self' rest (validated_records ++ [validated])
      | (Ok None, self') => validate_loop self' rest validated_records
      | (Raise e, self') => (Raise e, self')
      end
  end.

(** [pd.DataFrame(validated_records)]: the columns of the first record. *)
Definition from_records (records : list dict) : DataFrame :=
  match records with
  | [] => []
  | r :: _ =>
      map (fun '(c, _) =>
             (c, map (fun r' => match lookup c r' with
                                | Some v => v
                                | None => VNaN
                                end) records)) r
  end.

(** *** transformers/retail.py *)

Fixpoint split (sep : ascii) (s : string) : list string :=
  match s with
  | EmptyString => [EmptyString]
  | String c s' =>
      if Ascii.eqb c sep then EmptyString :: split sep s'
      else match split sep s' with
           | h :: t => String c h :: t
           | [] => [String c EmptyString]
           end
  end.

Definition is_space (c : ascii) : bool :=
  let n := nat_of_ascii c in
  (n =? 32)%nat || ((9 <=? n)%nat && (n <=? 13)%nat).

Fixpoint lstrip (s : string) : string :=
  match s with
  | String c s' => if is_space c then lstrip s' else s
  | EmptyString => EmptyString
  end.

Fixpoint rstrip (s : string) : string :=
  match s with
  | EmptyString => EmptyString
  | String c s' =>
      match rstrip s' with
      | EmptyString => if is_space c then EmptyString else String c EmptyString
      | t => String c t
      end
  end.

Definition strip (s : string) : string := rstrip (lstrip s).

Definition startswith (s : string) (c : ascii) : bool :=
  match s with String c' _ => Ascii.eqb c c' | EmptyString => false end.

Fixpoint endswith (s : string) (c : ascii) : bool :=
  match s with
  | EmptyString => false
  | String c' EmptyString => Ascii.eqb c c'
  | String _ s' => endswith s' c
  end.

(** One [sku,quantity,price] entry of the pipe-separated format. *)
Definition parse_item (item_str : string) : result object :=
  match split "," item_str with
  | [sku; quantity; price] =>
      match python_int quantity with
      | None =>
          raise ValueError ("invalid literal for int() with base 10: " ++ quantity)
      | Some n =>
          match python_float price with
          | None =>
              raise ValueError ("could not convert string to float: " ++ price)
          | Some p =>
              Ok (VDict [("sku", VStr (strip sku)); ("quantity", VNum (inject_Z n));
                         ("price", VNum p)])
          end
      end
  | [] | [_] | [_; _] =>
      raise ValueError "not enough values to unpack (expected 3)"
  | _ => raise ValueError "too many values to unpack (expected 3)"
  end.

Definition _parse_items (items_str : object) : result object :=
  try_except
    (match items_str with
     | VStr s =>
         if startswith s "[" && endswith s "]" then json_loads s
         else items <- mapM parse_item (split "|" s) ;; Ok (VList items)
     | VList l => Ok (VList l)
     | _ => raise ValueError "Unsupported items format"
     end)
    (fun e => raise TransformationError ("Failed to parse items: " ++ str e)).

Definition RetailTransformer : BaseTransformer := init RetailTransaction.

(** The statements of [RetailTransformer.transform] between
    [clear_errors] and the validation loop. *)
Definition retail_columns (data : DataFrame) : result DataFrame :=
  let data := rename data
    [("trans_id", "transaction_id"); ("store_number", "store_id");
     ("cust_id", "customer_id"); ("timestamp", "transaction_timestamp");
     ("amount", "total_amount"); ("retail_banner", "banner");
     ("payment_type", "payment_method"); ("scene_points", "points_earned")] in
  col <- getitem data "transaction_timestamp" ;;
  col <- to_datetime col ;;
  let data := setitem data "transaction_timestamp" col in
  col <- getitem data "total_amount" ;;
  col <- astype_float col ;;
  let data := setitem data "total_amount" col in
  col <- getitem data "points_earned" ;;
  col <- fillna col (Some (VNum 0)) ;;
  col <- astype_float col ;;
  let data := setitem data "points_earned" col in
  col <- getitem data "banner" ;;
  col <- str_lower col ;;
  let data := setitem data "banner" col in
  col <- getitem data "items" ;;
  if dtype_is_object col then
    col <- mapM _parse_items col ;;
    Ok (setitem data "items" col)
  else Ok data.

(** The tail both [transform] methods share: validate each record, raise
    when none is left, build the frame; [label] is the data source named
    in the message of the [except Exception] handler. *)
Definition validate_and_build (label : string) (self : BaseTransformer)
    (columns : result DataFrame) : result DataFrame * BaseTransformer :=
  let handler (e : exn) : result DataFrame :=
    raise TransformationError
      ("Failed to transform " ++ label ++ " data: " ++ str e) in
  match columns with
  | Raise e => (try_except (Raise e) handler, self)
  | Ok data =>
      match validate_loop self (to_dict_records data) [] with
      | (Raise e, self') => (try_except (Raise e) handler, self')
      | (Ok validated_records, self') =>
          (try_except
             (if is_empty validated_records
              then raise TransformationError
                     "No valid records after transformation"
              else Ok (from_records validated_records))
             handler, self')
      end
  end.

(** [RetailTransformer.transform] *)
Definition retail_transform (self : BaseTransformer) (data : DataFrame)
  : result DataFrame * BaseTransformer :=
  let self := clear_errors self in
  validate_and_build "retail" self (retail_columns data).

(** *** transformers/scene.py *)

Definition SceneTransformer : BaseTransformer := init SceneTransaction.

(** The statements of [SceneTransformer.transform] between
    [clear_errors] and the validation loop. *)
Definition scene_columns (data : DataFrame) : result DataFrame :=
  let data := rename data
    [("scene_transaction_id", "transaction_id");
     ("scene_member_id", "member_id"); ("type", "transaction_type");
     ("points_value", "points"); ("timestamp", "transaction_timestamp");
     ("partner_name", "partner");
     ("original_transaction_id", "source_transaction_id")] in
  col <- getitem data "transaction_timestamp" ;;
  col <- to_datetime col ;;
  let data := setitem data "transaction_timestamp" col in
  col <- getitem data "points" ;;
  col <- astype_float col ;;
  let data := setitem data "points" col in
  col <- getitem data "transaction_type" ;;
  col <- str_lower col ;;
  let data := setitem data "transaction_type" col in
  col <- getitem data "partner" ;;
  col <- str_lower col ;;
  let data := setitem data "partner" col in
  col <- getitem data "source_transaction_id" ;;
  col <- fillna col None ;;
  Ok (setitem data "source_transaction_id" col).

(** [SceneTransformer.transform] *)
Definition scene_transform (self : BaseTransformer) (data : DataFrame)
  : result DataFrame * BaseTransformer :=
  let self := clear_errors self in
  validate_and_build "Scene+" self (scene_columns data).

End Transformers.
End Transformers.

(** ** Floating point values

    A float is an exact rational or one of the IEEE special values; the
    sign of zero is not tracked. *)

Module Float.

Inductive float :=
  | Fin (q : Q)
  | PInf
  | NInf
  | NaN.

Definition Qlt_bool (a b : Q) : bool := negb (Qle_bool b a).

Definition isfinite (x : float) : bool :=
  match x with Fin _ => true | _ => false end.

Definition isinf (x : float) : bool :=
  match x with PInf | NInf => true | _ => false end.

Definition isnan (x : float) : bool :=
  match x with NaN => true | _ => false end.

(** [x / y] of numpy and pandas: a zero divisor gives an infinity or NaN
    and raises nothing. *)
Definition div (x y : float) : float :=
  match x, y with
  | NaN, _ | _, NaN => NaN
  | Fin a, Fin b =>
      if Qeq_bool b 0 then
        if Qeq_bool a 0 then NaN else if Qle_bool 0 a then PInf else NInf
      else Fin (a / b)
  | Fin _, _ => Fin 0
  | PInf, Fin b => if Qle_bool 0 b then PInf else NInf
  | NInf, Fin b => if Qle_bool 0 b then NInf else PInf
  | _, _ => NaN
  end.

Definition sub (x y : float) : float :=
  match x, y with
  | NaN, _ | _, NaN => NaN
  | Fin a, Fin b => Fin (a - b)
  | Fin _, PInf => NInf
  | Fin _, NInf => PInf
  | PInf, PInf | NInf, NInf => NaN
  | PInf, _ => PInf
  | NInf, _ => NInf
  end.

(** [x > q] and [x < q]; a comparison with NaN is false. *)
Definition gt (x : float) (q : Q) : bool :=
  match x with Fin a => Qlt_bool q a | PInf => true | _ => false end.

Definition lt (x : float) (q : Q) : bool :=
  match x with Fin a => Qlt_bool a q | NInf => true | _ => false end.

(** The finite cells of a column, in order. *)
Fixpoint finite_values (l : list float) : list Q :=
  match l with
  | [] => []
  | Fin q :: t => q :: finite_values t
  | _ :: t => finite_values t
  end.

(** *** binary64

    The double nearest to a rational, ties to even: 53 bits of mantissa,
    exponents from -1074 (the subnormal numbers) up, and an infinity from
    2^1024 on.  An operation of IEEE arithmetic on two doubles is the exact
    operation followed by this rounding. *)

Definition pow2 (e : Z) : Q :=
  if (0 <=? e)%Z then inject_Z (2 ^ e) else 1 # Z.to_pos (2 ^ (- e)).

Definition round_half_even (num den : Z) : Z :=
  let m := (num / den)%Z in
  match (2 * (num mod den) ?= den)%Z with
  | Lt => m
  | Gt => (m + 1)%Z
  | Eq => if Z.even m then m else (m + 1)%Z
  end.

(** [a / (d * 2^e)] as a fraction of integers. *)
Definition scaled (a d e : Z) : Z * Z :=
  if (0 <=? e)%Z then (a, (d * 2 ^ e)%Z) else ((a * 2 ^ (- e))%Z, d).

(** The exponent [e] of the unit in the last place of [a / d]:
    [2^52 <= a / (d * 2^e) < 2^53], or -1074 for a smaller number. *)
Definition exponent (a d : Z) : Z :=
  let e0 := (Z.log2 a - Z.log2 d - 52)%Z in
  let '(n, dd) := scaled a d e0 in
  let m := (n / dd)%Z in
  let e := if (2 ^ 53 <=? m)%Z then (e0 + 1)%Z
           else if (m <? 2 ^ 52)%Z then (e0 - 1)%Z else e0 in
  Z.max e (-1074).

Definition round64 (q : Q) : Q :=
  let n := Qnum q in
  let d := Zpos (Qden q) in
  if (n =? 0)%Z then 0
  else
    let e := exponent (Z.abs n) d in
    let '(num, den) := scaled (Z.abs n) d e in
    Qred (inject_Z (Z.sgn n * round_half_even num den) * pow2 e).

Definition double (q : Q) : float :=
  let r := round64 q in
  if Qle_bool (pow2 1024) r then PInf
  else if Qle_bool r (- pow2 1024) then NInf
  else Fin r.

(** The value of a decimal literal of the source, such as [0.7]. *)
Definition literal (q : Q) : Q := round64 q.

(** [x * y], [x + y] and [x / y] on doubles; by zero numpy divides to an
    infinity or NaN. *)
Definition mul64 (x y : float) : float :=
  match x, y with
  | NaN, _ | _, NaN => NaN
  | Fin a, Fin b => double (a * b)
  | Fin a, PInf | PInf, Fin a =>
      if Qeq_bool a 0 then NaN else if Qle_bool 0 a then PInf else NInf
  | Fin a, NInf | NInf, Fin a =>
      if Qeq_bool a 0 then NaN else if Qle_bool 0 a then NInf else PInf
  | PInf, PInf | NInf, NInf => PInf
  | PInf, NInf | NInf, PInf => NInf
  end.

Definition add64 (x y : float) : float :=
  match x, y with
  | NaN, _ | _, NaN => NaN
  | Fin a, Fin b => double (a + b)
  | PInf, NInf | NInf, PInf => NaN
  | PInf, _ | _, PInf => PInf
  | NInf, _ | _, NInf => NInf
  end.

Definition div64 (x y : float) : float :=
  match x, y with
  | NaN, _ | _, NaN => NaN
  | Fin a, Fin b =>
      if Qeq_bool b 0 then
        if Qeq_bool a 0 then NaN else if Qle_bool 0 a then PInf else NInf
      else double (a / b)
  | Fin _, _ => Fin 0
  | PInf, Fin b => if Qle_bool 0 b then PInf else NInf
  | NInf, Fin b => if Qle_bool 0 b then NInf else PInf
  | _, _ => NaN
  end.

(** [x <= y] and [x == y]; a comparison with NaN is false. *)
Definition leb (x y : float) : bool :=
  match x, y with
  | NaN, _ | _, NaN => false
  | NInf, _ | _, PInf => true
  | Fin a, Fin b => Qle_bool a b
  | _, _ => false
  end.

Definition eqb (x y : float) : bool := leb x y && leb y x.

End Float.

Import Float.

(** ** scikit-learn: StandardScaler and KMeans *)

Module Sklearn.

(** What the sources take from numpy and scikit-learn and the embedding
    does not compute: the square root behind [StandardScaler.scale_], and the
    centres [KMeans(n_clusters, random_state).fit] converges to (or the
    error it raises). *)
Class Library := {
  np_sqrt : Q -> Q;
  KMeans_fit : nat -> Z -> list (list float) -> result (list (list Q))
}.

Definition Qsum (l : list Q) : Q := fold_right Qplus 0 l.

Definition Qmean (l : list Q) : Q := Qsum l / inject_Z (Z.of_nat (List.length l)).

(** The fitted attributes of a [StandardScaler], one entry per feature. *)
Record StandardScalerParams := {
  mean_ : list float;
  var_ : list float;
  scale_ : list float
}.

(** Column [j] of a matrix given by rows. *)
Definition column (X : list (list float)) (j : nat) : list float :=
  map (fun row => nth j row NaN) X.

Definition n_features (X : list (list float)) : nat :=
  match X with [] => O | row :: _ => List.length row end.

Section Scalers.
Context {lib : Library}.

(** Mean and variance of a column over its cells that are not NaN. *)
Definition fit_mean (c : list float) : float :=
  match finite_values c with
  | [] => NaN
  | vs => Fin (Qmean vs)
  end.

Definition fit_var (c : list float) : float :=
  match finite_values c with
  | [] => NaN
  | vs => let m := Qmean vs in Fin (Qmean (map (fun v => (v - m) * (v - m)) vs))
  end.

Definition fit_scale (var : float) : float :=
  match var with
  | Fin v => if Qeq_bool v 0 then Fin 1 else Fin (np_sqrt v)
  | other => other
  end.

(** [StandardScaler.fit]: an empty batch and an infinite cell are refused
    (NaN cells are let through and skipped). *)
Definition StandardScaler_fit (X : list (list float))
  : result StandardScalerParams :=
  match X with
  | [] =>
      raise ValueError
        "Found array with 0 sample(s) while a minimum of 1 is required by StandardScaler."
  | _ =>
      if existsb (existsb isinf) X then
        raise ValueError
          "Input X contains infinity or a value too large for dtype('float64')."
      else
        let cols := map (column X) (seq 0 (n_features X)) in
        Ok {| mean_ := map fit_mean cols;
              var_ := map fit_var cols;
              scale_ := map (fun c => fit_scale (fit_var c)) cols |}
  end.

Fixpoint transform_row (row mean scale : list float) : list float :=
  match row, mean, scale with
  | x :: row', m :: mean', s :: scale' =>
      Float.div (Float.sub x m) s :: transform_row row' mean' scale'
  | _, _, _ => []
  end.

Definition StandardScaler_transform (p : StandardScalerParams)
    (X : list (list float)) : list (list float) :=
  map (fun row => transform_row row (mean_ p) (scale_ p)) X.

End Scalers.

(** A fitted [KMeans] estimator is its centres. *)
Record KMeans := {
  kmeans_n_clusters : nat;
  random_state : Z;
  cluster_centers_ : option (list (list Q))
}.

Fixpoint sq_dist (row : list Q) (center : list Q) : Q :=
  match row, center with
  | x :: row', c :: center' => (x - c) * (x - c) + sq_dist row' center'
  | _, _ => 0
  end.

(** Index of the nearest centre, the first one on a tie. *)
Fixpoint argmin_from (row : list Q) (centers : list (list Q))
    (i best : nat) (best_d : Q) : nat :=
  match centers with
  | [] => best
  | c :: rest =>
      let d := sq_dist row c in
      if Qlt_bool d best_d then argmin_from row rest (S i) i d
      else argmin_from row rest (S i) best best_d
  end.

Definition nearest (centers : list (list Q)) (row : list Q) : nat :=
  match centers with
  | [] => O
  | c :: rest => argmin_from row rest 1 0 (sq_dist row c)
  end.

(** [KMeans.predict]: refuses an estimator that was not fitted, NaN cells
    and rows of another width. *)
Definition KMeans_predict (m : KMeans) (X : list (list float))
  : result (list nat) :=
  match cluster_centers_ m with
  | None =>
      raise ValueError "This KMeans instance is not fitted yet."
  | Some centers =>
      if existsb (existsb (fun x => negb (isfinite x))) X then
        raise ValueError "Input X contains NaN."
      else if negb (forallb (fun row =>
                      (List.length row =? n_features (map (map Fin) centers))%nat) X)
      then raise ValueError "X has a different number of features than KMeans expects."
      else Ok (map (fun row => nearest centers (finite_values row)) X)
  end.

End Sklearn.

(** ** Transaction batches, the input of both models *)

Module Data.

(** A row of the transaction frame, with the columns the models read. *)
Record Transaction := {
  customer_id : string;
  transaction_timestamp : Z;
  total_amount : Q;
  banner : string;
  points_earned : Q;
  items : list dict
}.

(** The frame: the labels it has, and its rows.  A row of a frame that
    lacks one of the labels above is never read at that field, because
    both models check the labels first. *)
Record Transactions := {
  columns : list string;
  rows : list Transaction
}.

Definition missing_cols (required have : list string) : list string :=
  filter (fun c => negb (existsb (String.eqb c) have)) required.

(** The keys of [groupby('customer_id')]: distinct and in ascending order. *)
Fixpoint insert_key (k : string) (keys : list string) : list string :=
  match keys with
  | [] => [k]
  | h :: t =>
      match String.compare k h with
      | Lt => k :: keys
      | Eq => keys
      | Gt => h :: insert_key k t
      end
  end.

Definition group_keys (rows : list Transaction) : list string :=
  fold_right insert_key [] (map customer_id rows).

Definition group (c : string) (rows : list Transaction) : list Transaction :=
  filter (fun r => String.eqb (customer_id r) c) rows.

(** [series.max()] of timestamps, [x] being one of them. *)
Definition Zmax_list (x : Z) (l : list Z) : Z := fold_right Z.max x l.

Definition Zmin_list (x : Z) (l : list Z) : Z := fold_right Z.min x l.

(** [timedelta.days]: whole days, rounded down. *)
Definition days (seconds : Z) : Z := seconds / 86400.

Fixpoint nunique (l : list string) : Z :=
  match l with
  | [] => 0
  | x :: t => if existsb (String.eqb x) t then nunique t else 1 + nunique t
  end.

Definition Zlen {A} (l : list A) : Z := Z.of_nat (List.length l).

End Data.

(** ** models/base.py and models/customer_segmentation.py *)

Module Segmentation.
Import Data Sklearn.

(** A row of the frame [preprocess_data] returns. *)
Record CustomerMetrics := {
  m_customer_id : string;
  transaction_count : Z;
  last_transaction_date : Z;
  days_since_last_visit : Z;
  total_spend : Q;
  average_transaction_value : Q;
  total_points : Q;
  average_points_earned : Q;
  unique_banners : Z;
  average_basket_size : Q
}.

(** The attributes of [BaseModel] and the two [CustomerSegmentation] adds;
    [model] is [None] until [train] assigns it, and [scaler] holds the
    fitted attributes of the [StandardScaler], if it has any. *)
Record CustomerSegmentation := {
  model_name : string;
  model : option KMeans;
  feature_columns : list string;
  target_column : option string;
  last_trained : option Z;
  model_params : list (string * Z);
  n_clusters : nat;
  scaler : option StandardScalerParams
}.

(** [CustomerSegmentation.__init__] *)
Definition init (n_clusters : nat) : CustomerSegmentation := {|
  model_name := "customer_segmentation";
  model := None;
  feature_columns :=
    ["total_spend"; "visit_frequency"; "points_balance";
     "points_redemption_rate"; "cross_banner_shopping"; "basket_size";
     "days_since_last_visit"; "product_categories_count"];
  target_column := None;
  last_trained := None;
  model_params := [("n_clusters", Z.of_nat n_clusters)];
  n_clusters := n_clusters;
  scaler := None
|}.

Definition set_scaler (self : CustomerSegmentation)
    (s : option StandardScalerParams) : CustomerSegmentation := {|
  model_name := model_name self; model := model self;
  feature_columns := feature_columns self;
  target_column := target_column self; last_trained := last_trained self;
  model_params := model_params self; n_clusters := n_clusters self;
  scaler := s
|}.

Definition set_model (self : CustomerSegmentation) (m : option KMeans)
  : CustomerSegmentation := {|
  model_name := model_name self; model := m;
  feature_columns := feature_columns self;
  target_column := target_column self; last_trained := last_trained self;
  model_params := model_params self; n_clusters := n_clusters self;
  scaler := scaler self
|}.

Definition set_last_trained (self : CustomerSegmentation) (t : option Z)
  : CustomerSegmentation := {|
  model_name := model_name self; model := model self;
  feature_columns := feature_columns self;
  target_column := target_column self; last_trained := t;
  model_params := model_params self; n_clusters := n_clusters self;
  scaler := scaler self
|}.

(** The dict [save_model] hands to [joblib.dump]. *)
Record ModelData := {
  md_model : KMeans;
  md_feature_columns : list string;
  md_target_column : option string;
  md_last_trained : option Z;
  md_model_params : list (string * Z)
}.

(** [BaseModel.save_model]; the result is what is written at [path]. *)
Definition save_model (self : CustomerSegmentation) : result ModelData :=
  match model self with
  | None => raise ModelError "No trained model to save"
  | Some m =>
      Ok {| md_model := m;
            md_feature_columns := feature_columns self;
            md_target_column := target_column self;
            md_last_trained := last_trained self;
            md_model_params := model_params self |}
  end.

(** [BaseModel.load_model], given what was read at [path]. *)
Definition load_model (self : CustomerSegmentation) (model_data : ModelData)
  : CustomerSegmentation := {|
  model_name := model_name self;
  model := Some (md_model model_data);
  feature_columns := md_feature_columns model_data;
  target_column := md_target_column model_data;
  last_trained := md_last_trained model_data;
  model_params := md_model_params model_data;
  n_clusters := n_clusters self;
  scaler := scaler self
|}.

Definition required_columns : list string :=
  ["customer_id"; "transaction_timestamp"; "total_amount"; "banner";
   "points_earned"; "items"].

(** The aggregates of one customer's rows; [current_date] is the maximum
    timestamp of the whole batch. *)
Definition customer_metrics (current_date : Z) (c : string)
    (g : list Transaction) : CustomerMetrics :=
  let last := match map transaction_timestamp g with
              | [] => current_date
              | t :: ts => Zmax_list t ts
              end in
  {| m_customer_id := c;
     transaction_count := Zlen g;
     last_transaction_date := last;
     days_since_last_visit := days (current_date - last);
     total_spend := Qsum (map total_amount g);
     average_transaction_value := Qmean (map total_amount g);
     total_points := Qsum (map points_earned g);
     average_points_earned := Qmean (map points_earned g);
     unique_banners := nunique (map banner g);
     average_basket_size :=
       Qmean (map (fun r => inject_Z (Zlen (items r))) g) |}.

(** [CustomerSegmentation.preprocess_data]; a frame without rows has no
    group and gives a frame without rows. *)
Definition preprocess_data (data : Transactions)
  : result (list CustomerMetrics) :=
  try_except
    (match missing_cols required_columns (columns data) with
     | _ :: _ => raise FeatureError "Missing required columns"
     | [] =>
         match map transaction_timestamp (rows data) with
         | [] => Ok []
         | t :: ts =>
             let current_date := Zmax_list t ts in
             Ok (map (fun c =>
                        customer_metrics current_date c (group c (rows data)))
                     (group_keys (rows data)))
         end
     end)
    (fun e => raise FeatureError ("Error preprocessing data: " ++ str e)).

Section WithLibrary.
Context {lib : Library}.

(** [self.scaler.fit_transform(features)]: [fit] first forgets the fitted
    attributes, then checks the batch, then sets the new ones. *)
Definition scaler_fit_transform (X : list (list float))
  : result (list (list float)) * option StandardScalerParams :=
  match StandardScaler_fit X with
  | Raise e => (Raise e, None)
  | Ok p => (Ok (StandardScaler_transform p X), Some p)
  end.

(** [(data['last_transaction_date'].max() -
      data['last_transaction_date'].min()).days / 30]; NaN on no row. *)
Definition date_range (data : list CustomerMetrics) : float :=
  match map last_transaction_date data with
  | [] => NaN
  | t :: ts => Fin (inject_Z (days (Zmax_list t ts - Zmin_list t ts)) / 30)
  end.

(** The eight columns [engineer_features] assembles before scaling. *)
Definition feature_row (date_range : float) (r : CustomerMetrics)
  : list float :=
  [ Fin (total_spend r);
    Float.div (Fin (inject_Z (transaction_count r))) date_range;
    Fin (total_points r);
    Float.div (Fin (average_points_earned r))
              (Fin (average_transaction_value r));
    Fin (inject_Z (unique_banners r));
    Fin (average_basket_size r);
    Fin (inject_Z (days_since_last_visit r));
    Fin (inject_Z (unique_banners r) * average_basket_size r) ].

Definition raw_features (data : list CustomerMetrics) : list (list float) :=
  map (feature_row (date_range data)) data.

(** [CustomerSegmentation.engineer_features] *)
Definition engineer_features (self : CustomerSegmentation)
    (data : list CustomerMetrics)
  : result (list (list float)) * CustomerSegmentation :=
  let '(scaled_features, s) := scaler_fit_transform (raw_features data) in
  (try_except scaled_features
     (fun e => raise FeatureError ("Error engineering features: " ++ str e)),
   set_scaler self s).

(** [CustomerSegmentation.train]; [now] is what [datetime.now()] reads. *)
Definition train (self : CustomerSegmentation) (now : Z) (data : Transactions)
  : result unit * CustomerSegmentation :=
  let handler (e : exn) : result unit :=
    raise ModelError ("Error training model: " ++ str e) in
  match preprocess_data data with
  | Raise e => (try_except (Raise e) handler, self)
  | Ok processed_data =>
      match engineer_features self processed_data with
      | (Raise e, self) => (try_except (Raise e) handler, self)
      | (Ok features, self) =>
          let unfitted := {| kmeans_n_clusters := n_clusters self;
                             random_state := 42;
                             cluster_centers_ := None |} in
          match KMeans_fit (n_clusters self) 42 features with
          | Raise e =>
              (try_except (Raise e) handler, set_model self (Some unfitted))
          | Ok centers =>
              let fitted := {| kmeans_n_clusters := n_clusters self;
                               random_state := 42;
                               cluster_centers_ := Some centers |} in
              (Ok tt, set_last_trained (set_model self (Some fitted)) (Some now))
          end
      end
  end.

(** [str.title()] on ASCII text: a letter is upper case exactly when no
    letter precedes it. *)
Definition upper_ascii (c : ascii) : ascii :=
  let n := nat_of_ascii c in
  if (97 <=? n)%nat && (n <=? 122)%nat then ascii_of_nat (n - 32) else c.

Definition is_alpha (c : ascii) : bool :=
  let n := nat_of_ascii c in
  ((65 <=? n)%nat && (n <=? 90)%nat) || ((97 <=? n)%nat && (n <=? 122)%nat).

Fixpoint title_from (after_letter : bool) (s : string) : string :=
  match s with
  | EmptyString => EmptyString
  | String c s' =>
      String (if after_letter then lower_ascii c else upper_ascii c)
             (title_from (is_alpha c) s')
  end.

Definition title (s : string) : string := title_from false s.

Fixpoint join (sep : string) (l : list string) : string :=
  match l with
  | [] => ""
  | [x] => x
  | x :: t => x ++ sep ++ join sep t
  end.

(** The label of one centre, from its standardized coordinates. *)
Definition describe (center : list Q) : string :=
  let at_ (j : nat) := nth j center 0 in
  let half := 1 # 2 in
  let characteristics :=
    ((if Qlt_bool half (at_ 0%nat) then ["high spender"]
     else if Qlt_bool (at_ 0%nat) (- half) then ["low spender"] else []) ++
    (if Qlt_bool half (at_ 1%nat) then ["frequent shopper"]
     else if Qlt_bool (at_ 1%nat) (- half) then ["infrequent shopper"]
     else []) ++
    (if Qlt_bool half (at_ 4%nat) then ["multi-banner"] else []) ++
    (if Qlt_bool half (at_ 2%nat) then ["points saver"]
     else if Qlt_bool half (at_ 3%nat) then ["points redeemer"] else []))%list in
  title (match characteristics with
         | [] => "average"
         | _ => join " & " characteristics
         end).

(** [CustomerSegmentation._get_segment_descriptions]: one entry for each
    [segment_id] in [range(self.n_clusters)]. *)
Definition _get_segment_descriptions (self : CustomerSegmentation)
  : result (list (nat * string)) :=
  match model self with
  | None =>
      raise AttributeError
        "'NoneType' object has no attribute 'cluster_centers_'"
  | Some m =>
      match cluster_centers_ m with
      | None =>
          raise AttributeError
            "'KMeans' object has no attribute 'cluster_centers_'"
      | Some centers =>
          if negb (forallb (fun c => (List.length c =? 8)%nat) centers) then
            raise ValueError "Shape of passed values does not match the columns"
          else
            mapM (fun segment_id =>
                    match nth_error centers segment_id with
                    | None =>
                        raise IndexError
                          "single positional indexer is out-of-bounds"
                    | Some center => Ok (segment_id, describe center)
                    end)
                 (seq 0 (n_clusters self))
      end
  end.

(** A row of the frame [predict] returns; a segment without an entry in
    the descriptions maps to NaN, here [None]. *)
Record SegmentRow := {
  s_customer_id : string;
  segment : nat;
  segment_description : option string
}.

Fixpoint lookup_nat {A} (k : nat) (d : list (nat * A)) : option A :=
  match d with
  | [] => None
  | (k', v) :: d' => if (k =? k')%nat then Some v else lookup_nat k d'
  end.

(** [CustomerSegmentation.predict].  The handler is
    [raise PredictionError(...)], and customer_segmentation.py imports
    [BaseModel], [ModelError] and [FeatureError] only: evaluating the name
    raises [NameError], whatever was caught. *)
Definition predict (self : CustomerSegmentation) (data : Transactions)
  : result (list SegmentRow) * CustomerSegmentation :=
  let handler (e : exn) : result (list SegmentRow) :=
    raise NameError "name 'PredictionError' is not defined" in
  match preprocess_data data with
  | Raise e => (try_except (Raise e) handler, self)
  | Ok processed_data =>
      match engineer_features self processed_data with
      | (Raise e, self) => (try_except (Raise e) handler, self)
      | (Ok features, self) =>
          (try_except
             (segments <-
                match model self with
                | None =>
                    raise AttributeError
                      "'NoneType' object has no attribute 'predict'"
                | Some m => KMeans_predict m features
                end ;;
              descriptions <- _get_segment_descriptions self ;;
              Ok (map (fun '(r, seg) =>
                         {| s_customer_id := m_customer_id r;
                            segment := seg;
                            segment_description :=
                              lookup_nat seg descriptions |})
                      (combine processed_data segments)))
             handler, self)
      end
  end.

End WithLibrary.
End Segmentation.

(** ** models/recommendation.py *)

Module Recommendation.
Import Data Sklearn.

Inductive OfferType :=
  | POINTS_MULTIPLIER
  | POINTS_BONUS
  | CROSS_BANNER
  | CATEGORY_DISCOUNT
  | THRESHOLD_BONUS.

Definition offer_type_str (t : OfferType) : string :=
  match t with
  | POINTS_MULTIPLIER => "points_multiplier"
  | POINTS_BONUS => "points_bonus"
  | CROSS_BANNER => "cross_banner"
  | CATEGORY_DISCOUNT => "category_discount"
  | THRESHOLD_BONUS => "threshold_bonus"
  end.

Record Offer := {
  offer_type : OfferType;
  value : Q;
  conditions : list (string * Q);
  start_date : Z;
  end_date : Z;
  target_banners : option (list string);
  target_categories : option (list string)
}.

(** A row of the frame [preprocess_data] returns, under the labels the
    method gives its columns. *)
Record CustomerMetrics := {
  customer_id : string;
  transaction_count : Z;
  m_days_since_last_visit : Z;
  m_total_spend : Q;
  average_transaction : Q;
  total_points : Q;
  average_points : Q;
  unique_banners : Z;
  average_basket_size : Q
}.

(** A row of the frame [engineer_features] returns. *)
Record Features := {
  total_spend : float;
  visit_frequency : float;
  points_balance : float;
  points_redemption_rate : float;
  cross_banner_shopping : float;
  basket_size : float;
  days_since_last_visit : float;
  category_diversity : float
}.

Definition required_columns : list string :=
  ["customer_id"; "transaction_timestamp"; "total_amount"; "banner";
   "points_earned"; "items"; "segment"].

(** The aggregates of one customer's rows; [now] is what [datetime.now()]
    reads. *)
Definition customer_metrics (now : Z) (c : string) (g : list Transaction)
  : CustomerMetrics :=
  let last := match map transaction_timestamp g with
              | [] => now
              | t :: ts => Zmax_list t ts
              end in
  {| customer_id := c;
     transaction_count := Zlen g;
     m_days_since_last_visit := days (now - last);
     m_total_spend := Qsum (map total_amount g);
     average_transaction := Qmean (map total_amount g);
     total_points := Qsum (map points_earned g);
     average_points := Qmean (map points_earned g);
     unique_banners := nunique (map banner g);
     average_basket_size :=
       Qmean (map (fun r => inject_Z (Zlen (items r))) g) |}.

(** [RecommendationEngine.preprocess_data]; a frame without rows has no
    group and gives a frame without rows. *)
Definition preprocess_data (now : Z) (data : Transactions)
  : result (list CustomerMetrics) :=
  try_except
    (match missing_cols required_columns (columns data) with
     | _ :: _ => raise FeatureError "Missing required columns"
     | [] =>
         Ok (map (fun c => customer_metrics now c (group c (rows data)))
                 (group_keys (rows data)))
     end)
    (fun e => raise FeatureError ("Error preprocessing data: " ++ str e)).

(** What the sources take from scikit-learn and from the Python runtime
    and the embedding does not compute: the value
    [MinMaxScaler().fit_transform] gives a cell of a column, and what
    [sorted] does with a list one of whose keys is NaN, which compares with
    nothing. *)
Class Library := {
  minmax_scale : list Q -> Q -> float;
  sorted_with_nan : list (float * Offer) -> result (list (float * Offer))
}.

Section WithLibrary.
Context {lib : Library}.

(** [MinMaxScaler().fit_transform(data[[column]])] on the one column of a
    frame: an array of the shape of the column, (n, 1), here the list of
    its n cells; no sample at all is refused. *)
Definition MinMaxScaler_fit_transform (X : list Q) : result (list float) :=
  match X with
  | [] =>
      raise ValueError
        "Found array with 0 sample(s) (shape=(0, 1)) while a minimum of 1 is required by MinMaxScaler."
  | _ => Ok (map (minmax_scale X) X)
  end.

(** [features[column] = value] for [features = pd.DataFrame()] and the
    array [value] of a scaler.  A frame without an index takes its index
    from the value, which must convert to a Series, and an array of two
    dimensions that has a row does not. *)
Definition setitem_without_index (value : list float) : result unit :=
  match value with
  | [] => Ok tt
  | _ :: _ =>
      raise ValueError
        "Cannot set a frame with no defined index and a value that cannot be converted to a Series"
  end.

(** [RecommendationEngine.engineer_features]; the scaler is fitted anew
    for each of the five columns it scales.  The first assignment is the
    one to the frame without an index; the statements after it are as the
    source has them, in doubles. *)
Definition engineer_features (data : list CustomerMetrics)
  : result (list Features) :=
  try_except
    (total_spend <- MinMaxScaler_fit_transform (map m_total_spend data) ;;
     _ <- setitem_without_index total_spend ;;
     let visit_frequency :=
       map (fun r => div64 (double (inject_Z (transaction_count r)))
                           (double (inject_Z (m_days_since_last_visit r + 1))))
           data in
     points_balance <- MinMaxScaler_fit_transform (map total_points data) ;;
     let points_redemption_rate :=
       map (fun r => div64 (double (average_points r))
                           (add64 (double (average_transaction r)) (Fin 1)))
           data in
     cross_banner_shopping <-
       MinMaxScaler_fit_transform
         (map (fun r => inject_Z (unique_banners r)) data) ;;
     basket_size <-
       MinMaxScaler_fit_transform (map average_basket_size data) ;;
     days_since_last_visit <-
       MinMaxScaler_fit_transform
         (map (fun r => inject_Z (m_days_since_last_visit r)) data) ;;
     Ok (map (fun i =>
                {| total_spend := nth i total_spend NaN;
                   visit_frequency := nth i visit_frequency NaN;
                   points_balance := nth i points_balance NaN;
                   points_redemption_rate := nth i points_redemption_rate NaN;
                   cross_banner_shopping := nth i cross_banner_shopping NaN;
                   basket_size := nth i basket_size NaN;
                   days_since_last_visit := nth i days_since_last_visit NaN;
                   category_diversity :=
                     mul64 (nth i cross_banner_shopping NaN)
                           (nth i basket_size NaN) |})
             (seq 0 (List.length data))))
    (fun e => raise FeatureError ("Error engineering features: " ++ str e)).

(** [needle in hay] for strings *)
Fixpoint contains (needle hay : string) : bool :=
  String.prefix needle hay ||
  match hay with
  | EmptyString => false
  | String _ hay' => contains needle hay'
  end.

Definition all_banners : list string :=
  ["Sobeys"; "Safeway"; "IGA"; "Foodland"; "FreshCo"].

(** [RecommendationEngine._get_recommended_banners] *)
Definition _get_recommended_banners (customer : dict) : result (list string) :=
  match lookup "banner" customer with
  | None => key_error "banner"
  | Some (VStr s) =>
      Ok (filter (fun b => negb (contains (lower b) (lower s))) all_banners)
  | Some _ => raise AttributeError "object has no attribute 'lower'"
  end.

(** [RecommendationEngine._get_recommended_categories] *)
Definition _get_recommended_categories (customer : dict) : list string :=
  ["Produce"; "Dairy"; "Meat"; "Bakery"; "Pantry"].

(** The table of [_calculate_offer_value], with the numbers as the source
    writes them. *)
Definition segment_multipliers : list (string * Q) :=
  [("High Spender", 12 # 10); ("Frequent Shopper", 11 # 10);
   ("Points Saver", 13 # 10); ("Multi-Banner", 115 # 100)].

(** The name Python prints for the type of a cell. *)
Definition type_name (v : object) : string :=
  match v with
  | VNone => "NoneType"
  | VNaN | VNum _ => "float"
  | VStr _ => "str"
  | VTime _ => "Timestamp"
  | VNaT => "NaTType"
  | VList _ => "list"
  | VDict _ => "dict"
  end.

(** A cell as an operand of float arithmetic: a number converts to the
    nearest double, and one beyond the doubles does not convert; a missing
    number stays missing under a product or a quotient with a float and
    compares with nothing, NaN as NaN and NaT as NaT, both written [NaN]
    here; any other cell is no operand. *)
Definition as_float (v : object) : option (result float) :=
  match v with
  | VNum q =>
      Some (match double q with
            | Fin d => Ok (Fin d)
            | _ => raise OverflowError "int too large to convert to float"
            end)
  | VNaN | VNaT => Some (Ok NaN)
  | _ => None
  end.

(** [RecommendationEngine._calculate_offer_value] *)
Definition _calculate_offer_value (offer : Offer) (customer : dict)
  : result float :=
  let base_value := double (value offer) in
  base_value <-
    match offer_type offer with
    | POINTS_MULTIPLIER =>
        match lookup "average_points" customer with
        | None => key_error "average_points"
        | Some v =>
            match as_float v with
            | Some average_points =>
                average_points <- average_points ;;
                Ok (mul64 base_value average_points)
            | None =>
                raise TypeError
                  match v with
                  | VStr _ | VList _ =>
                      "can't multiply sequence by non-int of type 'float'"
                  | _ =>
                      "unsupported operand type(s) for *=: 'float' and '"
                      ++ type_name v ++ "'"
                  end
            end
        end
    | THRESHOLD_BONUS =>
        match lookup "average_transaction" customer with
        | None => key_error "average_transaction"
        | Some v =>
            match lookup "spend_threshold" (conditions offer) with
            | None => key_error "spend_threshold"
            | Some spend_threshold =>
                match as_float v with
                | Some average_transaction =>
                    average_transaction <- average_transaction ;;
                    match double spend_threshold with
                    | Fin t =>
                        if Qeq_bool t 0
                        then raise ZeroDivisionError "float division by zero"
                        else Ok (mul64 base_value
                                   (div64 average_transaction (Fin t)))
                    | other =>
                        Ok (mul64 base_value (div64 average_transaction other))
                    end
                | None =>
                    raise TypeError
                      ("unsupported operand type(s) for /: '" ++ type_name v
                       ++ "' and 'float'")
                end
            end
        end
    | _ => Ok base_value
    end ;;
  match lookup "segment_description" customer with
  | None => key_error "segment_description"
  | Some (VList _) => raise TypeError "unhashable type: 'list'"
  | Some (VDict _) => raise TypeError "unhashable type: 'dict'"
  | Some d =>
      let multiplier :=
        match d with
        | VStr s => match lookup s segment_multipliers with
                    | Some m => m
                    | None => 1
                    end
        | _ => 1
        end in
      Ok (mul64 base_value (double multiplier))
  end.

(** [sorted(l, key=..., reverse=True)] on the list decorated with its keys:
    descending, and elements with equal keys stay in their order.  This is
    the order of every stable sort when the keys compare with each other;
    with a NaN among them the outcome is the library's. *)
Fixpoint insert_desc {A} (x : float * A) (l : list (float * A))
  : list (float * A) :=
  match l with
  | [] => [x]
  | y :: t =>
      if leb (fst y) (fst x) then x :: l else y :: insert_desc x t
  end.

Definition sorted_reverse (l : list (float * Offer))
  : result (list (float * Offer)) :=
  if existsb (fun kv => isnan (fst kv)) l then sorted_with_nan l
  else Ok (fold_right insert_desc [] l).

(** [l[:n]]; a negative [n] counts from the end. *)
Definition slice_to {A} (l : list A) (n : Z) : list A :=
  if (0 <=? n)%Z then firstn (Z.to_nat n) l
  else firstn (List.length l - Z.to_nat (- n)) l.

Definition day : Z := 86400.

(** The candidates of [_generate_customer_offers], in the order of the
    five [if] statements; a feature is compared with the double that the
    literal of the source denotes. *)
Definition candidate_offers (now : Z) (customer : dict) (features : Features)
  : result (list Offer) :=
  let offers : list Offer := [] in
  let offers :=
    if Float.gt (points_redemption_rate features) (literal (7 # 10)) then
      (offers ++ [{| offer_type := POINTS_MULTIPLIER; value := 2;
                     conditions := [("min_spend", 50)];
                     start_date := now; end_date := now + 30 * day;
                     target_banners := None; target_categories := None |}])%list
    else offers in
  offers <-
    (if Float.lt (cross_banner_shopping features) (literal (3 # 10)) then
       banners <- _get_recommended_banners customer ;;
       Ok (offers ++ [{| offer_type := CROSS_BANNER; value := 500;
                         conditions := [("min_spend", 75)];
                         start_date := now; end_date := now + 30 * day;
                         target_banners := Some banners;
                         target_categories := None |}])%list
     else Ok offers) ;;
  let offers :=
    if Float.lt (category_diversity features) (literal (5 # 10)) then
      (offers ++ [{| offer_type := CATEGORY_DISCOUNT; value := 15 # 100;
                     conditions := [("min_spend", 25)];
                     start_date := now; end_date := now + 14 * day;
                     target_banners := None;
                     target_categories :=
                       Some (_get_recommended_categories customer) |}])%list
    else offers in
  let offers :=
    if Float.gt (total_spend features) (literal (7 # 10)) then
      (offers ++ [{| offer_type := THRESHOLD_BONUS; value := 1000;
                     conditions := [("spend_threshold", 150)];
                     start_date := now; end_date := now + 30 * day;
                     target_banners := None; target_categories := None |}])%list
    else offers in
  let offers :=
    if Float.gt (days_since_last_visit features) (literal (8 # 10)) then
      (offers ++ [{| offer_type := POINTS_BONUS; value := 250;
                     conditions := [("min_spend", 25)];
                     start_date := now; end_date := now + 7 * day;
                     target_banners := None; target_categories := None |}])%list
    else offers in
  Ok offers.

(** The list with the key of each element, as [sorted] computes them. *)
Definition decorate (customer : dict) (offers : list Offer)
  : result (list (float * Offer)) :=
  mapM (fun o => k <- _calculate_offer_value o customer ;; Ok (k, o)) offers.

(** [RecommendationEngine._generate_customer_offers] *)
Definition _generate_customer_offers (now : Z) (customer : dict)
    (features : Features) (n_offers : Z) : result (list Offer) :=
  offers <- candidate_offers now customer features ;;
  keyed <- decorate customer offers ;;
  ranked <- sorted_reverse keyed ;;
  Ok (slice_to (map snd ranked) n_offers).

(** The segment frame handed to [generate_offers]: its labels and rows. *)
Record Segments := {
  seg_columns : list string;
  seg_rows : list Segmentation.SegmentRow
}.

(** The frame [CustomerSegmentation.predict] returns. *)
Definition segments_frame (rows : list Segmentation.SegmentRow) : Segments :=
  {| seg_columns := ["customer_id"; "segment"; "segment_description"];
     seg_rows := rows |}.

(** [segment_data[['customer_id', 'segment', 'segment_description']]] *)
Definition select_segment_columns (segment_data : Segments)
  : result (list Segmentation.SegmentRow) :=
  match missing_cols ["customer_id"; "segment"; "segment_description"]
          (seg_columns segment_data) with
  | [] => Ok (seg_rows segment_data)
  | c :: _ => raise KeyError ("['" ++ c ++ "'] not in index")
  end.

(** A row of the merged frame: the columns of [processed_data], then the
    two of the segment frame. *)
Definition profile_row (m : CustomerMetrics) (s : Segmentation.SegmentRow)
  : dict :=
  [("customer_id", VStr (customer_id m));
   ("transaction_count", VNum (inject_Z (transaction_count m)));
   ("days_since_last_visit", VNum (inject_Z (m_days_since_last_visit m)));
   ("total_spend", VNum (m_total_spend m));
   ("average_transaction", VNum (average_transaction m));
   ("total_points", VNum (total_points m));
   ("average_points", VNum (average_points m));
   ("unique_banners", VNum (inject_Z (unique_banners m)));
   ("average_basket_size", VNum (average_basket_size m));
   ("segment", VNum (inject_Z (Z.of_nat (Segmentation.segment s))));
   ("segment_description",
    match Segmentation.segment_description s with
    | Some d => VStr d
    | None => VNaN
    end)].

(** [pd.merge(left, right, on='customer_id')]: an inner join, the rows in
    the order of the left frame, under a fresh index 0, 1, ... *)
Definition merge (left : list CustomerMetrics)
    (right : list Segmentation.SegmentRow) : list (string * dict) :=
  flat_map (fun m =>
              map (fun s => (customer_id m, profile_row m s))
                  (filter (fun s => String.eqb (Segmentation.s_customer_id s)
                                               (customer_id m)) right))
           left.

(** [offers[k] = v] on a dict, which keeps the place of a key it has. *)
Fixpoint dict_set {A} (d : list (string * A)) (k : string) (v : A)
  : list (string * A) :=
  match d with
  | [] => [(k, v)]
  | (k', v') :: rest =>
      if String.eqb k k' then (k, v) :: rest else (k', v') :: dict_set rest k v
  end.

(** The loop over [customer_profiles.iterrows()]; [name] is the index label
    of the row, and [features.loc[name]] the row of [features] under it. *)
Fixpoint offers_loop (now : Z) (features : list Features) (n_offers : Z)
    (profiles : list (string * dict)) (name : nat)
    (offers : list (string * list Offer))
  : result (list (string * list Offer)) :=
  match profiles with
  | [] => Ok offers
  | (cid, customer) :: rest =>
      match nth_error features name with
      | None => raise KeyError (NilEmpty.string_of_uint (Nat.to_uint name))
      | Some f =>
          o <- _generate_customer_offers now customer f n_offers ;;
          offers_loop now features n_offers rest (S name)
                      (dict_set offers cid o)
      end
  end.

(** [RecommendationEngine.generate_offers] *)
Definition generate_offers (now : Z) (customer_data : Transactions)
    (segment_data : Segments) (n_offers : Z)
  : result (list (string * list Offer)) :=
  try_except
    (processed_data <- preprocess_data now customer_data ;;
     features <- engineer_features processed_data ;;
     segments <- select_segment_columns segment_data ;;
     let customer_profiles := merge processed_data segments in
     offers_loop now features n_offers customer_profiles 0 [])
    (fun e => raise ModelError ("Error generating offers: " ++ str e)).

End WithLibrary.
End Recommendation.

(** ** The specification's own wording, for comparison with the code *)

Module Spec.
Import Data.

(** "the maximum transaction timestamp across all customers in the batch" *)
Definition batch_latest (rows : list Transaction) : Z :=
  match map transaction_timestamp rows with
  | [] => 0
  | t :: ts => Zmax_list t ts
  end.

(** "that customer's own maximum timestamp" *)
Definition customer_latest (c : string) (rows : list Transaction) : Z :=
  batch_latest (group c rows).

(** "the whole-day difference between" the two *)
Definition batch_relative_recency (rows : list Transaction) (c : string) : Z :=
  days (batch_latest rows - customer_latest c rows).

(** "the segment multiplier found by exact string match on
    segment_description (High Spender 1.2, Frequent Shopper 1.1, Points
    Saver 1.3, Multi-Banner 1.15, anything else 1.0)" *)
Definition segment_multiplier (segment_description : string) : Q :=
  if String.eqb segment_description "High Spender" then 12 # 10
  else if String.eqb segment_description "Frequent Shopper" then 11 # 10
  else if String.eqb segment_description "Points Saver" then 13 # 10
  else if String.eqb segment_description "Multi-Banner" then 115 # 100
  else 1.

Definition spend_threshold (o : Recommendation.Offer) : Q :=
  match lookup "spend_threshold" (Recommendation.conditions o) with
  | Some t => t
  | None => 0
  end.

(** "raw value, scaled by average points earned for points_multiplier
    offers and by (average transaction value / spend threshold) for
    threshold_bonus offers and unmodified otherwise, then multiplied by the
    segment multiplier", each product and quotient being that of two
    doubles. *)
Definition final_score (o : Recommendation.Offer)
    (average_points average_transaction : float) (segment_description : string)
  : float :=
  mul64
    match Recommendation.offer_type o with
    | Recommendation.POINTS_MULTIPLIER =>
        mul64 (double (Recommendation.value o)) average_points
    | Recommendation.THRESHOLD_BONUS =>
        mul64 (double (Recommendation.value o))
              (div64 average_transaction (double (spend_threshold o)))
    | _ => double (Recommendation.value o)
    end
    (double (segment_multiplier segment_description)).

(** The rule table of section 4.5: condition, offer type, value, window
    and conditions of each rule, in order; [targets] stands for the banners
    of the cross-banner offer. *)
Definition offer (t : Recommendation.OfferType) (v : Q)
    (conditions : list (string * Q)) (start days : Z)
    (banners categories : option (list string)) : Recommendation.Offer :=
  {| Recommendation.offer_type := t; Recommendation.value := v;
     Recommendation.conditions := conditions;
     Recommendation.start_date := start;
     Recommendation.end_date := start + days * 86400;
     Recommendation.target_banners := banners;
     Recommendation.target_categories := categories |}.



(** "sorted by this score descending": each element's key is at least
    the key of every later one. *)
Definition ge_key {A} (x y : float * A) : Prop := leb (fst y) (fst x) = true.

(** "two candidates with equal final scores": the elements under key [k] *)
Definition same_key {A} (k : float) (x : float * A) : bool := eqb (fst x) k.

(** The text of a segment description; a cell that holds no text matches
    no multiplier. *)
Definition description_text (v : object) : string :=
  match v with VStr s => s | _ => "" end.

(** A cell that can be looked up in a dict: neither a list nor a dict. *)
Definition hashable (v : object) : bool :=
  match v with VList _ | VDict _ => false | _ => true end.

End Spec.

(** ** Sample batches *)

Module Samples.
Import Pandas Transformers.

Definition index_str (i : nat) : string :=
  NilEmpty.string_of_uint (Nat.to_uint i).

Definition one_item : object :=
  VList [VDict [("sku", VStr "SKU001"); ("quantity", VNum 1);
                ("price", VNum 20)]].

(** A raw retail batch of [n] records under the source's own labels;
    record [i] has the amount [amount i]. *)
Definition retail_batch (n : nat) (amount : nat -> Q) : DataFrame :=
  let idx := seq 0 n in
  [("trans_id", map (fun i => VStr ("T" ++ index_str i)) idx);
   ("store_number", map (fun _ => VStr "S1") idx);
   ("cust_id", map (fun i => VStr ("C" ++ index_str i)) idx);
   ("timestamp", map (fun i => VTime (1700000000 + Z.of_nat i)) idx);
   ("amount", map (fun i => VNum (amount i)) idx);
   ("retail_banner", map (fun _ => VStr "Sobeys") idx);
   ("items", map (fun _ => one_item) idx);
   ("payment_type", map (fun _ => VStr "credit") idx);
   ("scene_points", map (fun _ => VNum 10) idx)].

(** Fifty records, all valid but record 7, whose amount is negative. *)
Definition retail_50_one_negative : DataFrame :=
  retail_batch 50 (fun i => if (i =? 7)%nat then (-5) else 20).

Definition retail_50_valid : DataFrame := retail_batch 50 (fun _ => 20).

(** The record of [retail_50_one_negative] with the negative amount, as
    the validation loop receives it. *)
Definition negative_record : dict :=
  [("transaction_id", VStr "T7"); ("store_id", VStr "S1");
   ("customer_id", VStr "C7"); ("transaction_timestamp", VTime 1700000007);
   ("total_amount", VNum (-5)); ("banner", VStr "sobeys");
   ("items", one_item); ("payment_method", VStr "credit");
   ("points_earned", VNum 10)].

Definition retail_50_columns : DataFrame :=
  match @retail_columns typed_cells retail_50_one_negative with
  | Ok d => d
  | Raise _ => []
  end.

(** Three valid records but for the items of the second, a text with two
    fields where the pipe format has three. *)
Definition retail_3_malformed_items : DataFrame :=
  setitem (retail_batch 3 (fun _ => 20)) "items"
          [one_item; VStr "SKU001,2"; one_item].

(** A Scene+ batch of two records that satisfy [SceneTransaction]. *)
Definition scene_valid : DataFrame :=
  [("scene_transaction_id", [VStr "X1"; VStr "X2"]);
   ("scene_member_id", [VStr "M1"; VStr "M2"]);
   ("type", [VStr "EARN"; VStr "redeem"]);
   ("points_value", [VNum 100; VNum 40]);
   ("timestamp", [VTime 1700000000; VTime 1700000500]);
   ("partner_name", [VStr "Cineplex"; VStr "Scotiabank"]);
   ("original_transaction_id", [VStr "T1"; VNone])].

(** *** Transaction batches *)

Definition all_columns : list string :=
  ["customer_id"; "transaction_timestamp"; "total_amount"; "banner";
   "points_earned"; "items"; "segment"].

Definition tx (c : string) (t : Z) (amount : Q) (b : string) (points : Q)
    (n_items : nat) : Data.Transaction :=
  {| Data.customer_id := c; Data.transaction_timestamp := t;
     Data.total_amount := amount; Data.banner := b;
     Data.points_earned := points;
     Data.items := repeat [("sku", VStr "SKU001"); ("quantity", VNum 1);
                           ("price", VNum 20)] n_items |}.

Definition t0 : Z := 1700000000.

(** Two customers: CUST001 shops at two banners, last on day 5; CUST002
    bought once, on day 2. *)
Definition two_customers : Data.Transactions :=
  {| Data.columns := all_columns;
     Data.rows :=
       [tx "CUST001" t0 100 "Sobeys" 50 2;
        tx "CUST002" (t0 + 2 * 86400) 20 "IGA" 5 1;
        tx "CUST001" (t0 + 5 * 86400) 60 "Safeway" 30 1] |}.

(** One customer, two purchases on one day. *)
Definition one_customer : Data.Transactions :=
  {| Data.columns := all_columns;
     Data.rows :=
       [tx "CUST001" t0 100 "Sobeys" 50 2;
        tx "CUST001" (t0 + 3600) 60 "Safeway" 30 1] |}.

(** A customer row as the unit tests build it, with a [banner] entry; its
    averages make three offers tie at 500, and at 600 after the multiplier
    of its segment. *)
Definition sobeys_customer : dict :=
  [("banner", VStr "Sobeys"); ("average_points", VNum 250);
   ("average_transaction", VNum 75);
   ("segment_description", VStr "High Spender")].


(** A row whose two scores are equal as fractions, 2 * 62.96875 and
    1000 * (18.890625 / 150), and differ as doubles. *)
Definition close_customer : dict :=
  [("banner", VStr "Sobeys"); ("average_points", VNum (2015 # 32));
   ("average_transaction", VNum (1209 # 64));
   ("segment_description", VStr "Average")].

(** Features under which all five rules fire; each is a double. *)
Definition all_rules_fire : Recommendation.Features :=
  {| Recommendation.total_spend := Fin (7 # 8);
     Recommendation.visit_frequency := Fin 1;
     Recommendation.points_balance := Fin 1;
     Recommendation.points_redemption_rate := Fin (7 # 8);
     Recommendation.cross_banner_shopping := Fin (1 # 8);
     Recommendation.basket_size := Fin (1 # 8);
     Recommendation.days_since_last_visit := Fin (7 # 8);
     Recommendation.category_diversity := Fin (1 # 64) |}.

Fixpoint Qmin_list (x : Q) (l : list Q) : Q :=
  match l with
  | [] => x
  | y :: t => Qmin_list (if Qle_bool y x then y else x) t
  end.

Fixpoint Qmax_list (x : Q) (l : list Q) : Q :=
  match l with
  | [] => x
  | y :: t => Qmax_list (if Qle_bool x y then y else x) t
  end.

Definition scale_once (X : list Q) (v : Q) : float :=
  match X with
  | [] => NaN
  | x :: t =>
      let data_min := Qmin_list x t in
      let data_range := Qmax_list x t - data_min in
      double ((v - data_min) / (if Qeq_bool data_range 0 then 1 else data_range))
  end.

(** A library for the runs below: a scaler that computes
    [(x - min) / (max - min)] as a fraction and rounds once, a constant
    column being divided by 1, and a [sorted] that leaves a list with a NaN
    key as it is. *)
Definition recommendation_library : Recommendation.Library := {|
  Recommendation.minmax_scale := scale_once;
  Recommendation.sorted_with_nan := fun l => Ok l
|}.

Definition seg_row (c : string) (k : nat) (d : string)
  : Segmentation.SegmentRow :=
  {| Segmentation.s_customer_id := c; Segmentation.segment := k;
     Segmentation.segment_description := Some d |}.

(** Segment assignments for CUST001 alone, and for both customers. *)
Definition segments_cust001 : Recommendation.Segments :=
  Recommendation.segments_frame [seg_row "CUST001" 0 "High Spender"].

Definition segments_both : Recommendation.Segments :=
  Recommendation.segments_frame
    [seg_row "CUST001" 0 "High Spender"; seg_row "CUST002" 1 "Average"].

(** Segment assignments that name neither customer of [two_customers]. *)
Definition segments_others : Recommendation.Segments :=
  Recommendation.segments_frame
    [seg_row "CUST003" 0 "High Spender"; seg_row "CUST004" 1 "Average"].

Definition cust002_metrics : Recommendation.CustomerMetrics :=
  {| Recommendation.customer_id := "CUST002";
     Recommendation.transaction_count := 1;
     Recommendation.m_days_since_last_visit := 13;
     Recommendation.m_total_spend := 20;
     Recommendation.average_transaction := 20;
     Recommendation.total_points := 5;
     Recommendation.average_points := 5;
     Recommendation.unique_banners := 1;
     Recommendation.average_basket_size := 1 |}.

(** Another batch: three customers, last seen on days 20, 26 and 29. *)
Definition three_customers : Data.Transactions :=
  {| Data.columns := all_columns;
     Data.rows :=
       [tx "CUST001" (t0 + 20 * 86400) 500 "Sobeys" 10 4;
        tx "CUST002" (t0 + 26 * 86400) 35 "IGA" 70 1;
        tx "CUST003" (t0 + 29 * 86400) 80 "FreshCo" 8 3;
        tx "CUST003" (t0 + 27 * 86400) 120 "Safeway" 12 2] |}.

(** A library for the runs below: the square root to six decimals, and a
    KMeans that refuses NaN cells and batches smaller than [k] and
    otherwise stops at its first [k] rows as centres. *)
Definition sqrt_6 (q : Q) : Q :=
  Z.sqrt (Qfloor (q * 1000000000000)) # 1000000.

Definition first_rows_library : Sklearn.Library := {|
  Sklearn.np_sqrt := sqrt_6;
  Sklearn.KMeans_fit := fun k _ X =>
    if existsb (existsb (fun x => negb (isfinite x))) X then
      raise ValueError "Input X contains NaN."
    else if (List.length X <? k)%nat then
      raise ValueError "n_samples should be >= n_clusters"
    else Ok (map finite_values (firstn k X))
|}.

(** [init 2] after [train] on [two_customers], with the library above. *)
Definition trained_on_two : Segmentation.CustomerSegmentation :=
  snd (@Segmentation.train first_rows_library (Segmentation.init 2)
         (t0 + 15 * 86400) two_customers).

(** The clock a minute after the last purchase of [two_customers]. *)
Definition now_day5 : Z := t0 + 5 * 86400 + 60.

(** The clock, fifteen days after [t0]. *)
Definition now : Z := t0 + 15 * 86400.

End Samples.

(** ** transformers/partner.py and the partner schema *)

Module Partner.
Import Pandas Transformers.

Section Partner.
Context {text : TextLibrary}.

(** [PartnerTransaction.validate_partner] *)
Definition validate_partner (v : object) : result object :=
  match v with
  | VStr s =>
      if existsb (String.eqb (lower s)) ["cineplex"; "scotiabank"]
      then Ok (VStr (lower s))
      else invalid "partner_id"
             "Partner must be one of ['cineplex', 'scotiabank']"
  | _ => Ok v
  end.

Definition PartnerTransaction (record : dict) : result dict :=
  transaction_id <- field_str record "transaction_id" ;;
  partner_id <- field_str record "partner_id" ;;
  partner_id <- validate_partner partner_id ;;
  member_id <- field_str record "member_id" ;;
  transaction_timestamp <- field_datetime record "transaction_timestamp" ;;
  transaction_type <- field_str record "transaction_type" ;;
  amount <- field_float_ge0 record "amount" ;;
  points <- field_float record "points" ;;
  location <- field_optional_str record "location" ;;
  Ok [("transaction_id", transaction_id); ("partner_id", partner_id);
      ("member_id", member_id);
      ("transaction_timestamp", transaction_timestamp);
      ("transaction_type", transaction_type); ("amount", amount);
      ("points", points); ("location", location)].

Definition PartnerTransformer : BaseTransformer := init PartnerTransaction.

(** The statements of [PartnerTransformer.transform] between
    [clear_errors] and the validation loop. *)
Definition partner_columns (data : DataFrame) : result DataFrame :=
  let data := rename data
    [("partner_transaction_id", "transaction_id"); ("partner", "partner_id");
     ("scene_member_id", "member_id"); ("timestamp", "transaction_timestamp");
     ("transaction_category", "transaction_type");
     ("transaction_amount", "amount"); ("points_value", "points");
     ("transaction_location", "location")] in
  col <- getitem data "transaction_timestamp" ;;
  col <- to_datetime col ;;
  let data := setitem data "transaction_timestamp" col in
  col <- getitem data "amount" ;;
  col <- astype_float col ;;
  let data := setitem data "amount" col in
  col <- getitem data "points" ;;
  col <- astype_float col ;;
  let data := setitem data "points" col in
  col <- getitem data "partner_id" ;;
  col <- str_lower col ;;
  let data := setitem data "partner_id" col in
  col <- getitem data "location" ;;
  col <- fillna col None ;;
  Ok (setitem data "location" col).

(** [PartnerTransformer.transform] *)
Definition partner_transform (self : BaseTransformer) (data : DataFrame)
  : result DataFrame * BaseTransformer :=
  let self := clear_errors self in
  validate_and_build "partner" self (partner_columns data).

End Partner.
End Partner.

(** ** Segment profiles: the rest of models/customer_segmentation.py *)

Module Profiles.
Import Sklearn Segmentation.

(** Product and sum of floats. *)
Definition mul (x y : float) : float :=
  match x, y with
  | NaN, _ | _, NaN => NaN
  | Fin a, Fin b => Fin (a * b)
  | Fin a, PInf | PInf, Fin a =>
      if Qeq_bool a 0 then NaN else if Qle_bool 0 a then PInf else NInf
  | Fin a, NInf | NInf, Fin a =>
      if Qeq_bool a 0 then NaN else if Qle_bool 0 a then NInf else PInf
  | PInf, PInf | NInf, NInf => PInf
  | PInf, NInf | NInf, PInf => NInf
  end.

Definition add (x y : float) : float :=
  match x, y with
  | NaN, _ | _, NaN => NaN
  | Fin a, Fin b => Fin (a + b)
  | PInf, NInf | NInf, PInf => NaN
  | PInf, _ | _, PInf => PInf
  | NInf, _ | _, NInf => NInf
  end.

Fixpoint zip_with (op : float -> float -> float) (row v : list float)
  : list float :=
  match row, v with
  | x :: row', y :: v' => op x y :: zip_with op row' v'
  | _, _ => []
  end.

(** [X op= v] on a matrix and a vector, as numpy broadcasts it in place: a
    vector of one entry goes over every cell, and another one must have the
    width of the matrix.  The text of the error is cut before the shapes it
    names. *)
Definition broadcast (op : float -> float -> float) (X : list (list float))
    (v : list float) : result (list (list float)) :=
  match v with
  | [y] => Ok (map (map (fun x => op x y)) X)
  | _ =>
      if forallb (fun row => (List.length row =? List.length v)%nat) X
      then Ok (map (fun row => zip_with op row v) X)
      else if (n_features X =? 1)%nat
      then raise ValueError "non-broadcastable output operand"
      else raise ValueError "operands could not be broadcast together"
  end.

(** [StandardScaler.inverse_transform]: refuses a scaler that was not
    fitted and an array without a row or without a column, then multiplies
    by [scale_] and adds [mean_]. *)
Definition inverse_transform (scaler : option StandardScalerParams)
    (X : list (list Q)) : result (list (list float)) :=
  match scaler with
  | None =>
      raise ValueError
        "This StandardScaler instance is not fitted yet. Call 'fit' with appropriate arguments before using this estimator."
  | Some p =>
      match X with
      | [] =>
          raise ValueError
            "Found array with 0 sample(s) while a minimum of 1 is required."
      | row :: _ =>
          if (List.length row =? 0)%nat then
            raise ValueError
              "Found array with 0 feature(s) while a minimum of 1 is required."
          else
            scaled <- broadcast mul (map (map Fin) X) (scale_ p) ;;
            broadcast add scaled (mean_ p)
      end
  end.

(** The positions of a label among the columns. *)
Fixpoint positions (label : string) (columns : list string) (j : nat)
  : list nat :=
  match columns with
  | [] => []
  | c :: rest =>
      if String.eqb label c then j :: positions label rest (S j)
      else positions label rest (S j)
  end.

(** [center[label] > threshold] as the condition of an [if]: a label that
    is absent is a [KeyError], and one that occurs twice selects a Series,
    whose truth value is refused. *)
Definition center_at (columns : list string) (center : list Q)
    (label : string) : result Q :=
  match positions label columns 0 with
  | [] => key_error label
  | [j] => Ok (nth j center 0)
  | _ => raise ValueError
           "The truth value of a Series is ambiguous. Use a.empty, a.bool(), a.item(), a.any() or a.all()."
  end.

(** The body of the loop of [_get_segment_descriptions], the centre being
    read by the labels of [columns]. *)
Definition describe_by_label (columns : list string) (center : list Q)
  : result string :=
  let half := 1 # 2 in
  total_spend <- center_at columns center "total_spend" ;;
  let characteristics : list string :=
    if Qlt_bool half total_spend then ["high spender"]
    else if Qlt_bool total_spend (- half) then ["low spender"] else [] in
  visit_frequency <- center_at columns center "visit_frequency" ;;
  let characteristics :=
    (characteristics ++
     (if Qlt_bool half visit_frequency then ["frequent shopper"]
      else if Qlt_bool visit_frequency (- half) then ["infrequent shopper"]
      else []))%list in
  cross_banner_shopping <- center_at columns center "cross_banner_shopping" ;;
  let characteristics :=
    (characteristics ++
     (if Qlt_bool half cross_banner_shopping then ["multi-banner"] else []))%list
  in
  points_balance <- center_at columns center "points_balance" ;;
  characteristics <-
    (if Qlt_bool half points_balance
     then Ok (characteristics ++ ["points saver"])%list
     else
       points_redemption_rate <-
         center_at columns center "points_redemption_rate" ;;
       Ok (characteristics ++
           (if Qlt_bool half points_redemption_rate
            then ["points redeemer"] else []))%list) ;;
  Ok (title (match characteristics with
             | [] => "average"
             | _ => join " & " characteristics
             end)).

(** [_get_segment_descriptions(features, segments)] for a frame [features]
    with the given columns. *)
Definition descriptions_by_label (self : CustomerSegmentation)
    (columns : list string) : result (list (nat * string)) :=
  match model self with
  | None =>
      raise AttributeError
        "'NoneType' object has no attribute 'cluster_centers_'"
  | Some m =>
      match cluster_centers_ m with
      | None =>
          raise AttributeError
            "'KMeans' object has no attribute 'cluster_centers_'"
      | Some centers =>
          if negb (forallb (fun c => (List.length c =? List.length columns)%nat)
                           centers)
          then raise ValueError
                 "Shape of passed values does not match the columns"
          else
            mapM (fun segment_id =>
                    match nth_error centers segment_id with
                    | None =>
                        raise IndexError
                          "single positional indexer is out-of-bounds"
                    | Some center =>
                        d <- describe_by_label columns center ;;
                        Ok (segment_id, d)
                    end)
                 (seq 0 (n_clusters self))
      end
  end.

(** A row of the frame [get_segment_profiles] returns: the centre in the
    units of the features, its segment and its description. *)
Record SegmentProfile := {
  center : list float;
  p_segment : nat;
  description : option string
}.

(** [CustomerSegmentation.get_segment_profiles], for feature columns
    other than the two names the method adds to the frame, [segment] and
    [description]. *)
Definition get_segment_profiles (self : CustomerSegmentation)
  : result (list SegmentProfile) :=
  match model self with
  | None => raise ModelError "Model has not been trained"
  | Some m =>
      cluster_centers <-
        match cluster_centers_ m with
        | None =>
            raise AttributeError
              "'KMeans' object has no attribute 'cluster_centers_'"
        | Some c => Ok c
        end ;;
      centers <- inverse_transform (scaler self) cluster_centers ;;
      if negb (forallb (fun c => (List.length c
                                  =? List.length (feature_columns self))%nat)
                       centers)
      then raise ValueError "Shape of passed values does not match the columns"
      else if negb (List.length centers =? n_clusters self)%nat
      then raise ValueError
             ("Length of values ("
              ++ NilEmpty.string_of_uint (Nat.to_uint (n_clusters self))
              ++ ") does not match length of index ("
              ++ NilEmpty.string_of_uint (Nat.to_uint (List.length centers))
              ++ ")")
      else
        descriptions <- descriptions_by_label self (feature_columns self) ;;
        Ok (map (fun '(segment_id, c) =>
                   {| center := c; p_segment := segment_id;
                      description := lookup_nat segment_id descriptions |})
                (combine (seq 0 (n_clusters self)) centers))
  end.

End Profiles.

(** ** Notions used to state further properties *)

Module Notions.
Import Pandas Transformers.

(** An item carries the three keys [validate_items] asks for. *)
Definition item_keys (item : object) : bool :=
  forallb (fun k => has_key k item) ["sku"; "quantity"; "price"].





End Notions.

(** ** More sample data *)

Module MoreSamples.
Import Pandas Transformers.

(** Text of decimal digits read as a number, for runs that parse items. *)
Fixpoint digits_value (acc : Z) (s : string) : option Z :=
  match s with
  | EmptyString => Some acc
  | String c s' =>
      let n := nat_of_ascii c in
      if (48 <=? n)%nat && (n <=? 57)%nat
      then digits_value (10 * acc + Z.of_nat (n - 48)) s'
      else None
  end.

Definition read_digits (s : string) : option Z :=
  match s with
  | EmptyString => None
  | _ => digits_value 0 s
  end.

(** A library that reads digit strings as numbers and no other text. *)
Definition digits_library : TextLibrary := {|
  parse_datetime := fun _ => None;
  python_float := fun s => option_map inject_Z (read_digits s);
  python_int := read_digits;
  python_str := fun _ => "";
  json_loads := fun _ => raise ValueError "Expecting value"
|}.


(** A retail record that [RetailTransaction] accepts. *)
Definition valid_record : dict :=
  [("transaction_id", VStr "T1"); ("store_id", VStr "S1");
   ("customer_id", VStr "C1"); ("transaction_timestamp", VTime 1700000001);
   ("total_amount", VNum 20); ("banner", VStr "sobeys");
   ("items", Samples.one_item); ("payment_method", VStr "credit");
   ("points_earned", VNum 10); ("comment", VStr "ignored")].

(** A Scene+ record and a partner record with upper-case categories. *)
Definition scene_record : dict :=
  [("transaction_id", VStr "X1"); ("member_id", VStr "M1");
   ("transaction_type", VStr "EARN"); ("points", VNum 100);
   ("transaction_timestamp", VTime 1700000000); ("partner", VStr "cineplex")].

Definition partner_record : dict :=
  [("transaction_id", VStr "P1"); ("partner_id", VStr "Cineplex");
   ("member_id", VStr "M1"); ("transaction_timestamp", VTime 1700000000);
   ("transaction_type", VStr "purchase"); ("amount", VNum 25);
   ("points", VNum 250)].

End MoreSamples.

(** * Properties *)

(** ** Exceptions *)

Module PyFacts.

Lemma isinstance_Exception (e : exn) : isinstance e Exception = true.
Proof. destruct e as [c m]; destruct c; reflexivity. Qed.

Lemma try_except_handler {A} (body : result A) h :
  try_except body h = match body with Ok a => Ok a | Raise e => h e end.
Proof.
  destruct body as [a|e]; simpl; [reflexivity|].
  now rewrite isinstance_Exception.
Qed.

(** The error of a pydantic schema is not an instance of the
    [ValidationError] that [transformers/base.py] defines. *)
Lemma pydantic_error_not_caught (e : exn) :
  cls e = pydantic_ValidationError -> isinstance e ValidationError = false.
Proof. destruct e as [c m]; simpl; intros ->; reflexivity. Qed.

Lemma bind_raises {A B} (r : result A) (k : A -> result B) c :
  (forall e, r = Raise e -> cls e = c) ->
  (forall a e, k a = Raise e -> cls e = c) ->
  forall e, Py.bind r k = Raise e -> cls e = c.
Proof.
  intros Hr Hk e; destruct r as [a|e']; simpl; intro H.
  - eapply Hk; eauto.
  - inversion H; subst; auto.
Qed.

End PyFacts.

(** ** The transformers *)

Module TransformersFacts.
Import Pandas Transformers PyFacts.

Section Facts.
Context {text : TextLibrary}.

Lemma invalid_class {A} (k why : string) (e : exn) :
  @invalid A k why = Raise e -> cls e = pydantic_ValidationError.
Proof. unfold invalid, raise; intro H; inversion H; reflexivity. Qed.

Ltac schema_field :=
  repeat match goal with
         | H : @invalid _ _ _ = Raise _ |- _ => exact (invalid_class _ _ _ H)
         | H : Ok _ = Raise _ |- _ => discriminate H
         | H : Py.bind _ _ = Raise _ |- _ => unfold Py.bind in H
         | H : context [match ?x with _ => _ end] |- _ => destruct x
         end.

Lemma coerce_float_class k v e :
  coerce_float k v = Raise e -> cls e = pydantic_ValidationError.
Proof. unfold coerce_float; intro H; schema_field. Qed.

Lemma field_str_class r k e :
  field_str r k = Raise e -> cls e = pydantic_ValidationError.
Proof. unfold field_str; intro H; schema_field. Qed.

Lemma field_datetime_class r k e :
  field_datetime r k = Raise e -> cls e = pydantic_ValidationError.
Proof. unfold field_datetime; intro H; schema_field. Qed.

Lemma field_float_ge0_class r k e :
  field_float_ge0 r k = Raise e -> cls e = pydantic_ValidationError.
Proof.
  unfold field_float_ge0; intro H.
  destruct (lookup k r) as [v|]; [|schema_field].
  destruct (coerce_float k v) eqn:E; simpl in H.
  - schema_field.
  - inversion H; subst. eapply coerce_float_class; eauto.
Qed.

Lemma field_optional_float_class r k d e :
  field_optional_float r k d = Raise e -> cls e = pydantic_ValidationError.
Proof.
  unfold field_optional_float; intro H.
  destruct (lookup k r) as [v|]; [|discriminate].
  assert (G : Py.bind (coerce_float k v) (fun x => Ok (float_value x)) = Raise e
              -> cls e = pydantic_ValidationError).
  { destruct (coerce_float k v) eqn:E; simpl; intro G; [discriminate|].
    inversion G; subst. eapply coerce_float_class; eauto. }
  destruct v; auto; discriminate.
Qed.

Lemma field_items_class r k e :
  field_items r k = Raise e -> cls e = pydantic_ValidationError.
Proof.
  unfold field_items, validate_items; intro H.
  destruct (lookup k r) as [v|]; [|schema_field].
  destruct v; try (exact (invalid_class _ _ _ H)).
  destruct (forallb is_dict l); [|exact (invalid_class _ _ _ H)].
  destruct l; simpl in H; [inversion H; reflexivity|].
  match type of H with
  | context [if ?b then _ else _] => destruct b
  end; simpl in H; [discriminate | inversion H; reflexivity].
Qed.

(** [RetailTransaction] raises nothing but pydantic's [ValidationError]. *)
Lemma RetailTransaction_raises_pydantic (record : dict) (e : exn) :
  RetailTransaction record = Raise e -> cls e = pydantic_ValidationError.
Proof.
  unfold RetailTransaction.
  repeat (apply bind_raises;
          [ first [ apply field_str_class | apply field_datetime_class
                  | apply field_float_ge0_class | apply field_items_class
                  | apply field_optional_float_class ]
          | intros ? ]).
  intros e' H; discriminate H.
Qed.

(** A schema error leaves [validate_record] as it entered: nothing is
    appended to [error_records]. *)
Lemma validate_record_propagates (self : BaseTransformer) (record : dict) e :
  schema self record = Raise e ->
  cls e = pydantic_ValidationError ->
  validate_record self record = (Raise e, self).
Proof.
  intros H Hc; unfold validate_record; rewrite H.
  now rewrite (pydantic_error_not_caught e Hc).
Qed.

Lemma validate_loop_aborts (self : BaseTransformer) (records : list dict) :
  (forall r e, schema self r = Raise e -> cls e = pydantic_ValidationError) ->
  forall (acc : list dict) (record : dict) (e : exn),
    In record records ->
    schema self record = Raise e ->
    exists e', validate_loop self records acc = (Raise e', self) /\
               cls e' = pydantic_ValidationError.
Proof.
  intros Hs; induction records as [|r0 rest IH]; intros acc record e Hin He.
  - destruct Hin.
  - simpl. destruct (schema self r0) as [v|e0] eqn:E0.
    + unfold validate_record; rewrite E0.
      destruct Hin as [->|Hin]; [congruence|].
      destruct (is_empty v); eapply IH; eauto.
    + rewrite (validate_record_propagates self r0 e0 E0 (Hs _ _ E0)).
      exists e0; split; [reflexivity | eapply Hs; eauto].
Qed.

(** C1, as the code has it.  When the columns of a retail batch convert
    and one of its records fails [RetailTransaction], [transform] raises
    [TransformationError] for the whole batch: the schema's error is
    pydantic's, [validate_record] does not catch it, and the handler of
    [transform] wraps it.  No record is returned and the error report
    stays empty. *)
Theorem retail_transform_invalid_record_aborts
    (self : BaseTransformer) (data prepared : DataFrame)
    (record : dict) (e : exn) :
  schema self = RetailTransaction ->
  retail_columns data = Ok prepared ->
  In record (to_dict_records prepared) ->
  RetailTransaction record = Raise e ->
  exists e',
    retail_transform self data =
      (Raise (mk_exn TransformationError
                ("Failed to transform retail data: " ++ str e')),
       clear_errors self) /\
    cls e' = pydantic_ValidationError /\
    get_error_report (clear_errors self) = [].
Proof.
  intros Hs Hcols Hin He.
  unfold retail_transform, validate_and_build; rewrite Hcols.
  destruct (validate_loop_aborts (clear_errors self) (to_dict_records prepared))
    with (acc := @nil dict) (record := record) (e := e)
    as (e' & Hloop & Hc); auto.
  - simpl; rewrite Hs; intros; eapply RetailTransaction_raises_pydantic; eauto.
  - simpl; rewrite Hs; exact He.
  - exists e'; rewrite Hloop, try_except_handler; auto.
Qed.

Lemma scene_columns_raises (data : DataFrame) :
  exists e, scene_columns data = Raise e.
Proof.
  unfold scene_columns, Py.bind, fillna, raise.
  repeat match goal with
         | |- context [match ?x with Ok _ => _ | Raise _ => _ end] =>
             destruct x; eauto
         end.
Qed.

(** C10.  [SceneTransformer.transform] raises [TransformationError] on
    every frame and returns no record: every path through its [try] block
    raises, [fillna(None)] at the latest, and the handler wraps whatever
    was raised. *)
Theorem scene_transform_always_raises
    (self : BaseTransformer) (data : DataFrame) :
  exists e,
    scene_transform self data =
      (Raise (mk_exn TransformationError
                ("Failed to transform Scene+ data: " ++ str e)),
       clear_errors self).
Proof.
  destruct (scene_columns_raises data) as [e He].
  exists e; unfold scene_transform, validate_and_build.
  now rewrite He, try_except_handler.
Qed.

End Facts.

(** The fifty-record batch with one negative amount. *)
Lemma retail_50_columns_ok :
  @retail_columns typed_cells Samples.retail_50_one_negative
  = Ok Samples.retail_50_columns.
Proof. vm_compute; reflexivity. Qed.

Lemma retail_transform_invalid_record_aborts_witness :
  exists e',
    @retail_transform typed_cells (@RetailTransformer typed_cells)
      Samples.retail_50_one_negative =
      (Raise (mk_exn TransformationError
                ("Failed to transform retail data: " ++ str e')),
       clear_errors (@RetailTransformer typed_cells)) /\
    cls e' = pydantic_ValidationError /\
    get_error_report (clear_errors (@RetailTransformer typed_cells)) = [].
Proof.
  apply (@retail_transform_invalid_record_aborts typed_cells
           (@RetailTransformer typed_cells)
           Samples.retail_50_one_negative Samples.retail_50_columns
           Samples.negative_record
           (mk_exn pydantic_ValidationError
              "total_amount: ensure this value is greater than or equal to 0")).
  - reflexivity.
  - vm_compute; reflexivity.
  - vm_compute; do 7 right; left; reflexivity.
  - vm_compute; reflexivity.
Defined.

(** What the two fifty-record batches give: the whole batch is refused for
    its one bad record, and accepted without it. *)
Lemma retail_50_one_negative_run :
  fst (@retail_transform typed_cells (@RetailTransformer typed_cells)
         Samples.retail_50_one_negative)
  = Raise (mk_exn TransformationError
      "Failed to transform retail data: total_amount: ensure this value is greater than or equal to 0").
Proof. vm_compute; reflexivity. Qed.

Lemma retail_50_valid_run :
  exists out,
    @retail_transform typed_cells (@RetailTransformer typed_cells) Samples.retail_50_valid
    = (Ok out, @RetailTransformer typed_cells) /\ nrows out = 50%nat.
Proof. eexists; split; vm_compute; reflexivity. Qed.

(** Items that do not parse abort the batch as well, from [_parse_items]. *)
Lemma retail_3_malformed_items_run :
  fst (@retail_transform typed_cells (@RetailTransformer typed_cells)
         Samples.retail_3_malformed_items)
  = Raise (mk_exn TransformationError
      "Failed to transform retail data: Failed to parse items: not enough values to unpack (expected 3)").
Proof. vm_compute; reflexivity. Qed.

(** A Scene+ batch of valid records is refused at [fillna(None)]. *)
Lemma scene_valid_run :
  fst (@scene_transform typed_cells (@SceneTransformer typed_cells) Samples.scene_valid)
  = Raise (mk_exn TransformationError
      "Failed to transform Scene+ data: Must specify a fill 'value' or 'method'.").
Proof. vm_compute; reflexivity. Qed.

End TransformersFacts.

(** ** Grouping and aggregation *)

Module DataFacts.
Import Data.

Lemma insert_key_In (k x : string) (keys : list string) :
  In x (insert_key k keys) <-> x = k \/ In x keys.
Proof.
  induction keys as [|h t IH]; simpl.
  - intuition.
  - destruct (String.compare k h) eqn:E; simpl.
    + apply String.compare_eq_iff in E; subst. intuition.
    + intuition.
    + rewrite IH. intuition.
Qed.

Lemma group_keys_In (c : string) (rows : list Transaction) :
  In c (group_keys rows) <-> In c (map customer_id rows).
Proof.
  unfold group_keys; induction rows as [|r rows IH]; simpl.
  - tauto.
  - rewrite insert_key_In, IH. intuition.
Qed.

Lemma Zmax_list_ge (x : Z) (l : list Z) :
  (x <= Zmax_list x l)%Z /\ Forall (fun y => (y <= Zmax_list x l)%Z) l.
Proof.
  unfold Zmax_list; induction l as [|y l [IH1 IH2]]; simpl.
  - split; [lia | constructor].
  - split; [lia|]. constructor; [lia|].
    eapply Forall_impl; [|exact IH2]. simpl; intros; lia.
Qed.

Lemma Zmax_list_In (x : Z) (l : list Z) : In (Zmax_list x l) (x :: l).
Proof.
  unfold Zmax_list; induction l as [|y l IH]; simpl; [tauto|].
  destruct (Z.max_spec y (fold_right Z.max x l)) as [[_ ->]|[_ ->]].
  - simpl in IH; tauto.
  - tauto.
Qed.

(** The latest timestamp of a batch bounds every timestamp in it. *)
Lemma batch_max_ge (t : Z) (ts : list Z) (y : Z) :
  In y (t :: ts) -> (y <= Zmax_list t ts)%Z.
Proof.
  destruct (Zmax_list_ge t ts) as [H1 H2].
  intros [<-|Hin]; [exact H1|].
  rewrite Forall_forall in H2; auto.
Qed.

Lemma days_nonneg (s : Z) : (0 <= s)%Z -> (0 <= days s)%Z.
Proof. intro H; unfold days; apply Z.div_pos; lia. Qed.

Lemma group_In (c : string) (rows : list Transaction) (r : Transaction) :
  In r (group c rows) <-> In r rows /\ customer_id r = c.
Proof.
  unfold group; rewrite filter_In, String.eqb_eq; tauto.
Qed.

Lemma group_nonempty (c : string) (rows : list Transaction) :
  In c (map customer_id rows) -> group c rows <> [].
Proof.
  rewrite in_map_iff; intros (r & Hc & Hin) E.
  assert (H : In r (group c rows)) by (apply group_In; auto).
  rewrite E in H; destruct H.
Qed.

End DataFacts.

(** ** Profile aggregation *)

Module AggregationFacts.
Import Data DataFacts PyFacts Spec.

Lemma missing_cols_nil (required have : list string) :
  (forall c, In c required -> In c have) -> missing_cols required have = [].
Proof.
  intro H; unfold missing_cols.
  induction required as [|c req IH]; simpl; [reflexivity|].
  assert (E : existsb (String.eqb c) have = true).
  { apply existsb_exists; exists c; split; [apply H; simpl; auto|].
    apply String.eqb_refl. }
  rewrite E; simpl. apply IH; intros; apply H; simpl; auto.
Qed.

Lemma batch_latest_ge (rows : list Transaction) (r : Transaction) :
  In r rows -> (transaction_timestamp r <= batch_latest rows)%Z.
Proof.
  intro Hin; unfold batch_latest.
  assert (H : In (transaction_timestamp r) (map transaction_timestamp rows))
    by (apply in_map; exact Hin).
  destruct (map transaction_timestamp rows) as [|t ts]; [destruct H|].
  apply batch_max_ge; exact H.
Qed.

Lemma batch_latest_In (rows : list Transaction) :
  rows <> [] ->
  exists r, In r rows /\ transaction_timestamp r = batch_latest rows.
Proof.
  intro Hne; unfold batch_latest.
  destruct rows as [|r0 rows]; [congruence|]. simpl.
  destruct (Zmax_list_In (transaction_timestamp r0)
              (map transaction_timestamp rows)) as [E|Hin].
  - exists r0; simpl; auto.
  - apply in_map_iff in Hin; destruct Hin as (r & E & Hin).
    exists r; simpl; auto.
Qed.

(** A customer's latest purchase is one of the batch, so not after the
    latest purchase of the batch. *)
Lemma customer_latest_le (c : string) (rows : list Transaction) :
  In c (map customer_id rows) ->
  (customer_latest c rows <= batch_latest rows)%Z.
Proof.
  intro Hc; unfold customer_latest.
  destruct (batch_latest_In (group c rows) (group_nonempty c rows Hc))
    as (r & Hin & <-).
  apply batch_latest_ge. apply group_In in Hin; tauto.
Qed.

Lemma segmentation_metrics_recency (rows : list Transaction) (c : string) :
  In c (map customer_id rows) ->
  Segmentation.days_since_last_visit
    (Segmentation.customer_metrics (batch_latest rows) c (group c rows))
  = batch_relative_recency rows c.
Proof.
  intro Hc; unfold batch_relative_recency, customer_latest, batch_latest.
  simpl. pose proof (group_nonempty c rows Hc) as Hne.
  destruct (group c rows) as [|r g]; [congruence|]. reflexivity.
Qed.

Lemma recommendation_metrics_recency (now : Z) (rows : list Transaction)
    (c : string) :
  In c (map customer_id rows) ->
  Recommendation.m_days_since_last_visit
    (Recommendation.customer_metrics now c (group c rows))
  = days (now - customer_latest c rows).
Proof.
  intro Hc; unfold customer_latest, batch_latest.
  simpl. pose proof (group_nonempty c rows Hc) as Hne.
  destruct (group c rows) as [|r g]; [congruence|]. reflexivity.
Qed.

(** C4, as the code has it.  On a batch with rows and the required
    columns both aggregations succeed, with one row per customer.  The
    segmentation pipeline measures recency against the latest purchase of
    the batch: whole days, never negative, and 0 for a customer whose latest
    purchase is the latest of the batch.  The recommendation pipeline
    does not: it measures recency against the clock, as the whole days
    between [now] and the customer's latest purchase. *)
Theorem days_since_last_visit_by_pipeline (now : Z) (data : Transactions) :
  rows data <> [] ->
  (forall c, In c Recommendation.required_columns -> In c (columns data)) ->
  exists seg rec,
    Segmentation.preprocess_data data = Ok seg /\
    Recommendation.preprocess_data now data = Ok rec /\
    map Segmentation.m_customer_id seg = group_keys (rows data) /\
    map Recommendation.customer_id rec = group_keys (rows data) /\
    (forall m, In m seg ->
       let c := Segmentation.m_customer_id m in
       Segmentation.days_since_last_visit m
         = batch_relative_recency (rows data) c /\
       (0 <= Segmentation.days_since_last_visit m)%Z /\
       (customer_latest c (rows data) = batch_latest (rows data) ->
        Segmentation.days_since_last_visit m = 0%Z)) /\
    (forall m, In m rec ->
       Recommendation.m_days_since_last_visit m
         = days (now - customer_latest (Recommendation.customer_id m)
                         (rows data))).
Proof.
  intros Hne Hcols.
  assert (Hseg : missing_cols Segmentation.required_columns (columns data) = []).
  { apply missing_cols_nil; intros c Hc; apply Hcols.
    simpl in *; intuition. }
  pose proof (missing_cols_nil _ _ Hcols) as Hrec.
  unfold Segmentation.preprocess_data, Recommendation.preprocess_data.
  rewrite Hseg, Hrec, !try_except_handler.
  destruct (rows data) as [|r0 rs] eqn:Erows; [congruence|].
  change (map transaction_timestamp (r0 :: rs))
    with (transaction_timestamp r0 :: map transaction_timestamp rs).
  change (Zmax_list (transaction_timestamp r0) (map transaction_timestamp rs))
    with (batch_latest (r0 :: rs)).
  do 2 eexists; split; [reflexivity|]; split; [reflexivity|].
  rewrite !map_map; simpl Segmentation.m_customer_id;
    simpl Recommendation.customer_id; rewrite !map_id.
  split; [reflexivity|]; split; [reflexivity|].
  split; intros m Hin; apply in_map_iff in Hin; destruct Hin as (c & <- & Hc);
    apply group_keys_In in Hc.
  - cbv zeta.
    change (Zmax_list (transaction_timestamp r0) (map transaction_timestamp rs))
      with (batch_latest (r0 :: rs)).
    set (m := Segmentation.customer_metrics _ c _).
    change (Segmentation.m_customer_id m) with c.
    assert (E : Segmentation.days_since_last_visit m
                = batch_relative_recency (r0 :: rs) c)
      by (apply segmentation_metrics_recency; exact Hc).
    rewrite E.
    pose proof (customer_latest_le c (r0 :: rs) Hc) as Hle.
    unfold batch_relative_recency; repeat split.
    + apply days_nonneg; lia.
    + intros ->; rewrite Z.sub_diag; reflexivity.
  - set (m := Recommendation.customer_metrics _ c _).
    change (Recommendation.customer_id m) with c.
    apply recommendation_metrics_recency; exact Hc.
Qed.

Lemma days_since_last_visit_by_pipeline_witness :
  Data.rows Samples.two_customers <> [] /\
  (forall c, In c Recommendation.required_columns ->
             In c (columns Samples.two_customers)) /\
  exists seg rec,
    Segmentation.preprocess_data Samples.two_customers = Ok seg /\
    Recommendation.preprocess_data Samples.now Samples.two_customers = Ok rec /\
    map Segmentation.m_customer_id seg
      = group_keys (rows Samples.two_customers) /\
    map Recommendation.customer_id rec
      = group_keys (rows Samples.two_customers) /\
    (forall m, In m seg ->
       let c := Segmentation.m_customer_id m in
       Segmentation.days_since_last_visit m
         = batch_relative_recency (rows Samples.two_customers) c /\
       (0 <= Segmentation.days_since_last_visit m)%Z /\
       (customer_latest c (rows Samples.two_customers)
          = batch_latest (rows Samples.two_customers) ->
        Segmentation.days_since_last_visit m = 0%Z)) /\
    (forall m, In m rec ->
       Recommendation.m_days_since_last_visit m
         = days (Samples.now
                 - customer_latest (Recommendation.customer_id m)
                     (rows Samples.two_customers))).
Proof.
  assert (H1 : Data.rows Samples.two_customers <> []) by discriminate.
  assert (H2 : forall c, In c Recommendation.required_columns ->
                         In c (columns Samples.two_customers))
    by (intros c Hc; exact Hc).
  split; [exact H1|]; split; [exact H2|].
  exact (days_since_last_visit_by_pipeline Samples.now Samples.two_customers
           H1 H2).
Defined.

(** In the recommendation pipeline CUST001, whose latest purchase is the
    latest of the batch, is ten days from its last visit when the clock is
    at [Samples.now], not 0; and another reading of the clock gives
    another number. *)
Lemma recommendation_recency_follows_clock :
  exists rec m,
    Recommendation.preprocess_data Samples.now Samples.two_customers = Ok rec /\
    In m rec /\
    customer_latest (Recommendation.customer_id m) (rows Samples.two_customers)
      = batch_latest (rows Samples.two_customers) /\
    Recommendation.m_days_since_last_visit m = 10%Z /\
    Recommendation.m_days_since_last_visit m
      <> batch_relative_recency (rows Samples.two_customers)
           (Recommendation.customer_id m) /\
    Recommendation.preprocess_data (Samples.now + 86400) Samples.two_customers
      <> Ok rec.
Proof.
  eexists; eexists; split; [vm_compute; reflexivity|].
  split; [left; reflexivity|].
  repeat split; try (vm_compute; congruence).
Qed.

End AggregationFacts.

(** ** Offer ranking *)

Module RankingFacts.
Import Recommendation PyFacts Spec.

Section Sorting.
Context {A : Type}.

Lemma leb_total (x y : float) :
  isnan x = false -> isnan y = false -> leb x y = false -> leb y x = true.
Proof.
  destruct x as [a| | |], y as [b| | |]; simpl; try discriminate; auto.
  intros _ _ H. apply Qle_bool_iff.
  apply Qlt_le_weak, Qnot_le_lt. intro Hle.
  apply Qle_bool_iff in Hle. congruence.
Qed.

Lemma leb_trans (x y z : float) :
  leb x y = true -> leb y z = true -> leb x z = true.
Proof.
  destruct x as [a| | |], y as [b| | |], z as [c| | |]; simpl;
    try discriminate; auto.
  intros H1 H2. apply Qle_bool_iff in H1, H2. apply Qle_bool_iff.
  eapply Qle_trans; eauto.
Qed.

Lemma leb_not_nan (x y : float) :
  leb x y = true -> isnan x = false /\ isnan y = false.
Proof. destruct x, y; simpl; try discriminate; auto. Qed.

Lemma insert_desc_perm (x : float * A) (l : list (float * A)) :
  Permutation (insert_desc x l) (x :: l).
Proof.
  induction l as [|y t IH]; simpl; [reflexivity|].
  destruct (leb (fst y) (fst x)); [reflexivity|].
  rewrite IH. apply perm_swap.
Qed.

Lemma insertion_perm (l : list (float * A)) :
  Permutation (fold_right insert_desc [] l) l.
Proof.
  induction l as [|x l IH]; simpl; [reflexivity|].
  rewrite insert_desc_perm. now constructor.
Qed.

Lemma insert_desc_sorted (x : float * A) (l : list (float * A)) :
  isnan (fst x) = false ->
  Forall (fun y => isnan (fst y) = false) l ->
  StronglySorted ge_key l -> StronglySorted ge_key (insert_desc x l).
Proof.
  intros Hx; induction l as [|y t IH]; simpl; intros Hn Hs.
  - constructor; [constructor | constructor].
  - inversion Hs as [|? ? Ht Hy]; subst.
    inversion Hn as [|? ? Hny Hnt]; subst.
    destruct (leb (fst y) (fst x)) eqn:E.
    + constructor; [exact Hs|].
      constructor; [exact E|].
      eapply Forall_impl; [|exact Hy].
      unfold ge_key; intros z Hz; eapply leb_trans; eauto.
    + constructor; [apply IH; assumption|].
      eapply Permutation_Forall;
        [symmetry; apply insert_desc_perm|].
      constructor; [|exact Hy].
      unfold ge_key. apply leb_total; assumption.
Qed.

Lemma insertion_sorted (l : list (float * A)) :
  Forall (fun y => isnan (fst y) = false) l ->
  StronglySorted ge_key (fold_right insert_desc [] l).
Proof.
  induction 1 as [|x l Hx Hl IH]; simpl; [constructor|].
  apply insert_desc_sorted; [exact Hx | | exact IH].
  eapply Permutation_Forall; [symmetry; apply insertion_perm | exact Hl].
Qed.

(** Inserting passes only elements with a strictly greater key, so the
    elements with the key of the new one keep it in front of them. *)
Lemma insert_desc_stable (k : float) (x : float * A) (l : list (float * A)) :
  filter (same_key k) (insert_desc x l)
  = if same_key k x then x :: filter (same_key k) l
    else filter (same_key k) l.
Proof.
  induction l as [|y t IH]; simpl; [reflexivity|].
  destruct (leb (fst y) (fst x)) eqn:E; [reflexivity|].
  simpl; rewrite IH.
  destruct (same_key k x) eqn:Ex, (same_key k y) eqn:Ey; try reflexivity.
  unfold same_key, eqb in *.
  apply andb_prop in Ex, Ey. destruct Ex as [_ Ex], Ey as [Ey _].
  rewrite (leb_trans _ _ _ Ey Ex) in E. discriminate.
Qed.

Lemma insertion_stable (k : float) (l : list (float * A)) :
  filter (same_key k) (fold_right insert_desc [] l) = filter (same_key k) l.
Proof.
  induction l as [|x l IH]; simpl; [reflexivity|].
  rewrite insert_desc_stable, IH. reflexivity.
Qed.

End Sorting.

(** *** Doubles that are not NaN *)

Lemma double_not_nan (q : Q) : isnan (double q) = false.
Proof.
  unfold double.
  destruct (Qle_bool (pow2 1024) (round64 q)); [reflexivity|].
  destruct (Qle_bool (round64 q) (- pow2 1024)); reflexivity.
Qed.

Lemma mul64_not_nan_r (x : float) (m : Q) :
  isnan x = false -> Qeq_bool m 0 = false ->
  isnan (mul64 x (Fin m)) = false.
Proof.
  intros Hx Hm. destruct x as [a| | |]; simpl; try discriminate.
  - apply double_not_nan.
  - rewrite Hm. destruct (Qle_bool 0 m); reflexivity.
  - rewrite Hm. destruct (Qle_bool 0 m); reflexivity.
Qed.

Lemma mul64_not_nan_l (v : Q) (y : float) :
  Qeq_bool v 0 = false -> isnan y = false ->
  isnan (mul64 (Fin v) y) = false.
Proof.
  intros Hv Hy. destruct y as [b| | |]; simpl; try discriminate.
  - apply double_not_nan.
  - rewrite Hv. destruct (Qle_bool 0 v); reflexivity.
  - rewrite Hv. destruct (Qle_bool 0 v); reflexivity.
Qed.

Lemma segment_multiplier_lookup (d : string) :
  match lookup d segment_multipliers with Some m => m | None => 1 end
  = segment_multiplier d.
Proof.
  unfold segment_multiplier, segment_multipliers; simpl.
  repeat match goal with
         | |- context [String.eqb d ?s] => destruct (String.eqb d s)
         end; reflexivity.
Qed.

(** Each of the five multipliers is a double other than 0. *)
Lemma segment_multiplier_double (d : string) :
  exists m, double (segment_multiplier d) = Fin m /\ Qeq_bool m 0 = false.
Proof.
  unfold segment_multiplier.
  repeat match goal with
         | |- context [String.eqb d ?s] => destruct (String.eqb d s)
         end; eexists; split; vm_compute; reflexivity.
Qed.

Section Scores.
Context {lib : Library}.

(** What the scores need of a candidate: a value that is a double and,
    for a threshold offer, is not 0, and the threshold 150. *)
Lemma candidate_offers_values now customer features offers :
  candidate_offers now customer features = Ok offers ->
  Forall (fun o =>
            exists v, double (value o) = Fin v /\
              (offer_type o = THRESHOLD_BONUS ->
               Qeq_bool v 0 = false /\
               lookup "spend_threshold" (conditions o) = Some 150))
         offers.
Proof.
  unfold candidate_offers, Py.bind.
  destruct (Float.gt (points_redemption_rate features) (literal (7 # 10))),
           (Float.lt (cross_banner_shopping features) (literal (3 # 10))),
           (_get_recommended_banners customer),
           (Float.lt (category_diversity features) (literal (5 # 10))),
           (Float.gt (total_spend features) (literal (7 # 10))),
           (Float.gt (days_since_last_visit features) (literal (8 # 10)));
    simpl; intro H; inversion H; subst;
    repeat constructor;
    (eexists; split; [vm_compute; reflexivity|]);
    cbn [offer_type]; intro E; try discriminate E;
    split; reflexivity.
Qed.

(** The key [sorted] computes is the final score of the specification,
    in doubles. *)
Lemma calculate_offer_value_final_score (o : Offer) (customer : dict)
    (p t average_points average_transaction : Q) (d : object) :
  lookup "average_points" customer = Some (VNum p) ->
  lookup "average_transaction" customer = Some (VNum t) ->
  double p = Fin average_points ->
  double t = Fin average_transaction ->
  lookup "segment_description" customer = Some d ->
  hashable d = true ->
  (offer_type o = THRESHOLD_BONUS ->
   lookup "spend_threshold" (conditions o) = Some 150) ->
  _calculate_offer_value o customer
  = Ok (final_score o (Fin average_points) (Fin average_transaction)
          (description_text d)).
Proof.
  intros Hp Ht Ep Et Hd Hh Hth.
  assert (Hm : match d with
               | VStr s => match lookup s segment_multipliers with
                           | Some m => m
                           | None => 1
                           end
               | _ => 1
               end = segment_multiplier (description_text d))
    by (destruct d; try reflexivity; apply segment_multiplier_lookup).
  unfold _calculate_offer_value, final_score, spend_threshold, as_float.
  rewrite Hp, Ht, Hd, Ep, Et.
  destruct (offer_type o) eqn:E; cbn [Py.bind].
  1,2,3,4: destruct d; try discriminate Hh; rewrite <- Hm; reflexivity.
  rewrite (Hth eq_refl).
  change (double 150) with (Fin 150). change (Qeq_bool 150 0) with false.
  cbn [Py.bind].
  destruct d; try discriminate Hh; rewrite <- Hm; reflexivity.
Qed.

Lemma decorate_final_score (customer : dict) (offers : list Offer)
    (p t average_points average_transaction : Q) (d : object) :
  lookup "average_points" customer = Some (VNum p) ->
  lookup "average_transaction" customer = Some (VNum t) ->
  double p = Fin average_points ->
  double t = Fin average_transaction ->
  lookup "segment_description" customer = Some d ->
  hashable d = true ->
  Forall (fun o => offer_type o = THRESHOLD_BONUS ->
                   lookup "spend_threshold" (conditions o) = Some 150)
         offers ->
  decorate customer offers
  = Ok (map (fun o => (final_score o (Fin average_points)
                         (Fin average_transaction) (description_text d), o))
            offers).
Proof.
  intros Hp Ht Ep Et Hd Hh; unfold decorate.
  induction 1 as [|o offers Ho _ IH]; simpl; [reflexivity|].
  rewrite (calculate_offer_value_final_score o customer _ _ _ _ _
             Hp Ht Ep Et Hd Hh Ho).
  simpl; rewrite IH; reflexivity.
Qed.

(** No score of a candidate is NaN when the two averages are numbers. *)
Lemma final_score_not_nan (o : Offer) (average_points average_transaction : Q)
    (d : string) (v : Q) :
  double (value o) = Fin v ->
  (offer_type o = THRESHOLD_BONUS ->
   Qeq_bool v 0 = false /\
   lookup "spend_threshold" (conditions o) = Some 150) ->
  isnan (final_score o (Fin average_points) (Fin average_transaction) d)
  = false.
Proof.
  intros Hv Hth. unfold final_score.
  destruct (segment_multiplier_double d) as (m & -> & Hm).
  apply mul64_not_nan_r; [|exact Hm].
  rewrite Hv.
  destruct (offer_type o) eqn:E; try reflexivity.
  - apply double_not_nan.
  - destruct (Hth eq_refl) as [Hv0 Hthr].
    apply mul64_not_nan_l; [exact Hv0|].
    unfold spend_threshold. rewrite Hthr.
    change (double 150) with (Fin 150). cbn [div64].
    change (Qeq_bool 150 0) with false. cbn iota.
    apply double_not_nan.
Qed.

(** C6, as the code has it.  For a customer row whose two averages are
    numbers and whose segment description can be looked up, and for a
    count of offers that is not negative, the key of every candidate is
    the final score of the specification, computed in doubles: the value,
    times the average points for a points multiplier, times the average
    transaction over the threshold for a threshold bonus, and then times
    the multiplier of the segment.  The offers returned are the first
    [n_offers] of the candidates sorted by that key: a rearrangement of the
    candidates, in descending order, in which candidates of equal score
    keep the order of the rules, and at most [n_offers] long. *)
Theorem offers_ranked_by_final_score
    (now : Z) (customer : dict) (features : Features) (n_offers : Z)
    (offers : list Offer) (p t average_points average_transaction : Q)
    (d : object) :
  candidate_offers now customer features = Ok offers ->
  lookup "average_points" customer = Some (VNum p) ->
  lookup "average_transaction" customer = Some (VNum t) ->
  double p = Fin average_points ->
  double t = Fin average_transaction ->
  lookup "segment_description" customer = Some d ->
  hashable d = true ->
  (0 <= n_offers)%Z ->
  let keyed :=
    map (fun o => (final_score o (Fin average_points)
                     (Fin average_transaction) (description_text d), o))
        offers in
  let ranked := fold_right insert_desc [] keyed in
  let returned := firstn (Z.to_nat n_offers) (map snd ranked) in
  decorate customer offers = Ok keyed /\
  _generate_customer_offers now customer features n_offers = Ok returned /\
  Permutation ranked keyed /\
  StronglySorted ge_key ranked /\
  (forall k, filter (same_key k) ranked = filter (same_key k) keyed) /\
  (Z.of_nat (List.length returned) <= n_offers)%Z.
Proof.
  intros Hc Hp Ht Ep Et Hd Hh Hn keyed ranked returned.
  pose proof (candidate_offers_values _ _ _ _ Hc) as Hv.
  assert (Hthr : Forall (fun o => offer_type o = THRESHOLD_BONUS ->
                           lookup "spend_threshold" (conditions o) = Some 150)
                   offers).
  { eapply Forall_impl; [|exact Hv]. intros o (v & _ & H) E.
    exact (proj2 (H E)). }
  assert (Hnan : Forall (fun y : float * Offer => isnan (fst y) = false)
                   keyed).
  { unfold keyed. apply Forall_map. eapply Forall_impl; [|exact Hv].
    intros o (v & Ev & H). cbn [fst].
    exact (final_score_not_nan o _ _ _ v Ev H). }
  assert (Hdec : decorate customer offers = Ok keyed)
    by exact (decorate_final_score customer offers _ _ _ _ _
                Hp Ht Ep Et Hd Hh Hthr).
  split; [exact Hdec|]. split; [|split; [|split; [|split]]].
  - unfold _generate_customer_offers; rewrite Hc; cbn [Py.bind].
    rewrite Hdec; cbn [Py.bind]. unfold sorted_reverse.
    assert (Hex : existsb (fun kv : float * Offer => isnan (fst kv)) keyed
                  = false).
    { destruct (existsb _ keyed) eqn:E; [|reflexivity].
      apply existsb_exists in E. destruct E as (kv & Hin & Hkv).
      rewrite (proj1 (Forall_forall _ _) Hnan kv Hin) in Hkv. discriminate. }
    rewrite Hex; cbn [Py.bind]. unfold slice_to.
    destruct (0 <=? n_offers)%Z eqn:E; [reflexivity | lia].
  - apply insertion_perm.
  - apply insertion_sorted; exact Hnan.
  - intro k; apply insertion_stable.
  - unfold returned. rewrite length_firstn. lia.
Qed.

End Scores.

Lemma offers_ranked_by_final_score_witness :
  exists offers,
    @candidate_offers Samples.now Samples.sobeys_customer
      Samples.all_rules_fire = Ok offers /\
    map offer_type offers
      = [POINTS_MULTIPLIER; CROSS_BANNER; CATEGORY_DISCOUNT; THRESHOLD_BONUS;
         POINTS_BONUS] /\
    let keyed :=
      map (fun o => (final_score o (Fin 250) (Fin 75) "High Spender", o))
          offers in
    let ranked := fold_right insert_desc [] keyed in
    let returned := firstn (Z.to_nat 3) (map snd ranked) in
    (decorate Samples.sobeys_customer offers = Ok keyed /\
     @_generate_customer_offers Samples.recommendation_library Samples.now
       Samples.sobeys_customer Samples.all_rules_fire 3 = Ok returned /\
     Permutation ranked keyed /\
     StronglySorted ge_key ranked /\
     (forall k, filter (same_key k) ranked = filter (same_key k) keyed) /\
     (Z.of_nat (List.length returned) <= 3)%Z) /\
    map fst keyed
    = [Fin 600; Fin 600; Fin (3242591731706757 # 18014398509481984); Fin 600;
       Fin 300] /\
    map offer_type returned = [POINTS_MULTIPLIER; CROSS_BANNER; THRESHOLD_BONUS].
Proof.
  eexists; split; [vm_compute; reflexivity|].
  split; [reflexivity|].
  split; [|split; vm_compute; reflexivity].
  apply (@offers_ranked_by_final_score Samples.recommendation_library
           Samples.now Samples.sobeys_customer
           Samples.all_rules_fire 3 _ 250 75 250 75 (VStr "High Spender")).
  - vm_compute; reflexivity.
  - reflexivity.
  - reflexivity.
  - vm_compute; reflexivity.
  - vm_compute; reflexivity.
  - reflexivity.
  - reflexivity.
  - lia.
Defined.

(** C6 fails as stated for a negative count: the slice then drops
    offers from the end, and four offers are more than minus one. *)
Lemma negative_n_offers_run :
  exists returned,
    @_generate_customer_offers Samples.recommendation_library Samples.now
      Samples.sobeys_customer Samples.all_rules_fire (-1) = Ok returned /\
    List.length returned = 4%nat /\
    ~ (Z.of_nat (List.length returned) <= -1)%Z.
Proof.
  eexists; split; [vm_compute; reflexivity|].
  split; [reflexivity|]. cbn. lia.
Qed.

(** The scores are those of doubles.  With average points 62.96875 and
    an average transaction of 18.890625 the points multiplier and the
    threshold bonus are worth 125.9375 each as fractions; in doubles the
    quotient by 150 rounds up, the threshold bonus scores higher by one
    unit in the last place, and it comes before the points multiplier,
    against the order of the rules. *)
Lemma doubles_decide_the_order_run :
  exists returned,
    @_generate_customer_offers Samples.recommendation_library Samples.now
      Samples.close_customer Samples.all_rules_fire 4 = Ok returned /\
    map offer_type returned
    = [CROSS_BANNER; POINTS_BONUS; THRESHOLD_BONUS; POINTS_MULTIPLIER] /\
    exists offers keyed,
      @candidate_offers Samples.now Samples.close_customer
        Samples.all_rules_fire = Ok offers /\
      decorate Samples.close_customer offers = Ok keyed /\
      map fst keyed
      = [Fin (2015 # 16); Fin 500;
         Fin (5404319552844595 # 36028797018963968);
         Fin (8862063719874561 # 70368744177664); Fin 250].
Proof.
  eexists; split; [vm_compute; reflexivity|].
  split; [reflexivity|].
  eexists; eexists. split; [vm_compute; reflexivity|].
  split; vm_compute; reflexivity.
Qed.

End RankingFacts.

(** ** Feature engineering of the recommendation engine *)

Module FeatureFacts.
Import Data Recommendation PyFacts.

Section Facts.
Context {lib : Library}.

(** [engineer_features] returns for no frame: the scaler refuses a frame
    without rows, and the first assignment fails on any other. *)
Lemma engineer_features_fails (data : list CustomerMetrics) :
  exists e, engineer_features data = Raise e /\ cls e = FeatureError.
Proof.
  unfold engineer_features; rewrite try_except_handler.
  destruct data as [|r rs]; cbn; eexists; split; reflexivity.
Qed.

Lemma engineer_features_no_rows :
  engineer_features [] =
    Raise (mk_exn FeatureError
      "Error engineering features: Found array with 0 sample(s) (shape=(0, 1)) while a minimum of 1 is required by MinMaxScaler.").
Proof. reflexivity. Qed.

(** C7, as the code has it.  [engineer_features] returns no feature at
    all.  It starts from [pd.DataFrame()], a frame without an index, and
    assigns to its first column the array of two dimensions that the
    scaler returns for total_spend; pandas refuses the assignment, and the
    handler raises [FeatureError].  On a frame with at least one customer
    this is what every call does, whatever the values are. *)
Theorem engineer_features_always_raises (data : list CustomerMetrics) :
  data <> [] ->
  engineer_features data =
    Raise (mk_exn FeatureError
      "Error engineering features: Cannot set a frame with no defined index and a value that cannot be converted to a Series").
Proof.
  intro Hne. unfold engineer_features; rewrite try_except_handler.
  destruct data as [|r rs]; [congruence|]. reflexivity.
Qed.

End Facts.

Lemma engineer_features_always_raises_witness :
  exists processed,
    preprocess_data Samples.now_day5 Samples.two_customers = Ok processed /\
    List.length processed = 2%nat /\
    processed <> [] /\
    @engineer_features Samples.recommendation_library processed =
      Raise (mk_exn FeatureError
        "Error engineering features: Cannot set a frame with no defined index and a value that cannot be converted to a Series").
Proof.
  destruct (preprocess_data Samples.now_day5 Samples.two_customers)
    as [processed|e] eqn:E; [|vm_compute in E; discriminate].
  assert (Hl : List.length processed = 2%nat)
    by (vm_compute in E; injection E as <-; reflexivity).
  assert (Hne : processed <> [])
    by (intros ->; discriminate Hl).
  exists processed. split; [reflexivity|]. split; [exact Hl|].
  split; [exact Hne|].
  exact (@engineer_features_always_raises Samples.recommendation_library
           processed Hne).
Defined.

End FeatureFacts.

(** ** Offer generation *)

Module OfferFacts.
Import Data Recommendation PyFacts FeatureFacts.

Section Facts.
Context {lib : Library}.

(** [generate_offers] returns for no input: what its preprocessing does
    not refuse, its feature engineering does, and the handler turns either
    error into a [ModelError]. *)
Lemma generate_offers_raises
    (now : Z) (customer_data : Transactions) (segment_data : Segments)
    (n_offers : Z) :
  exists e,
    generate_offers now customer_data segment_data n_offers = Raise e /\
    cls e = ModelError.
Proof.
  unfold generate_offers; rewrite try_except_handler.
  destruct (preprocess_data now customer_data) as [processed|e];
    cbn [Py.bind].
  - destruct (engineer_features_fails processed) as (e & -> & _).
    cbn [Py.bind]. eexists; split; reflexivity.
  - eexists; split; reflexivity.
Qed.

(** C2.  A call to [generate_offers] with a customer of the batch that has
    no row in the segment frame raises [ModelError] and returns no mapping
    that leaves the customer out, and so does a call on a batch without
    rows.  Neither is the work of a test of the join or of the batch:
    the call raises on every input, in the feature engineering at the
    latest, before the two frames are merged. *)
Theorem generate_offers_unmatched_or_empty_raises
    (now : Z) (customer_data : Transactions) (segment_data : Segments)
    (n_offers : Z) :
  (exists c, In c (map Data.customer_id (rows customer_data)) /\
             forall s, In s (seg_rows segment_data) ->
                       Segmentation.s_customer_id s <> c) \/
  rows customer_data = [] ->
  exists e,
    generate_offers now customer_data segment_data n_offers = Raise e /\
    cls e = ModelError /\
    forall offers,
      generate_offers now customer_data segment_data n_offers <> Ok offers.
Proof.
  intros _.
  destruct (generate_offers_raises now customer_data segment_data n_offers)
    as (e & He & Hc).
  exists e. split; [exact He|]. split; [exact Hc|].
  intros offers H. rewrite He in H. discriminate.
Qed.

(** *** The rules *)


End Facts.

Lemma generate_offers_unmatched_or_empty_raises_witness :
  ((exists c, In c (map Data.customer_id (rows Samples.two_customers)) /\
              forall s, In s (seg_rows Samples.segments_cust001) ->
                        Segmentation.s_customer_id s <> c) \/
   rows Samples.two_customers = []) /\
  exists e,
    @generate_offers Samples.recommendation_library Samples.now
      Samples.two_customers Samples.segments_cust001 3 = Raise e /\
    cls e = ModelError /\
    forall offers,
      @generate_offers Samples.recommendation_library Samples.now
        Samples.two_customers Samples.segments_cust001 3 <> Ok offers.
Proof.
  assert (H : (exists c,
                 In c (map Data.customer_id (rows Samples.two_customers)) /\
                 forall s, In s (seg_rows Samples.segments_cust001) ->
                           Segmentation.s_customer_id s <> c) \/
              rows Samples.two_customers = []).
  { left. exists "CUST002". split; [right; left; reflexivity|].
    intros s [<-|[]]; discriminate. }
  split; [exact H|].
  exact (@generate_offers_unmatched_or_empty_raises
           Samples.recommendation_library Samples.now Samples.two_customers
           Samples.segments_cust001 3 H).
Defined.

(** What the call raises, with a customer left without a segment and
    with a segment for each customer. *)
Lemma generate_offers_run :
  @generate_offers Samples.recommendation_library Samples.now
    Samples.two_customers Samples.segments_cust001 3
  = Raise (mk_exn ModelError
      "Error generating offers: Error engineering features: Cannot set a frame with no defined index and a value that cannot be converted to a Series") /\
  @generate_offers Samples.recommendation_library Samples.now
    Samples.two_customers Samples.segments_both 3
  = Raise (mk_exn ModelError
      "Error generating offers: Error engineering features: Cannot set a frame with no defined index and a value that cannot be converted to a Series").
Proof. split; vm_compute; reflexivity. Qed.



(** The banners returned for the row of the unit test. *)
Lemma get_recommended_banners_run :
  _get_recommended_banners [("banner", VStr "Sobeys")]
  = Ok ["Safeway"; "IGA"; "Foodland"; "FreshCo"].
Proof. vm_compute; reflexivity. Qed.

End OfferFacts.


(** ** The segmentation model *)

Module SegmentationFacts.
Import Data Sklearn Segmentation PyFacts DataFacts.

Lemma same_value_max (t : Z) (ts : list Z) :
  Forall (fun y => y = t) ts -> Zmax_list t ts = t /\ Zmin_list t ts = t.
Proof.
  unfold Zmax_list, Zmin_list; induction 1 as [|y ts -> _ [IH1 IH2]]; simpl.
  - auto.
  - rewrite IH1, IH2; lia.
Qed.

Section Facts.
Context {lib : Library}.

(** The error of [preprocess_data] and of [engineer_features] is a
    [FeatureError]. *)
Lemma preprocess_data_raises (data : Transactions) (e : exn) :
  preprocess_data data = Raise e -> cls e = FeatureError.
Proof.
  unfold preprocess_data; rewrite try_except_handler.
  destruct (missing_cols required_columns (columns data));
    [destruct (map transaction_timestamp (rows data))|];
    simpl; intro H; inversion H; reflexivity.
Qed.

Lemma engineer_features_raises self data e self' :
  engineer_features self data = (Raise e, self') -> cls e = FeatureError.
Proof.
  unfold engineer_features.
  destruct (scaler_fit_transform (raw_features data)) as [[X|e0] s];
    rewrite try_except_handler; intro H; inversion H; reflexivity.
Qed.

(** A call that succeeds leaves in [self.scaler] the attributes fitted on
    the batch of that call, whatever the scaler held before. *)
Lemma engineer_features_refits self data X self' :
  engineer_features self data = (Ok X, self') ->
  exists p,
    StandardScaler_fit (raw_features data) = Ok p /\
    X = StandardScaler_transform p (raw_features data) /\
    self' = set_scaler self (Some p).
Proof.
  unfold engineer_features, scaler_fit_transform.
  destruct (StandardScaler_fit (raw_features data)) as [p|e];
    rewrite try_except_handler; intro H; inversion H; subst.
  exists p; auto.
Qed.

Lemma date_range_same_day (data : list CustomerMetrics) (r0 : CustomerMetrics) :
  In r0 data ->
  (forall r, In r data -> last_transaction_date r = last_transaction_date r0) ->
  date_range data = Fin (0 / 30).
Proof.
  intros Hin Hsame; unfold date_range.
  destruct data as [|r rs]; [destruct Hin|]. simpl map.
  assert (E0 : last_transaction_date r = last_transaction_date r0)
    by (apply Hsame; simpl; auto).
  assert (F : Forall (fun y => y = last_transaction_date r)
                     (map last_transaction_date rs)).
  { apply Forall_map, Forall_forall; intros x Hx.
    rewrite E0; apply Hsame; simpl; auto. }
  destruct (same_value_max _ _ F) as [-> ->].
  rewrite Z.sub_diag; reflexivity.
Qed.

Lemma visit_frequency_infinite (r : CustomerMetrics) :
  (1 <= transaction_count r)%Z ->
  Float.div (Fin (inject_Z (transaction_count r))) (Fin (0 / 30)) = PInf.
Proof.
  intro H. unfold Float.div.
  change (Qeq_bool (0 / 30) 0) with true.
  assert (E1 : Qeq_bool (inject_Z (transaction_count r)) 0 = false).
  { destruct (Qeq_bool (inject_Z (transaction_count r)) 0) eqn:E; auto.
    apply Qeq_bool_iff in E. unfold Qeq in E; simpl in E. lia. }
  assert (E2 : Qle_bool 0 (inject_Z (transaction_count r)) = true).
  { apply Qle_bool_iff. unfold Qle; simpl. lia. }
  now rewrite E1, E2.
Qed.

(** C8, as the code has it.  The division by the date range has no
    guard.  When all customers of a preprocessed batch share their last
    transaction date (one customer is enough), the range is 0, every
    visit_frequency is infinite, the scaler refuses the batch and
    [engineer_features] raises [FeatureError] instead of returning eight
    finite components; the scaler is left without fitted attributes. *)
Theorem engineer_features_zero_date_range_raises
    (self : CustomerSegmentation) (data : list CustomerMetrics)
    (r0 : CustomerMetrics) :
  In r0 data ->
  (forall r, In r data -> last_transaction_date r = last_transaction_date r0) ->
  (forall r, In r data -> (1 <= transaction_count r)%Z) ->
  engineer_features self data =
    (Raise (mk_exn FeatureError
       "Error engineering features: Input X contains infinity or a value too large for dtype('float64')."),
     set_scaler self None).
Proof.
  intros Hin Hsame Hcount.
  unfold engineer_features, scaler_fit_transform, StandardScaler_fit,
    raw_features.
  rewrite (date_range_same_day data r0 Hin Hsame).
  destruct data as [|r rs]; [destruct Hin|].
  assert (E : existsb (existsb isinf)
                (map (feature_row (Fin (0 / 30))) (r :: rs)) = true).
  { cbn [map existsb]. unfold feature_row at 1.
    rewrite (visit_frequency_infinite r (Hcount r (or_introl eq_refl))).
    reflexivity. }
  rewrite E. reflexivity.
Qed.

(** Every row [preprocess_data] returns counts at least one transaction. *)
Lemma preprocess_data_counts (data : Transactions) processed :
  preprocess_data data = Ok processed ->
  forall r, In r processed -> (1 <= transaction_count r)%Z.
Proof.
  unfold preprocess_data; rewrite try_except_handler.
  destruct (missing_cols required_columns (columns data)); [|discriminate].
  destruct (rows data) as [|r0 rs] eqn:Erows; simpl map.
  - intro H; injection H as <-; intros r [].
  - intro H; injection H as <-; intros r Hr.
    apply in_map_iff in Hr; destruct Hr as (c & <- & Hc).
    apply group_keys_In in Hc. apply group_nonempty in Hc.
    change (1 <= Zlen (group c (r0 :: rs)))%Z.
    unfold Zlen; destruct (group c (r0 :: rs)); [congruence|].
    simpl List.length; lia.
Qed.

(** C9, as the code has it.  [predict] has no test of [self.model], and
    its handler names [PredictionError], which the module does not import.
    On an instance whose [model] is [None] every call fails, on the
    [FeatureError] of the batch or else on the [AttributeError] of calling
    [predict] on [None], and what the call raises is the [NameError] of the
    handler: not the not-trained error, and no error of the [ModelError]
    family.  When the batch gets through the feature engineering, the
    scaler has been refitted on it by then. *)
Theorem predict_untrained_raises_NameError
    (self : CustomerSegmentation) (data : Transactions) :
  model self = None ->
  fst (predict self data)
    = Raise (mk_exn NameError "name 'PredictionError' is not defined") /\
  isinstance (mk_exn NameError "name 'PredictionError' is not defined")
    ModelError = false /\
  (forall processed X self',
     preprocess_data data = Ok processed ->
     engineer_features self processed = (Ok X, self') ->
     snd (predict self data) = self' /\ exists p, scaler self' = Some p).
Proof.
  intro Hm; unfold predict.
  split; [|split; [reflexivity|]].
  - destruct (preprocess_data data) as [processed|e] eqn:Ep;
      [|rewrite try_except_handler; reflexivity].
    destruct (engineer_features self processed) as [[X|e] self'] eqn:Ee;
      [|rewrite try_except_handler; reflexivity].
    apply engineer_features_refits in Ee; destruct Ee as (p & _ & _ & ->).
    cbn [model set_scaler]; rewrite Hm. reflexivity.
  - intros processed X self' Hp He. rewrite Hp, He.
    apply engineer_features_refits in He; destruct He as (p & _ & _ & ->).
    split; [reflexivity|]. exists p; reflexivity.
Qed.

(** The guard that [predict] lacks, as [save_model] has it. *)
Lemma save_model_untrained (self : CustomerSegmentation) :
  model self = None ->
  save_model self = Raise (mk_exn ModelError "No trained model to save").
Proof. intro H; unfold save_model; rewrite H; reflexivity. Qed.

(** A [train] that returns has fitted the scaler on the training batch. *)
Lemma train_fits_scaler (self0 self : CustomerSegmentation) (now : Z)
    (training : Transactions) :
  train self0 now training = (Ok tt, self) ->
  exists processed p,
    preprocess_data training = Ok processed /\
    StandardScaler_fit (raw_features processed) = Ok p /\
    scaler self = Some p.
Proof.
  unfold train.
  destruct (preprocess_data training) as [processed|e];
    [|rewrite try_except_handler; discriminate].
  destruct (engineer_features self0 processed) as [[X|e] self1] eqn:Ee;
    [|rewrite try_except_handler; discriminate].
  destruct (engineer_features_refits _ _ _ _ Ee) as (p & Hp & _ & ->).
  destruct (KMeans_fit _ _ X);
    [|rewrite try_except_handler; discriminate].
  intro H; injection H as <-. exists processed, p; auto.
Qed.

(** C3, as the code has it.  After a [train] that returns, the scaler
    holds the attributes fitted on the training batch; a [predict] that
    returns has refitted it on its own batch: the features it clusters are
    scaled with the attributes of the prediction batch, these are what it
    leaves in [self.scaler], and what the scaler held before the call has
    no effect on the result.  The state [save_model] writes is the same
    whatever the scaler holds, and [load_model] leaves the scaler of the
    loading instance as it was. *)
Theorem predict_refits_scaler_and_save_omits_it
    (self0 self self' : CustomerSegmentation) (now : Z)
    (training batch : Transactions) (out : list SegmentRow) :
  train self0 now training = (Ok tt, self) ->
  predict self batch = (Ok out, self') ->
  exists processed_t p_t processed p,
    preprocess_data training = Ok processed_t /\
    StandardScaler_fit (raw_features processed_t) = Ok p_t /\
    scaler self = Some p_t /\
    preprocess_data batch = Ok processed /\
    StandardScaler_fit (raw_features processed) = Ok p /\
    engineer_features self processed
      = (Ok (StandardScaler_transform p (raw_features processed)), self') /\
    scaler self' = Some p /\
    (forall s, predict (set_scaler self s) batch = (Ok out, self')) /\
    (forall s, save_model (set_scaler self s) = save_model self) /\
    (forall fresh model_data,
       save_model self = Ok model_data ->
       scaler (load_model fresh model_data) = scaler fresh).
Proof.
  intros Htrain.
  destruct (train_fits_scaler _ _ _ _ Htrain) as (processed_t & p_t & Ht1 & Ht2 & Ht3).
  unfold predict.
  destruct (preprocess_data batch) as [processed|e] eqn:Ep;
    [|rewrite try_except_handler; discriminate].
  destruct (engineer_features self processed) as [[X|e] self1] eqn:Ee;
    [|rewrite try_except_handler; discriminate].
  destruct (engineer_features_refits _ _ _ _ Ee) as (p & Hp & HX & ->).
  intro H. exists processed_t, p_t, processed, p.
  assert (Hs : self' = set_scaler self (Some p)) by (inversion H; reflexivity).
  subst self' X.
  repeat split; auto.
  intro s.
  assert (E : engineer_features (set_scaler self s) processed
              = (Ok (StandardScaler_transform p (raw_features processed)),
                 set_scaler self (Some p))).
  { unfold engineer_features in *.
    destruct (scaler_fit_transform (raw_features processed)) as [r s0].
    inversion Ee; subst. reflexivity. }
  rewrite E. exact H.
Qed.

End Facts.

(** One customer: the date range is 0 and the features are refused. *)
Lemma engineer_features_zero_date_range_raises_witness :
  exists processed r0,
    preprocess_data Samples.one_customer = Ok processed /\
    In r0 processed /\
    (forall r, In r processed ->
               last_transaction_date r = last_transaction_date r0) /\
    (forall r, In r processed -> (1 <= transaction_count r)%Z) /\
    @engineer_features Samples.first_rows_library (init 5) processed =
      (Raise (mk_exn FeatureError
         "Error engineering features: Input X contains infinity or a value too large for dtype('float64')."),
       set_scaler (init 5) None).
Proof.
  eexists; eexists.
  split; [vm_compute; reflexivity|].
  assert (Hin : forall (r0 : CustomerMetrics), In r0 [r0]) by (left; reflexivity).
  split; [apply Hin|].
  assert (H1 : forall (r0 r : CustomerMetrics), In r [r0] ->
                 last_transaction_date r = last_transaction_date r0)
    by (intros r0 r [<-|[]]; reflexivity).
  split; [apply H1|].
  assert (H2 : forall r : CustomerMetrics,
             In r [Segmentation.customer_metrics (Samples.t0 + 3600) "CUST001"
                     (rows Samples.one_customer)] ->
             (1 <= transaction_count r)%Z)
    by (intros r [<-|[]]; vm_compute; discriminate).
  split; [exact H2|].
  exact (@engineer_features_zero_date_range_raises Samples.first_rows_library
           (init 5) _ _ (Hin _) (H1 _) H2).
Defined.

(** The same through [train]. *)
Lemma train_one_customer_run :
  fst (@train Samples.first_rows_library (init 5) Samples.now
         Samples.one_customer)
  = Raise (mk_exn ModelError
      "Error training model: Error engineering features: Input X contains infinity or a value too large for dtype('float64').").
Proof. vm_compute; reflexivity. Qed.

Lemma predict_untrained_raises_NameError_witness :
  model (init 5) = None /\
  fst (@predict Samples.first_rows_library (init 5) Samples.two_customers)
    = Raise (mk_exn NameError "name 'PredictionError' is not defined") /\
  isinstance (mk_exn NameError "name 'PredictionError' is not defined")
    ModelError = false /\
  (forall processed X self',
     preprocess_data Samples.two_customers = Ok processed ->
     @engineer_features Samples.first_rows_library (init 5) processed
     = (Ok X, self') ->
     snd (@predict Samples.first_rows_library (init 5) Samples.two_customers)
     = self' /\ exists p, scaler self' = Some p).
Proof.
  split; [reflexivity|].
  apply (@predict_untrained_raises_NameError Samples.first_rows_library
           (init 5) Samples.two_customers); reflexivity.
Defined.

(** What the untrained instance answers to a well-formed batch, and what
    its body had raised: the scaler is fitted, the model is [None]. *)
Lemma predict_untrained_run :
  fst (@predict Samples.first_rows_library (init 5) Samples.two_customers)
  = Raise (mk_exn NameError "name 'PredictionError' is not defined") /\
  exists processed X self',
    preprocess_data Samples.two_customers = Ok processed /\
    @engineer_features Samples.first_rows_library (init 5) processed
    = (Ok X, self') /\
    model self' = None.
Proof.
  split; [vm_compute; reflexivity|].
  eexists; eexists; eexists.
  split; [vm_compute; reflexivity|].
  split; [vm_compute; reflexivity|]. reflexivity.
Qed.

Lemma predict_refits_scaler_and_save_omits_it_witness :
  exists out self',
    @train Samples.first_rows_library (init 2) Samples.now
      Samples.two_customers = (Ok tt, Samples.trained_on_two) /\
    @predict Samples.first_rows_library Samples.trained_on_two
      Samples.three_customers = (Ok out, self') /\
    exists processed_t p_t processed p,
      preprocess_data Samples.two_customers = Ok processed_t /\
      @StandardScaler_fit Samples.first_rows_library
        (raw_features processed_t) = Ok p_t /\
      scaler Samples.trained_on_two = Some p_t /\
      preprocess_data Samples.three_customers = Ok processed /\
      @StandardScaler_fit Samples.first_rows_library
        (raw_features processed) = Ok p /\
      @engineer_features Samples.first_rows_library Samples.trained_on_two
        processed
        = (Ok (StandardScaler_transform p (raw_features processed)), self') /\
      scaler self' = Some p /\
      (forall s, @predict Samples.first_rows_library
                   (set_scaler Samples.trained_on_two s)
                   Samples.three_customers = (Ok out, self')) /\
      (forall s, save_model (set_scaler Samples.trained_on_two s)
                 = save_model Samples.trained_on_two) /\
      (forall fresh model_data,
         save_model Samples.trained_on_two = Ok model_data ->
         scaler (load_model fresh model_data) = scaler fresh).
Proof.
  eexists; eexists.
  assert (Ht : @train Samples.first_rows_library (init 2) Samples.now
                 Samples.two_customers = (Ok tt, Samples.trained_on_two))
    by (vm_compute; reflexivity).
  split; [exact Ht|].
  split; [vm_compute; reflexivity|].
  apply (@predict_refits_scaler_and_save_omits_it Samples.first_rows_library
           (init 2) Samples.trained_on_two _ Samples.now
           Samples.two_customers Samples.three_customers _ Ht).
  vm_compute; reflexivity.
Defined.

(** C3 fails as stated.  After training on [two_customers], a [predict]
    on [three_customers] leaves other scaler attributes than training did
    (the mean of total_spend moves from 90 to 245); the state [save_model]
    writes is the same with the scaler emptied; and a new instance that
    loads it has no fitted scaler. *)
Lemma predict_refits_and_save_omits_scaler_run :
  exists out after model_data p_train p_predict,
    @train Samples.first_rows_library (init 2) Samples.now
      Samples.two_customers = (Ok tt, Samples.trained_on_two) /\
    scaler Samples.trained_on_two = Some p_train /\
    @predict Samples.first_rows_library Samples.trained_on_two
      Samples.three_customers = (Ok out, after) /\
    scaler after = Some p_predict /\
    nth 0 (mean_ p_train) NaN = Fin (180 # 2) /\
    nth 0 (mean_ p_predict) NaN = Fin (735 # 3) /\
    scaler after <> scaler Samples.trained_on_two /\
    save_model Samples.trained_on_two = Ok model_data /\
    save_model (set_scaler Samples.trained_on_two None) = Ok model_data /\
    scaler (load_model (init 2) model_data) = None.
Proof.
  do 5 eexists.
  split; [vm_compute; reflexivity|].
  split; [vm_compute; reflexivity|].
  split; [vm_compute; reflexivity|].
  split; [vm_compute; reflexivity|].
  split; [reflexivity|].
  split; [reflexivity|].
  split; [vm_compute; discriminate|].
  split; [vm_compute; reflexivity|].
  split; [vm_compute; reflexivity|].
  reflexivity.
Qed.

End SegmentationFacts.

(** * Further properties of the transformers *)

Module TransformerExtras.
Import Pandas Transformers Partner PyFacts TransformersFacts Notions.

Section Facts.
Context {text : TextLibrary}.

Lemma partner_columns_raises (data : DataFrame) :
  exists e, partner_columns data = Raise e.
Proof.
  unfold partner_columns, Py.bind, fillna, raise.
  repeat match goal with
         | |- context [match ?x with Ok _ => _ | Raise _ => _ end] =>
             destruct x; eauto
         end.
Qed.

(** [PartnerTransformer.transform] raises [TransformationError] on every
    frame: like the Scene+ transformer it calls [fillna(None)], on the
    location column, and its handler wraps whatever was raised. *)
Theorem partner_transform_always_raises
    (self : BaseTransformer) (data : DataFrame) :
  exists e,
    partner_transform self data =
      (Raise (mk_exn TransformationError
                ("Failed to transform partner data: " ++ str e)),
       clear_errors self).
Proof.
  destruct (partner_columns_raises data) as [e He].
  exists e; unfold partner_transform, validate_and_build.
  now rewrite He, try_except_handler.
Qed.

(** *** The validation loop *)

(** With a schema that raises nothing but pydantic's error, the loop
    leaves the transformer as it was. *)
Lemma validate_loop_state (self : BaseTransformer) (records : list dict) :
  (forall r e, schema self r = Raise e -> cls e = pydantic_ValidationError) ->
  forall acc, snd (validate_loop self records acc) = self.
Proof.
  intro Hs; induction records as [|r rest IH]; intro acc; simpl.
  - reflexivity.
  - destruct (schema self r) as [v|e] eqn:E.
    + unfold validate_record; rewrite E. destruct (is_empty v); apply IH.
    + rewrite (validate_record_propagates self r e E (Hs _ _ E)).
      reflexivity.
Qed.

Lemma validate_loop_all_valid (self : BaseTransformer) (records : list dict) :
  (forall r e, schema self r = Raise e -> cls e = pydantic_ValidationError) ->
  (forall r v, schema self r = Ok v -> v <> []) ->
  forall acc out self',
    validate_loop self records acc = (Ok out, self') ->
    Forall (fun r => exists v, schema self r = Ok v) records /\
    List.length out = (List.length acc + List.length records)%nat /\
    (forall v, In v out -> In v acc \/ exists r, schema self r = Ok v).
Proof.
  intros Hs Hne; induction records as [|r rest IH]; intros acc out self' H;
    simpl in H.
  - injection H as <- _. repeat split; auto; simpl; lia.
  - destruct (schema self r) as [v|e] eqn:E.
    + unfold validate_record in H; rewrite E in H.
      assert (Hv : is_empty v = false)
        by (destruct v; [exfalso; eapply Hne; eauto | reflexivity]).
      rewrite Hv in H.
      destruct (IH _ _ _ H) as (HF & HL & HI).
      split; [constructor; eauto|].
      split; [rewrite HL, length_app; simpl; lia|].
      intros x Hx; destruct (HI x Hx) as [Hin|Hex]; auto.
      apply in_app_or in Hin; destruct Hin as [Hin|[<-|[]]]; eauto.
    + rewrite (validate_record_propagates self r e E (Hs _ _ E)) in H.
      discriminate.
Qed.

Lemma length_mapM {A B} (f : A -> result B) (l : list A) (l' : list B) :
  mapM f l = Ok l' -> List.length l' = List.length l.
Proof.
  revert l'; induction l as [|x l IH]; intros l' H; simpl in H.
  - now injection H as <-.
  - destruct (f x); [|discriminate]. cbn [Py.bind] in H.
    destruct (mapM f l); [|discriminate]. cbn [Py.bind] in H.
    injection H as <-. simpl; f_equal; apply IH; reflexivity.
Qed.

(** Assigning a column of the length of the one it replaces keeps the
    number of rows. *)
Lemma nrows_setitem (data : DataFrame) (c : string) (col s : Series) :
  getitem data c = Ok col ->
  List.length s = List.length col ->
  nrows (setitem data c s) = nrows data.
Proof.
  unfold getitem; destruct data as [|[c' s'] rest]; simpl; [discriminate|].
  destruct (String.eqb c c'); simpl; [|reflexivity].
  intro H; injection H as <-; auto.
Qed.

Lemma nrows_rename (data : DataFrame) mapping :
  nrows (rename data mapping) = nrows data.
Proof. destruct data as [|[c s] rest]; reflexivity. Qed.

Ltac step_columns H :=
  match type of H with
  | Py.bind ?r _ = Ok _ =>
      let col := fresh "col" in
      let E := fresh "E" in
      destruct r as [col|] eqn:E; [cbn [Py.bind] in H | discriminate H]
  end.

(** The column statements of the retail transformer keep the number of
    rows. *)
Lemma retail_columns_nrows (data prepared : DataFrame) :
  retail_columns data = Ok prepared -> nrows prepared = nrows data.
Proof.
  unfold retail_columns; intro H.
  repeat step_columns H.
  unfold fillna in E4; injection E4 as <-.
  apply length_mapM in E0, E2, E5.
  rewrite length_map in E5.
  assert (L7 : List.length col7 = List.length col6).
  { unfold str_lower in E7.
    destruct (dtype_is_object col6); [|discriminate].
    injection E7 as <-. apply length_map. }
  assert (N : forall d, d = prepared ->
                (nrows d = nrows (setitem (setitem (setitem (setitem
                   (rename data
                      [("trans_id", "transaction_id");
                       ("store_number", "store_id");
                       ("cust_id", "customer_id");
                       ("timestamp", "transaction_timestamp");
                       ("amount", "total_amount");
                       ("retail_banner", "banner");
                       ("payment_type", "payment_method");
                       ("scene_points", "points_earned")])
                   "transaction_timestamp" col0) "total_amount" col2)
                   "points_earned" col5) "banner" col7)) ->
                nrows prepared = nrows data).
  { intros d -> ->.
    rewrite (nrows_setitem _ _ _ _ E6) by exact L7.
    rewrite (nrows_setitem _ _ _ _ E3) by exact E5.
    rewrite (nrows_setitem _ _ _ _ E1) by exact E2.
    rewrite (nrows_setitem _ _ _ _ E) by exact E0.
    apply nrows_rename. }
  destruct (dtype_is_object col8).
  - step_columns H. injection H as <-.
    eapply N; [reflexivity|].
    apply (nrows_setitem _ _ _ _ E8). eapply length_mapM; eauto.
  - injection H as <-. eapply N; reflexivity.
Qed.

(** *** What the schemas return *)

Ltac field_inv H :=
  repeat match type of H with
         | context [match ?x with _ => _ end] => destruct x
         | Py.bind _ _ = _ => unfold Py.bind in H
         | invalid _ _ = Ok _ => discriminate H
         | raise _ _ = Ok _ => discriminate H
         | Raise _ = Ok _ => discriminate H
         | Ok _ = Ok _ => injection H as <-
         end.

Lemma field_str_ok r k x : field_str r k = Ok x -> exists s, x = VStr s.
Proof. unfold field_str; intro H; field_inv H; eauto. Qed.

Lemma field_optional_str_ok r k x :
  field_optional_str r k = Ok x -> x = VNone \/ exists s, x = VStr s.
Proof. unfold field_optional_str; intro H; field_inv H; eauto. Qed.

Lemma field_datetime_ok r k x :
  field_datetime r k = Ok x -> x = VNaT \/ exists t, x = VTime t.
Proof. unfold field_datetime; intro H; field_inv H; eauto. Qed.

Lemma field_float_ge0_ok r k x :
  field_float_ge0 r k = Ok x -> exists q, x = VNum q /\ Qle_bool 0 q = true.
Proof.
  unfold field_float_ge0; intro H.
  destruct (lookup k r) as [v|]; [|discriminate].
  destruct (coerce_float k v) as [[q|]|]; cbn [Py.bind] in H;
    try discriminate.
  destruct (Qle_bool 0 q) eqn:E; [|discriminate].
  injection H as <-; eauto.
Qed.

Lemma field_float_ok r k x :
  field_float r k = Ok x -> x = VNaN \/ exists q, x = VNum q.
Proof.
  unfold field_float; intro H.
  destruct (lookup k r) as [v|]; [|discriminate].
  destruct (coerce_float k v) as [[q|]|]; cbn [Py.bind] in H;
    try discriminate; injection H as <-; simpl; eauto.
Qed.

Lemma field_optional_float_ok r k d x :
  field_optional_float r k d = Ok x ->
  x = VNone \/ x = VNaN \/ exists q, x = VNum q.
Proof.
  unfold field_optional_float; intro H.
  destruct (lookup k r) as [v|]; [|injection H as <-; eauto].
  assert (G : Py.bind (coerce_float k v) (fun y => Ok (float_value y)) = Ok x ->
              x = VNone \/ x = VNaN \/ exists q, x = VNum q).
  { destruct (coerce_float k v) as [[q|]|]; cbn [Py.bind]; intro G;
      try discriminate; injection G as <-; simpl; eauto. }
  destruct v; auto. injection H as <-; auto.
Qed.

Lemma field_items_ok r k x :
  field_items r k = Ok x ->
  exists l, x = VList l /\ l <> [] /\ forallb is_dict l = true /\
            forallb item_keys l = true.
Proof.
  unfold field_items, validate_items; intro H.
  destruct (lookup k r) as [[| | | | | |l|]|]; try discriminate.
  destruct (forallb is_dict l) eqn:Ed; [|discriminate].
  destruct l as [|i l]; [discriminate|].
  match type of H with
  | context [if ?b then _ else _] => destruct b eqn:Ek
  end; cbn [Py.bind] in H; [|discriminate].
  injection H as <-. exists (i :: l); repeat split; auto. discriminate.
Qed.

(** The validated retail record: its nine fields, in order, each of the
    declared type. *)
Lemma RetailTransaction_fields (record v : dict) :
  RetailTransaction record = Ok v ->
  exists tid sid cid t q b l pm pe,
    v = [("transaction_id", VStr tid); ("store_id", VStr sid);
         ("customer_id", VStr cid); ("transaction_timestamp", t);
         ("total_amount", VNum q); ("banner", VStr b); ("items", VList l);
         ("payment_method", VStr pm); ("points_earned", pe)] /\
    (t = VNaT \/ exists t', t = VTime t') /\
    Qle_bool 0 q = true /\
    l <> [] /\ forallb is_dict l = true /\ forallb item_keys l = true /\
    (pe = VNone \/ pe = VNaN \/ exists p, pe = VNum p).
Proof.
  unfold RetailTransaction; intro H.
  repeat step_columns H.
  injection H as <-.
  apply field_str_ok in E, E0, E1, E4, E6.
  apply field_datetime_ok in E2. apply field_float_ge0_ok in E3.
  apply field_items_ok in E5. apply field_optional_float_ok in E7.
  destruct E as [tid ->], E0 as [sid ->], E1 as [cid ->],
    E3 as (q & -> & Hq), E4 as [b ->], E5 as (l & -> & Hl1 & Hl2 & Hl3),
    E6 as [pm ->].
  exists tid, sid, cid, col2, q, b, l, pm, col7. repeat split; auto.
Qed.

(** A record that [RetailTransaction] validated has an amount that is a
    number not below 0 and a non-empty list of items that are dicts with
    the keys sku, quantity and price; and validating it again returns it
    unchanged. *)
Theorem RetailTransaction_validated_is_canonical (record v : dict) :
  RetailTransaction record = Ok v ->
  (exists q, lookup "total_amount" v = Some (VNum q) /\ 0 <= q) /\
  (exists l, lookup "items" v = Some (VList l) /\ l <> [] /\
             forallb is_dict l = true /\ forallb item_keys l = true) /\
  RetailTransaction v = Ok v.
Proof.
  intro H.
  destruct (RetailTransaction_fields _ _ H)
    as (tid & sid & cid & t & q & b & l & pm & pe & -> & Ht & Hq & Hl1 & Hl2
        & Hl3 & Hpe).
  split; [exists q; split; [reflexivity | now apply Qle_bool_iff]|].
  split; [exists l; repeat split; auto|].
  unfold RetailTransaction, field_str, field_datetime, field_float_ge0,
    field_items, field_optional_float, validate_items.
  cbn [lookup String.eqb Ascii.eqb Bool.eqb andb Py.bind coerce_float].
  rewrite Hq, Hl2. cbn [Py.bind].
  destruct l as [|i l]; [congruence|].
  change (forallb (fun item => forallb (fun k => has_key k item)
                                 ["sku"; "quantity"; "price"]) (i :: l))
    with (forallb item_keys (i :: l)).
  rewrite Hl3.
  destruct Ht as [->|[t' ->]]; cbn [Py.bind];
    destruct Hpe as [->|[->|[p ->]]]; reflexivity.
Qed.

(** A record that [SceneTransaction] validated has the transaction type
    "earn" or "redeem", in lower case whatever the case of the input. *)
Theorem SceneTransaction_type_is_canonical (record v : dict) :
  SceneTransaction record = Ok v ->
  lookup "transaction_type" v = Some (VStr "earn") \/
  lookup "transaction_type" v = Some (VStr "redeem").
Proof.
  unfold SceneTransaction; intro H.
  repeat step_columns H. injection H as <-.
  apply field_str_ok in E1; destruct E1 as [s ->].
  unfold validate_transaction_type in E2. cbn [existsb] in E2.
  destruct (String.eqb (lower s) "earn") eqn:Ee.
  - apply String.eqb_eq in Ee. injection E2 as <-. rewrite Ee. left; reflexivity.
  - destruct (String.eqb (lower s) "redeem") eqn:Er; [|discriminate].
    apply String.eqb_eq in Er. injection E2 as <-. rewrite Er.
    right; reflexivity.
Qed.

(** A record that [PartnerTransaction] validated names the partner
    "cineplex" or "scotiabank" in lower case, and its amount is a number
    not below 0. *)
Theorem PartnerTransaction_validated_is_canonical (record v : dict) :
  PartnerTransaction record = Ok v ->
  (lookup "partner_id" v = Some (VStr "cineplex") \/
   lookup "partner_id" v = Some (VStr "scotiabank")) /\
  exists q, lookup "amount" v = Some (VNum q) /\ 0 <= q.
Proof.
  unfold PartnerTransaction; intro H.
  repeat step_columns H. injection H as <-.
  apply field_str_ok in E0; destruct E0 as [s ->].
  apply field_float_ge0_ok in E5; destruct E5 as (q & -> & Hq).
  split; [|exists q; split; [reflexivity | now apply Qle_bool_iff]].
  unfold validate_partner in E1. cbn [existsb] in E1.
  destruct (String.eqb (lower s) "cineplex") eqn:Ee.
  - apply String.eqb_eq in Ee. injection E1 as <-. rewrite Ee. left; reflexivity.
  - destruct (String.eqb (lower s) "scotiabank") eqn:Er; [|discriminate].
    apply String.eqb_eq in Er. injection E1 as <-. rewrite Er.
    right; reflexivity.
Qed.

(** *** The retail transformer as a whole *)

Lemma from_records_nrows (r : dict) (rest : list dict) :
  r <> [] -> nrows (from_records (r :: rest)) = List.length (r :: rest).
Proof.
  destruct r as [|[c v] r]; [congruence|]; intros _.
  unfold from_records, nrows. cbn [map List.length]. now rewrite length_map.
Qed.

Lemma to_dict_records_length (data : DataFrame) :
  List.length (to_dict_records data) = nrows data.
Proof. unfold to_dict_records; now rewrite length_map, length_seq. Qed.

(** After [RetailTransformer.transform] the error report is empty, whatever
    the batch, and the only error the call raises is
    [TransformationError]. *)
Theorem retail_transform_never_reports
    (self : BaseTransformer) (data : DataFrame) :
  schema self = RetailTransaction ->
  get_error_report (snd (retail_transform self data)) = [] /\
  forall e, fst (retail_transform self data) = Raise e ->
            cls e = TransformationError.
Proof.
  intro Hs.
  assert (Hp : forall r e, schema (clear_errors self) r = Raise e ->
                           cls e = pydantic_ValidationError).
  { simpl; rewrite Hs; intros; eapply RetailTransaction_raises_pydantic; eauto. }
  unfold retail_transform, validate_and_build.
  destruct (retail_columns data) as [prepared|e0].
  - pose proof (validate_loop_state (clear_errors self)
                  (to_dict_records prepared) Hp []) as Hst.
    destruct (validate_loop (clear_errors self) (to_dict_records prepared) [])
      as [[out|e1] self1]; simpl in Hst; subst self1;
      rewrite try_except_handler.
    + split; [reflexivity|].
      destruct (is_empty out); simpl; intros e H; inversion H; reflexivity.
    + split; [reflexivity|]. simpl; intros e H; inversion H; reflexivity.
  - rewrite try_except_handler; split; [reflexivity|].
    simpl; intros e H; inversion H; reflexivity.
Qed.

(** [RetailTransformer.transform] is all or nothing: when it returns a
    frame, the columns converted, every record of the batch passed
    [RetailTransaction], and the frame has as many rows as the batch, at
    least one. *)
Theorem retail_transform_all_or_nothing
    (self self' : BaseTransformer) (data out : DataFrame) :
  schema self = RetailTransaction ->
  retail_transform self data = (Ok out, self') ->
  exists prepared,
    retail_columns data = Ok prepared /\
    Forall (fun r => exists v, RetailTransaction r = Ok v)
           (to_dict_records prepared) /\
    nrows out = nrows data /\
    (1 <= nrows data)%nat.
Proof.
  intros Hs.
  assert (Hp : forall r e, schema (clear_errors self) r = Raise e ->
                           cls e = pydantic_ValidationError).
  { simpl; rewrite Hs; intros; eapply RetailTransaction_raises_pydantic; eauto. }
  unfold retail_transform, validate_and_build.
  destruct (retail_columns data) as [prepared|e0] eqn:Ec;
    [|rewrite try_except_handler; discriminate].
  destruct (validate_loop (clear_errors self) (to_dict_records prepared) [])
    as [[recs|e1] self1] eqn:El;
    rewrite try_except_handler; [|discriminate].
  assert (Hne : forall r v, schema (clear_errors self) r = Ok v -> v <> []).
  { simpl; rewrite Hs; intros r v Hv.
    destruct (RetailTransaction_fields _ _ Hv)
      as (? & ? & ? & ? & ? & ? & ? & ? & ? & -> & _).
    discriminate. }
  destruct (validate_loop_all_valid _ _ Hp Hne _ _ _ El) as (HF & HL & HI).
  destruct recs as [|r recs]; [discriminate|].
  cbn [is_empty]. intro H.
  assert (Ho : out = from_records (r :: recs)) by (injection H; auto).
  exists prepared. split; [reflexivity|].
  split.
  { eapply Forall_impl; [|exact HF]. simpl; rewrite Hs; auto. }
  assert (Hr : r <> []).
  { destruct (HI r (or_introl eq_refl)) as [[]|[r0 Hv]].
    simpl in Hv; rewrite Hs in Hv.
    destruct (RetailTransaction_fields _ _ Hv)
      as (? & ? & ? & ? & ? & ? & ? & ? & ? & -> & _).
    discriminate. }
  cbn [List.length Nat.add] in HL.
  rewrite to_dict_records_length, (retail_columns_nrows _ _ Ec) in HL.
  split.
  - rewrite Ho, (from_records_nrows r recs Hr). exact HL.
  - rewrite <- HL. simpl; lia.
Qed.

(** A batch without rows is refused with the message of the
    no-valid-record test, wrapped by the handler of [transform] itself. *)
Theorem retail_transform_no_rows
    (self : BaseTransformer) (data prepared : DataFrame) :
  retail_columns data = Ok prepared ->
  nrows data = 0%nat ->
  retail_transform self data =
    (Raise (mk_exn TransformationError
       "Failed to transform retail data: No valid records after transformation"),
     clear_errors self).
Proof.
  intros Hc Hn. unfold retail_transform, validate_and_build; rewrite Hc.
  unfold to_dict_records. rewrite (retail_columns_nrows _ _ Hc), Hn.
  reflexivity.
Qed.

(** *** Isolation with the package's own error class *)




(** *** Items in the pipe format *)

Lemma split_nonempty (sep : ascii) (s : string) : split sep s <> [].
Proof.
  destruct s as [|c s]; simpl; [discriminate|].
  destruct (Ascii.eqb c sep); [discriminate|].
  destruct (split sep s); discriminate.
Qed.

Lemma parse_item_ok (item_str : string) (v : object) :
  parse_item item_str = Ok v -> is_dict v = true /\ item_keys v = true.
Proof.
  unfold parse_item; intro H.
  destruct (split "," item_str) as [|a [|b [|c [|d l]]]]; try discriminate.
  destruct (python_int b); [|discriminate].
  destruct (python_float c); [|discriminate].
  injection H as <-. split; reflexivity.
Qed.

Lemma mapM_Forall {A B} (f : A -> result B) (P : B -> Prop) (l : list A) :
  (forall a b, f a = Ok b -> P b) ->
  forall l', mapM f l = Ok l' -> Forall P l'.
Proof.
  intro Hf; induction l as [|x l IH]; intros l' H; simpl in H.
  - injection H as <-; constructor.
  - destruct (f x) eqn:E; [|discriminate]. cbn [Py.bind] in H.
    destruct (mapM f l); [|discriminate]. cbn [Py.bind] in H.
    injection H as <-. constructor; eauto.
Qed.

(** Items that [_parse_items] reads from the pipe format always pass the
    [items] field of the schema: at least one item, each a dict with the
    keys sku, quantity and price. *)
Theorem parse_items_pipe_passes_schema (s : string) (v : object) :
  startswith s "[" && endswith s "]" = false ->
  _parse_items (VStr s) = Ok v ->
  field_items [("items", v)] "items" = Ok v.
Proof.
  intros Hb; unfold _parse_items; rewrite try_except_handler, Hb.
  destruct (mapM parse_item (split "|" s)) as [items|] eqn:E;
    cbn [Py.bind]; [|discriminate].
  intro H; injection H as <-.
  pose proof (length_mapM _ _ _ E) as HL.
  pose proof (mapM_Forall _ (fun x => is_dict x = true /\ item_keys x = true)
                _ parse_item_ok _ E) as HF.
  assert (Hd : forallb is_dict items = true).
  { apply forallb_forall; intros x Hx.
    rewrite Forall_forall in HF; apply HF; exact Hx. }
  assert (Hk : forallb item_keys items = true).
  { apply forallb_forall; intros x Hx.
    rewrite Forall_forall in HF; apply HF; exact Hx. }
  unfold field_items, validate_items.
  cbn [lookup String.eqb Ascii.eqb Bool.eqb andb]. rewrite Hd.
  destruct items as [|i items].
  - pose proof (split_nonempty "|" s) as Hne.
    destruct (split "|" s); [congruence | discriminate].
  - change (forallb (fun item => forallb (fun k => has_key k item)
                                   ["sku"; "quantity"; "price"]) (i :: items))
      with (forallb item_keys (i :: items)).
    rewrite Hk. reflexivity.
Qed.

End Facts.
Lemma RetailTransaction_validated_is_canonical_witness :
  exists v,
    @RetailTransaction typed_cells MoreSamples.valid_record = Ok v /\
    (exists q, lookup "total_amount" v = Some (VNum q) /\ 0 <= q) /\
    (exists l, lookup "items" v = Some (VList l) /\ l <> [] /\
               forallb is_dict l = true /\ forallb item_keys l = true) /\
    @RetailTransaction typed_cells v = Ok v.
Proof.
  eexists; split; [vm_compute; reflexivity|].
  apply (@RetailTransaction_validated_is_canonical typed_cells
           MoreSamples.valid_record).
  vm_compute; reflexivity.
Defined.

Lemma SceneTransaction_type_is_canonical_witness :
  exists v,
    @SceneTransaction typed_cells MoreSamples.scene_record = Ok v /\
    (lookup "transaction_type" v = Some (VStr "earn") \/
     lookup "transaction_type" v = Some (VStr "redeem")).
Proof.
  eexists; split; [vm_compute; reflexivity|].
  apply (@SceneTransaction_type_is_canonical typed_cells
           MoreSamples.scene_record).
  vm_compute; reflexivity.
Defined.

Lemma PartnerTransaction_validated_is_canonical_witness :
  exists v,
    @PartnerTransaction typed_cells MoreSamples.partner_record = Ok v /\
    (lookup "partner_id" v = Some (VStr "cineplex") \/
     lookup "partner_id" v = Some (VStr "scotiabank")) /\
    exists q, lookup "amount" v = Some (VNum q) /\ 0 <= q.
Proof.
  eexists; split; [vm_compute; reflexivity|].
  apply (@PartnerTransaction_validated_is_canonical typed_cells
           MoreSamples.partner_record).
  vm_compute; reflexivity.
Defined.

Lemma retail_transform_never_reports_witness :
  schema (@RetailTransformer typed_cells) = @RetailTransaction typed_cells /\
  get_error_report
    (snd (@retail_transform typed_cells (@RetailTransformer typed_cells)
            Samples.retail_50_one_negative)) = [] /\
  forall e,
    fst (@retail_transform typed_cells (@RetailTransformer typed_cells)
           Samples.retail_50_one_negative) = Raise e ->
    cls e = TransformationError.
Proof.
  split; [reflexivity|].
  apply (@retail_transform_never_reports typed_cells); reflexivity.
Defined.

Lemma retail_transform_all_or_nothing_witness :
  exists out self',
    @retail_transform typed_cells (@RetailTransformer typed_cells)
      Samples.retail_50_valid = (Ok out, self') /\
    exists prepared,
      @retail_columns typed_cells Samples.retail_50_valid = Ok prepared /\
      Forall (fun r => exists v, @RetailTransaction typed_cells r = Ok v)
             (to_dict_records prepared) /\
      nrows out = nrows Samples.retail_50_valid /\
      (1 <= nrows Samples.retail_50_valid)%nat.
Proof.
  eexists; eexists; split; [vm_compute; reflexivity|].
  eapply (@retail_transform_all_or_nothing typed_cells
            (@RetailTransformer typed_cells)).
  - reflexivity.
  - vm_compute; reflexivity.
Defined.

Lemma retail_transform_no_rows_witness :
  exists prepared,
    @retail_columns typed_cells (Samples.retail_batch 0 (fun _ => 20))
      = Ok prepared /\
    nrows (Samples.retail_batch 0 (fun _ => 20)) = 0%nat /\
    @retail_transform typed_cells (@RetailTransformer typed_cells)
      (Samples.retail_batch 0 (fun _ => 20)) =
      (Raise (mk_exn TransformationError
         "Failed to transform retail data: No valid records after transformation"),
       clear_errors (@RetailTransformer typed_cells)).
Proof.
  eexists; split; [vm_compute; reflexivity|].
  split; [reflexivity|].
  eapply (@retail_transform_no_rows typed_cells);
    [vm_compute; reflexivity | reflexivity].
Defined.


Lemma parse_items_pipe_passes_schema_witness :
  exists v,
    startswith "SKU1,2,5|SKU2,1,3" "[" && endswith "SKU1,2,5|SKU2,1,3" "]"
      = false /\
    @_parse_items MoreSamples.digits_library (VStr "SKU1,2,5|SKU2,1,3")
      = Ok v /\
    @field_items [("items", v)] "items" = Ok v.
Proof.
  eexists; split; [reflexivity|].
  split; [vm_compute; reflexivity|].
  apply (@parse_items_pipe_passes_schema MoreSamples.digits_library
           "SKU1,2,5|SKU2,1,3"); [reflexivity | vm_compute; reflexivity].
Defined.

End TransformerExtras.

(** * Further properties of the aggregation *)

Module AggregationExtras.
Import Data DataFacts PyFacts Sklearn Notions.

Lemma ascii_compare_refl (a : ascii) : Ascii.compare a a = Eq.
Proof. unfold Ascii.compare; apply N.compare_refl. Qed.


Lemma compare_refl (s : string) : String.compare s s = Eq.
Proof.
  induction s as [|a s IH]; simpl; [reflexivity|].
  now rewrite ascii_compare_refl.
Qed.















End AggregationExtras.

(** * Further properties of the segmentation model *)

Module SegmentationExtras.
Import Data Sklearn Segmentation PyFacts DataFacts SegmentationFacts
  AggregationFacts Notions.

Section Facts.
Context {lib : Library}.

(** The scaler refuses a batch whose customers share their last
    transaction date. *)
Lemma scaler_refuses_shared_date (data : list CustomerMetrics)
    (r0 : CustomerMetrics) :
  In r0 data ->
  (forall r, In r data -> last_transaction_date r = last_transaction_date r0) ->
  (forall r, In r data -> (1 <= transaction_count r)%Z) ->
  scaler_fit_transform (raw_features data) =
    (Raise (mk_exn ValueError
       "Input X contains infinity or a value too large for dtype('float64')."),
     None).
Proof.
  intros Hin Hsame Hcount.
  unfold scaler_fit_transform, StandardScaler_fit, raw_features.
  rewrite (date_range_same_day data r0 Hin Hsame).
  destruct data as [|r rs]; [destruct Hin|].
  assert (E : existsb (existsb isinf)
                (map (feature_row (Fin (0 / 30))) (r :: rs)) = true).
  { cbn [map existsb]. unfold feature_row at 1.
    rewrite (visit_frequency_infinite r (Hcount r (or_introl eq_refl))).
    reflexivity. }
  rewrite E. reflexivity.
Qed.

Lemma preprocess_data_last_date (data : Transactions) processed :
  preprocess_data data = Ok processed ->
  forall m, In m processed ->
    In (m_customer_id m) (map customer_id (rows data)) /\
    last_transaction_date m
    = Spec.customer_latest (m_customer_id m) (rows data).
Proof.
  unfold preprocess_data; rewrite try_except_handler.
  destruct (missing_cols required_columns (columns data)); [|discriminate].
  destruct (map transaction_timestamp (rows data)) as [|t ts] eqn:Et.
  - intro H; injection H as <-; intros m [].
  - intro H.
    assert (Ho : processed
                 = map (fun c => customer_metrics (Zmax_list t ts) c
                                   (group c (rows data)))
                       (group_keys (rows data)))
      by (injection H as <-; reflexivity).
    rewrite Ho; intros m Hm.
    apply in_map_iff in Hm; destruct Hm as (c & <- & Hc).
    apply group_keys_In in Hc. split; [exact Hc|].
    unfold Spec.customer_latest, Spec.batch_latest. cbn.
    pose proof (group_nonempty c (rows data) Hc) as Hne.
    destruct (group c (rows data)); [congruence | reflexivity].
Qed.

Lemma preprocess_data_nonempty (data : Transactions) processed :
  preprocess_data data = Ok processed -> rows data <> [] -> processed <> [].
Proof.
  unfold preprocess_data; rewrite try_except_handler.
  destruct (missing_cols required_columns (columns data)); [|discriminate].
  destruct (rows data) as [|r rs] eqn:Er; [congruence|].
  cbn [map]. intros H _; injection H as <-.
  intro E; apply map_eq_nil in E.
  pose proof (group_keys_In (customer_id r) (r :: rs)) as [_ Hk].
  rewrite E in Hk. apply Hk. simpl; auto.
Qed.

Lemma preprocess_data_total (data : Transactions) :
  missing_cols required_columns (columns data) = [] ->
  exists processed, preprocess_data data = Ok processed.
Proof.
  intro Hc; unfold preprocess_data; rewrite try_except_handler, Hc.
  destruct (map transaction_timestamp (rows data)); eauto.
Qed.

(** A batch in which every customer's latest transaction bears the same
    timestamp (a batch of one customer, for one) can be neither trained on
    nor predicted: the date range is 0, the scaler refuses the infinite
    visit frequencies, [train] raises [ModelError], and [predict], trained
    or not, ends in its handler, whose [PredictionError] is a name the
    module does not import: it raises [NameError]. *)
Theorem shared_last_date_batch_is_refused
    (self : CustomerSegmentation) (now : Z) (data : Transactions) (T : Z) :
  rows data <> [] ->
  missing_cols required_columns (columns data) = [] ->
  (forall c, In c (map customer_id (rows data)) ->
             Spec.customer_latest c (rows data) = T) ->
  fst (train self now data) =
    Raise (mk_exn ModelError
      "Error training model: Error engineering features: Input X contains infinity or a value too large for dtype('float64').") /\
  fst (predict self data) =
    Raise (mk_exn NameError "name 'PredictionError' is not defined").
Proof.
  intros Hne Hcols Hsame.
  destruct (preprocess_data_total data Hcols) as [processed Hp].
  pose proof (preprocess_data_nonempty _ _ Hp Hne) as Hpne.
  pose proof (preprocess_data_last_date _ _ Hp) as Hlast.
  pose proof (preprocess_data_counts _ _ Hp) as Hcount.
  destruct processed as [|r0 rest]; [congruence|].
  assert (Hs : scaler_fit_transform (raw_features (r0 :: rest)) =
    (Raise (mk_exn ValueError
       "Input X contains infinity or a value too large for dtype('float64')."),
     None)).
  { apply (scaler_refuses_shared_date (r0 :: rest) r0); auto.
    - simpl; auto.
    - intros r Hr.
      destruct (Hlast r Hr) as [Hc1 ->].
      destruct (Hlast r0 (or_introl eq_refl)) as [Hc2 ->].
      rewrite (Hsame _ Hc1), (Hsame _ Hc2). reflexivity. }
  unfold train, predict, engineer_features. rewrite Hp, Hs.
  split; reflexivity.
Qed.

End Facts.

Lemma shared_last_date_batch_is_refused_witness :
  rows Samples.one_customer <> [] /\
  missing_cols required_columns (columns Samples.one_customer) = [] /\
  (forall c, In c (map customer_id (rows Samples.one_customer)) ->
             Spec.customer_latest c (rows Samples.one_customer)
             = (Samples.t0 + 3600)%Z) /\
  fst (@train Samples.first_rows_library Samples.trained_on_two Samples.now
         Samples.one_customer) =
    Raise (mk_exn ModelError
      "Error training model: Error engineering features: Input X contains infinity or a value too large for dtype('float64').") /\
  fst (@predict Samples.first_rows_library Samples.trained_on_two
         Samples.one_customer) =
    Raise (mk_exn NameError "name 'PredictionError' is not defined").
Proof.
  assert (H1 : rows Samples.one_customer <> []) by discriminate.
  assert (H2 : missing_cols required_columns (columns Samples.one_customer)
               = []) by reflexivity.
  assert (H3 : forall c, In c (map customer_id (rows Samples.one_customer)) ->
             Spec.customer_latest c (rows Samples.one_customer)
             = (Samples.t0 + 3600)%Z).
  { intros c [<-|[<-|[]]]; vm_compute; reflexivity. }
  split; [exact H1|]; split; [exact H2|]; split; [exact H3|].
  exact (@shared_last_date_batch_is_refused Samples.first_rows_library
           Samples.trained_on_two Samples.now Samples.one_customer _ H1 H2 H3).
Defined.

Section Reload.
Context {lib : Library}.

(** What [predict] returns depends on the instance only through its model
    and [n_clusters]: the scaler it holds is refitted, and the feature
    columns are not read. *)
Lemma predict_reads_model_and_n_clusters (a b : CustomerSegmentation)
    (data : Transactions) :
  model a = model b -> n_clusters a = n_clusters b ->
  fst (predict a data) = fst (predict b data).
Proof.
  intros Hm Hn. unfold predict.
  destruct (preprocess_data data) as [processed|e]; [|reflexivity].
  unfold engineer_features.
  destruct (scaler_fit_transform (raw_features processed)) as [[f|e] s];
    cbn [try_except fst]; [|destruct (isinstance e Exception); reflexivity].
  unfold _get_segment_descriptions. cbn [model n_clusters set_scaler].
  rewrite Hm, Hn. reflexivity.
Qed.

(** A model saved and loaded into an instance built with the same
    [n_clusters] predicts, on every batch, what the instance that saved it
    predicts. *)
Theorem predict_after_reload (self other : CustomerSegmentation)
    (md : ModelData) (data : Transactions) :
  save_model self = Ok md ->
  n_clusters other = n_clusters self ->
  fst (predict (load_model other md) data) = fst (predict self data).
Proof.
  intros Hs Hn. apply predict_reads_model_and_n_clusters.
  - unfold save_model in Hs. destruct (model self); [|discriminate].
    injection Hs as <-. reflexivity.
  - exact Hn.
Qed.

Lemma descriptions_need_centres (centers : list (list Q)) (n a : nat)
    (descs : list (nat * string)) :
  mapM (fun segment_id =>
          match nth_error centers segment_id with
          | None =>
              raise IndexError "single positional indexer is out-of-bounds"
          | Some center => Ok (segment_id, describe center)
          end) (seq a n) = Ok descs ->
  (n = 0 \/ a + n <= List.length centers)%nat /\
  forall k, lookup_nat k descs =
            if ((a <=? k) && (k <? a + n))%nat
            then option_map describe (nth_error centers k) else None.
Proof.
  revert a descs; induction n as [|n IH]; intros a descs H; cbn [seq mapM] in H.
  - injection H as <-. split; [now left|].
    intro k. cbn [lookup_nat].
    destruct (Nat.leb_spec a k); [|reflexivity].
    destruct (Nat.ltb_spec k (a + 0)); [lia|reflexivity].
  - destruct (nth_error centers a) as [c|] eqn:Ea; [|discriminate].
    cbn [Py.bind] in H.
    destruct (mapM _ (seq (S a) n)) as [ds|] eqn:Em; [|discriminate].
    cbn [Py.bind] in H. injection H as <-.
    destruct (IH _ _ Em) as [Hlen Hlook].
    assert (Ha : (a < List.length centers)%nat)
      by (apply nth_error_Some; congruence).
    split; [right; lia|].
    intro k. cbn [lookup_nat].
    destruct (k =? a)%nat eqn:Eka.
    + apply Nat.eqb_eq in Eka; subst k.
      rewrite Ea. cbn [option_map].
      destruct (Nat.leb_spec a a); [|lia].
      destruct (Nat.ltb_spec a (a + S n)); [reflexivity|lia].
    + apply Nat.eqb_neq in Eka. rewrite Hlook.
      destruct (Nat.leb_spec (S a) k); destruct (Nat.leb_spec a k);
        try lia; cbn [andb]; [|reflexivity].
      destruct (Nat.ltb_spec k (S a + n)); destruct (Nat.ltb_spec k (a + S n));
        try lia; reflexivity.
Qed.

(** An instance whose [n_clusters] exceeds the number of centres of its
    model, as after loading a saved model into an instance built with a
    larger [n_clusters], never returns segments: on every batch [predict]
    fails, in [_get_segment_descriptions] at the latest, and raises the
    [NameError] of its handler. *)
Theorem predict_never_returns_with_fewer_centres
    (self : CustomerSegmentation) (m : KMeans) (centers : list (list Q))
    (data : Transactions) :
  model self = Some m ->
  cluster_centers_ m = Some centers ->
  (List.length centers < n_clusters self)%nat ->
  fst (predict self data)
  = Raise (mk_exn NameError "name 'PredictionError' is not defined").
Proof.
  intros Hm Hc Hlt. unfold predict.
  destruct (preprocess_data data) as [processed|e].
  2:{ cbn [try_except fst]. rewrite isinstance_Exception. reflexivity. }
  unfold engineer_features.
  destruct (scaler_fit_transform (raw_features processed)) as [[f|e] s];
    cbn [try_except fst].
  2:{ rewrite isinstance_Exception. cbn. reflexivity. }
  cbn [model set_scaler]. rewrite Hm.
  destruct (KMeans_predict m f) as [segs|e]; cbn [Py.bind].
  2:{ cbn [try_except fst]. rewrite isinstance_Exception. reflexivity. }
  unfold _get_segment_descriptions. cbn [model n_clusters set_scaler].
  rewrite Hm, Hc.
  destruct (negb (forallb _ centers)).
  { cbn. reflexivity. }
  match goal with
  | |- context [mapM ?f (seq 0 ?n)] => destruct (mapM f (seq 0 n)) as [ds|e] eqn:E
  end.
  - apply descriptions_need_centres in E. destruct E as [[E|E] _]; lia.
  - cbn [Py.bind try_except fst]. rewrite isinstance_Exception. reflexivity.
Qed.

End Reload.

Section Labels.
Context {lib : Library}.

Lemma argmin_from_lt (row : list Q) (centers : list (list Q)) :
  forall i best d, (best < i)%nat ->
    (argmin_from row centers i best d < i + List.length centers)%nat.
Proof.
  induction centers as [|c rest IH]; intros i best d Hb; cbn [argmin_from].
  - cbn [List.length]. lia.
  - cbn [List.length].
    destruct (Qlt_bool (sq_dist row c) d).
    + specialize (IH (S i) i (sq_dist row c)). lia.
    + specialize (IH (S i) best d). lia.
Qed.

Lemma nearest_lt (centers : list (list Q)) (row : list Q) :
  centers <> [] -> (nearest centers row < List.length centers)%nat.
Proof.
  destruct centers as [|c rest]; [congruence|]. intros _.
  cbn [nearest List.length].
  pose proof (argmin_from_lt row rest 1 0 (sq_dist row c)). lia.
Qed.

Lemma KMeans_predict_labels (m : KMeans) (centers : list (list Q))
    (X : list (list float)) (segments : list nat) :
  cluster_centers_ m = Some centers ->
  KMeans_predict m X = Ok segments ->
  List.length segments = List.length X /\
  Forall (fun seg => centers <> [] -> (seg < List.length centers)%nat)
         segments.
Proof.
  intros Hc. unfold KMeans_predict. rewrite Hc.
  destruct (existsb _ X); [discriminate|].
  destruct (negb _); [discriminate|].
  intro H; injection H as <-. split; [apply length_map|].
  apply Forall_forall. intros seg Hin.
  apply in_map_iff in Hin. destruct Hin as (row & <- & _).
  intro Hne. apply nearest_lt; exact Hne.
Qed.

Lemma scaler_fit_transform_length (X Y : list (list float)) s :
  scaler_fit_transform X = (Ok Y, s) -> List.length Y = List.length X.
Proof.
  unfold scaler_fit_transform.
  destruct (StandardScaler_fit X); [|discriminate].
  intro H; injection H as <- _. apply length_map.
Qed.

Lemma preprocess_data_customers (data : Transactions) processed :
  preprocess_data data = Ok processed ->
  map m_customer_id processed = group_keys (rows data).
Proof.
  unfold preprocess_data; rewrite try_except_handler.
  destruct (missing_cols required_columns (columns data)); [|discriminate].
  destruct (map transaction_timestamp (rows data)) as [|t ts] eqn:Et.
  - intro H; injection H as <-.
    destruct (rows data); [reflexivity|discriminate].
  - intro H.
    assert (Ho : processed
                 = map (fun c => customer_metrics (Zmax_list t ts) c
                                   (group c (rows data)))
                       (group_keys (rows data)))
      by (injection H as <-; reflexivity).
    rewrite Ho, map_map. cbn [customer_metrics m_customer_id].
    apply map_id.
Qed.

Lemma map_fst_combine {A B} (l : list A) (l' : list B) :
  List.length l' = List.length l -> map fst (combine l l') = l.
Proof.
  revert l'; induction l as [|x l IH]; intros [|y l'] H;
    cbn in *; try congruence; try lia.
  f_equal; apply IH; lia.
Qed.

(** When [predict] returns, the instance holds a fitted model with at
    least [n_clusters] centres; the frame has one row per customer of the
    batch, in sorted order of the ids; every label is the index of a
    centre, and the description next to it is that of this centre, or
    missing when the label is [n_clusters] or more. *)
Theorem predict_labels_each_customer (self self' : CustomerSegmentation)
    (data : Transactions) (out : list SegmentRow) :
  predict self data = (Ok out, self') ->
  exists m centers,
    model self = Some m /\ cluster_centers_ m = Some centers /\
    (n_clusters self <= List.length centers)%nat /\
    map s_customer_id out = group_keys (rows data) /\
    Forall (fun row =>
              (centers <> [] -> (segment row < List.length centers)%nat) /\
              segment_description row =
                if (segment row <? n_clusters self)%nat
                then option_map describe (nth_error centers (segment row))
                else None) out.
Proof.
  unfold predict.
  destruct (preprocess_data data) as [processed|e] eqn:Ep.
  2:{ rewrite try_except_handler. discriminate. }
  unfold engineer_features.
  destruct (scaler_fit_transform (raw_features processed)) as [[f|e] s] eqn:Es;
    rewrite !try_except_handler.
  2:{ cbn. discriminate. }
  cbn [model set_scaler].
  destruct (model self) as [m|] eqn:Em; [|discriminate].
  destruct (KMeans_predict m f) as [segments|e] eqn:Ek; [|discriminate].
  cbn [Py.bind]. unfold _get_segment_descriptions.
  cbn [model n_clusters set_scaler]. rewrite Em.
  destruct (cluster_centers_ m) as [centers|] eqn:Ec.
  2:{ unfold KMeans_predict in Ek; rewrite Ec in Ek; discriminate. }
  destruct (negb (forallb _ centers)); [discriminate|].
  match goal with
  | |- context [mapM ?f (seq 0 ?n)] =>
      destruct (mapM f (seq 0 n)) as [ds|e] eqn:Ed
  end; [|discriminate].
  cbn [Py.bind]. intro H.
  assert (Ho : out = map (fun '(r, seg) =>
                         {| s_customer_id := m_customer_id r;
                            segment := seg;
                            segment_description := lookup_nat seg ds |})
                      (combine processed segments))
    by (injection H as <- _; reflexivity).
  clear H.
  destruct (descriptions_need_centres _ _ _ _ Ed) as [Hn Hlook].
  destruct (KMeans_predict_labels _ _ _ _ Ec Ek) as [Hlen Hseg].
  pose proof (scaler_fit_transform_length _ _ _ Es) as Hf.
  unfold raw_features in Hf. rewrite length_map in Hf.
  exists m, centers. split; [reflexivity|]. split; [exact Ec|].
  split; [lia|]. split.
  - rewrite Ho, map_map.
    rewrite <- (preprocess_data_customers _ _ Ep).
    rewrite <- (map_fst_combine processed segments) at 2 by congruence.
    rewrite map_map. apply map_ext. intros [r seg]; reflexivity.
  - rewrite Ho. apply Forall_forall. intros row Hin.
    apply in_map_iff in Hin. destruct Hin as ([r seg] & <- & Hin).
    cbn [segment segment_description].
    apply in_combine_r in Hin.
    split; [exact (proj1 (Forall_forall _ _) Hseg seg Hin)|].
    rewrite Hlook. reflexivity.
Qed.

End Labels.

Lemma predict_after_reload_witness :
  exists md,
    save_model Samples.trained_on_two = Ok md /\
    n_clusters (init 2) = n_clusters Samples.trained_on_two /\
    fst (@predict Samples.first_rows_library (load_model (init 2) md)
           Samples.three_customers)
    = fst (@predict Samples.first_rows_library Samples.trained_on_two
             Samples.three_customers).
Proof.
  destruct (save_model Samples.trained_on_two) as [md|e] eqn:E;
    [|vm_compute in E; discriminate].
  assert (Hn : n_clusters (init 2) = n_clusters Samples.trained_on_two)
    by (vm_compute; reflexivity).
  exists md. split; [reflexivity|]. split; [exact Hn|].
  exact (@predict_after_reload Samples.first_rows_library
           Samples.trained_on_two (init 2) md Samples.three_customers E Hn).
Defined.

Lemma predict_never_returns_with_fewer_centres_witness :
  exists md m centers,
    save_model Samples.trained_on_two = Ok md /\
    model (load_model (init 5) md) = Some m /\
    cluster_centers_ m = Some centers /\
    (List.length centers < n_clusters (load_model (init 5) md))%nat /\
    fst (@predict Samples.first_rows_library (load_model (init 5) md)
           Samples.three_customers)
    = Raise (mk_exn NameError "name 'PredictionError' is not defined").
Proof.
  destruct (save_model Samples.trained_on_two) as [md|e] eqn:E;
    [|vm_compute in E; discriminate].
  destruct (cluster_centers_ (md_model md)) as [centers|] eqn:Ec;
    [|vm_compute in E; injection E as <-; vm_compute in Ec; discriminate].
  assert (Hlt : (List.length centers
                 < n_clusters (load_model (init 5) md))%nat).
  { vm_compute in E; injection E as <-. vm_compute in Ec.
    injection Ec as <-. vm_compute. lia. }
  exists md, (md_model md), centers.
  split; [reflexivity|]. split; [reflexivity|]. split; [exact Ec|].
  split; [exact Hlt|].
  exact (@predict_never_returns_with_fewer_centres Samples.first_rows_library
           (load_model (init 5) md) (md_model md) centers
           Samples.three_customers eq_refl Ec Hlt).
Defined.

Lemma predict_labels_each_customer_witness :
  exists out self',
    @predict Samples.first_rows_library Samples.trained_on_two
      Samples.three_customers = (Ok out, self') /\
    exists m centers,
      model Samples.trained_on_two = Some m /\
      cluster_centers_ m = Some centers /\
      (n_clusters Samples.trained_on_two <= List.length centers)%nat /\
      map s_customer_id out = group_keys (rows Samples.three_customers) /\
      Forall (fun row =>
                (centers <> [] -> (segment row < List.length centers)%nat) /\
                segment_description row =
                  if (segment row <? n_clusters Samples.trained_on_two)%nat
                  then option_map describe (nth_error centers (segment row))
                  else None) out.
Proof.
  destruct (@predict Samples.first_rows_library Samples.trained_on_two
              Samples.three_customers) as [[out|e] self'] eqn:E;
    [|vm_compute in E; discriminate].
  exists out, self'. split; [reflexivity|].
  exact (@predict_labels_each_customer Samples.first_rows_library
           Samples.trained_on_two self' Samples.three_customers out E).
Defined.

End SegmentationExtras.

(** * Properties of the segment profiles *)

Module ProfileExtras.
Import Data Sklearn Segmentation Profiles PyFacts SegmentationFacts
  SegmentationExtras.

Lemma mapM_raises {A B} (f : A -> result B) (l : list A) (e : exn) :
  mapM f l = Raise e -> exists x, In x l /\ f x = Raise e.
Proof.
  induction l as [|x l IH]; cbn [mapM]; [discriminate|].
  destruct (f x) as [y|e'] eqn:E; cbn [Py.bind].
  - destruct (mapM f l) as [ys|e'']; cbn [Py.bind]; [discriminate|].
    intro H; injection H as ->.
    destruct (IH eq_refl) as (x' & Hin & Hx). exists x'; simpl; auto.
  - intro H; injection H as ->. exists x; simpl; auto.
Qed.

Lemma center_at_not_ModelError columns center label e :
  center_at columns center label = Raise e -> isinstance e ModelError = false.
Proof.
  unfold center_at.
  destruct (positions label columns 0) as [|j [|j' l]];
    try discriminate; intro H; injection H as <-; reflexivity.
Qed.

Lemma describe_by_label_not_ModelError columns center e :
  describe_by_label columns center = Raise e ->
  isinstance e ModelError = false.
Proof.
  unfold describe_by_label.
  repeat match goal with
  | |- context [center_at columns center ?l] =>
      let E := fresh "E" in
      destruct (center_at columns center l) eqn:E; cbn [Py.bind];
      [|intro H; injection H as <-;
        eauto using center_at_not_ModelError]
  | |- context [if ?b then _ else _] => destruct b; cbn [Py.bind]
  end; discriminate.
Qed.

Lemma broadcast_not_ModelError op X v e :
  broadcast op X v = Raise e -> isinstance e ModelError = false.
Proof.
  unfold broadcast.
  destruct v as [|y [|y' v]]; try discriminate;
    destruct (forallb _ X); try discriminate;
    destruct (n_features X =? 1)%nat;
    intro H; injection H as <-; reflexivity.
Qed.

(** [get_segment_profiles] raises [ModelError] when there is no model, and
    only then: with a model, no failure of the scaler, of the frames or of
    the descriptions is a [ModelError] or one of its subclasses. *)
Theorem get_segment_profiles_ModelError_iff_untrained
    (self : CustomerSegmentation) :
  (model self = None ->
   get_segment_profiles self
   = Raise (mk_exn ModelError "Model has not been trained")) /\
  (model self <> None ->
   forall e, get_segment_profiles self = Raise e ->
             isinstance e ModelError = false).
Proof.
  unfold get_segment_profiles. split.
  - intros ->. reflexivity.
  - destruct (model self) as [m|] eqn:Em; [intros _|congruence].
    intros e.
    destruct (cluster_centers_ m) as [cs|] eqn:Ec; cbn [Py.bind].
    2:{ intro H; injection H as <-; reflexivity. }
    destruct (inverse_transform (scaler self) cs) as [centers|e'] eqn:Ei;
      cbn [Py.bind].
    2:{ intro H; injection H as ->.
        unfold inverse_transform in Ei.
        destruct (scaler self) as [p|];
          [|injection Ei as <-; reflexivity].
        destruct cs as [|row rest]; [injection Ei as <-; reflexivity|].
        destruct (List.length row =? 0)%nat;
          [injection Ei as <-; reflexivity|].
        destruct (broadcast mul _ (scale_ p)) as [scaled|e''] eqn:Eb;
          cbn [Py.bind] in Ei.
        - eauto using broadcast_not_ModelError.
        - injection Ei as ->. eauto using broadcast_not_ModelError. }
    destruct (negb (forallb _ centers)).
    { intro H; injection H as <-; reflexivity. }
    destruct (negb (List.length centers =? n_clusters self)%nat).
    { intro H; injection H as <-; reflexivity. }
    unfold descriptions_by_label. rewrite Em, Ec.
    destruct (negb (forallb _ cs)); cbn [Py.bind].
    { intro H; injection H as <-; reflexivity. }
    match goal with
    | |- context [mapM ?f ?l] => destruct (mapM f l) as [ds|e'] eqn:Ed
    end; cbn [Py.bind]; [discriminate|].
    intro H; injection H as ->.
    apply mapM_raises in Ed. destruct Ed as (i & _ & Hi).
    destruct (nth_error cs i) as [c|]; [|injection Hi as <-; reflexivity].
    destruct (describe_by_label (feature_columns self) c) as [d|e'] eqn:Edl;
      cbn [Py.bind] in Hi; [discriminate|].
    injection Hi as ->. eauto using describe_by_label_not_ModelError.
Qed.

Lemma mapM_ext {A B} (f g : A -> result B) (l : list A) :
  (forall x, f x = g x) -> mapM f l = mapM g l.
Proof.
  intro H; induction l as [|x l IH]; cbn [mapM]; [reflexivity|].
  rewrite H, IH; reflexivity.
Qed.

(** Read by the labels of the columns [__init__] sets, a centre gets the
    description [predict] gives it. *)
Lemma describe_by_label_init (k : nat) (center : list Q) :
  describe_by_label (feature_columns (init k)) center = Ok (describe center).
Proof.
  unfold describe_by_label, describe, center_at.
  cbn [feature_columns init positions String.eqb Ascii.eqb Bool.eqb Py.bind].
  destruct (Qlt_bool (1 # 2) (nth 0 center 0));
    destruct (Qlt_bool (nth 0 center 0) (- (1 # 2)));
    destruct (Qlt_bool (1 # 2) (nth 1 center 0));
    destruct (Qlt_bool (nth 1 center 0) (- (1 # 2)));
    destruct (Qlt_bool (1 # 2) (nth 4 center 0));
    destruct (Qlt_bool (1 # 2) (nth 2 center 0));
    destruct (Qlt_bool (1 # 2) (nth 3 center 0)); reflexivity.
Qed.

Lemma descriptions_by_label_init (self : CustomerSegmentation) (k : nat) :
  descriptions_by_label self (feature_columns (init k))
  = _get_segment_descriptions self.
Proof.
  unfold descriptions_by_label, _get_segment_descriptions.
  destruct (model self) as [m|]; [|reflexivity].
  destruct (cluster_centers_ m) as [cs|]; [|reflexivity].
  change (List.length (feature_columns (init k))) with 8%nat.
  destruct (negb (forallb _ cs)); [reflexivity|].
  apply mapM_ext. intro i.
  destruct (nth_error cs i) as [c|]; [|reflexivity].
  rewrite describe_by_label_init. reflexivity.
Qed.

Lemma broadcast_length op X v Y :
  broadcast op X v = Ok Y -> List.length Y = List.length X.
Proof.
  unfold broadcast.
  destruct v as [|y [|y' v]];
    try (intro H; injection H as <-; apply length_map);
    (destruct (forallb _ X);
     [intro H; injection H as <-; apply length_map|]);
    destruct (n_features X =? 1)%nat; discriminate.
Qed.

Lemma inverse_transform_length s X Y :
  inverse_transform s X = Ok Y -> List.length Y = List.length X.
Proof.
  unfold inverse_transform.
  destruct s as [p|]; [|discriminate].
  destruct X as [|row rest]; [discriminate|].
  destruct (List.length row =? 0)%nat; [discriminate|].
  destruct (broadcast mul _ (scale_ p)) as [scaled|] eqn:E1;
    cbn [Py.bind]; [|discriminate].
  intro E2. apply broadcast_length in E1, E2.
  rewrite length_map in E1. congruence.
Qed.

(** When [get_segment_profiles] returns, with the feature columns of
    [__init__], the model has exactly [n_clusters] centres, the scaler is
    fitted, and the frame has one row per segment, in order, whose
    description is the one [predict] attaches to that label: that of the
    standardized centre. *)
Theorem profiles_describe_segments_as_predict
    (self : CustomerSegmentation) (profiles : list SegmentProfile) :
  feature_columns self = feature_columns (init (n_clusters self)) ->
  get_segment_profiles self = Ok profiles ->
  exists m centers p descriptions,
    model self = Some m /\ cluster_centers_ m = Some centers /\
    scaler self = Some p /\
    List.length centers = n_clusters self /\
    _get_segment_descriptions self = Ok descriptions /\
    map p_segment profiles = seq 0 (n_clusters self) /\
    Forall (fun row =>
              description row = lookup_nat (p_segment row) descriptions /\
              description row
              = option_map describe (nth_error centers (p_segment row)))
           profiles.
Proof.
  intros Hcols. unfold get_segment_profiles.
  destruct (model self) as [m|] eqn:Em; [|discriminate].
  destruct (cluster_centers_ m) as [cs|] eqn:Ec; cbn [Py.bind];
    [|discriminate].
  destruct (inverse_transform (scaler self) cs) as [centers|] eqn:Ei;
    cbn [Py.bind]; [|discriminate].
  destruct (negb (forallb _ centers)); [discriminate|].
  destruct (List.length centers =? n_clusters self)%nat eqn:El;
    cbn [negb]; [|discriminate].
  apply Nat.eqb_eq in El.
  rewrite Hcols, descriptions_by_label_init.
  destruct (_get_segment_descriptions self) as [ds|] eqn:Ed; cbn [Py.bind];
    [|discriminate].
  intro H.
  assert (Ho : profiles
               = map (fun '(segment_id, c) =>
                        {| center := c; p_segment := segment_id;
                           description := lookup_nat segment_id ds |})
                     (combine (seq 0 (n_clusters self)) centers))
    by (injection H as <-; reflexivity).
  clear H.
  pose proof (inverse_transform_length _ _ _ Ei) as Hlen.
  destruct (scaler self) as [p|] eqn:Es; [|discriminate].
  pose proof Ed as Ed'.
  unfold _get_segment_descriptions in Ed'. rewrite Em, Ec in Ed'.
  destruct (negb (forallb _ cs)); [discriminate|].
  destruct (descriptions_need_centres _ _ _ _ Ed') as [_ Hlook].
  exists m, cs, p, ds.
  split; [reflexivity|]. split; [exact Ec|]. split; [reflexivity|].
  split; [congruence|]. split; [reflexivity|]. split.
  - rewrite Ho, map_map.
    rewrite <- (map_fst_combine (seq 0 (n_clusters self)) centers) at 2
      by (rewrite length_seq; exact El).
    apply map_ext. intros [i c]; reflexivity.
  - rewrite Ho. apply Forall_forall. intros row Hin.
    apply in_map_iff in Hin. destruct Hin as ([i c] & <- & Hin).
    cbn [p_segment description]. split; [reflexivity|].
    apply in_combine_l in Hin. apply in_seq in Hin.
    rewrite Hlook.
    destruct (Nat.leb_spec 0 i); [|lia].
    destruct (Nat.ltb_spec i (0 + n_clusters self)); [reflexivity|lia].
Qed.

Lemma train_sets_fitted_model {lib : Library}
    (self0 self : CustomerSegmentation) (now : Z) (training : Transactions) :
  train self0 now training = (Ok tt, self) ->
  exists centers,
    model self = Some {| kmeans_n_clusters := n_clusters self0;
                         random_state := 42;
                         cluster_centers_ := Some centers |} /\
    n_clusters self = n_clusters self0 /\
    feature_columns self = feature_columns self0.
Proof.
  unfold train.
  destruct (preprocess_data training) as [processed|e];
    [|rewrite try_except_handler; discriminate].
  unfold engineer_features.
  destruct (scaler_fit_transform (raw_features processed)) as [[X|e] s];
    rewrite !try_except_handler; [|cbn; discriminate].
  cbn [n_clusters set_scaler].
  destruct (KMeans_fit _ _ X) as [centers|e];
    [|rewrite try_except_handler; discriminate].
  intro H; injection H as <-. exists centers. cbn. auto.
Qed.

(** The profiles of a trained model are lost when it is saved and loaded:
    the instance that loads it (a new one, whose scaler was never fitted)
    has the model but not the scaler, and [get_segment_profiles] fails in
    [inverse_transform] with the error of an estimator that is not fitted,
    which is no [ModelError]. *)
Theorem profiles_unavailable_after_reload {lib : Library}
    (self0 self other : CustomerSegmentation) (now : Z)
    (training : Transactions) (md : ModelData) :
  train self0 now training = (Ok tt, self) ->
  save_model self = Ok md ->
  scaler other = None ->
  (exists p, scaler self = Some p) /\
  get_segment_profiles (load_model other md)
  = Raise (mk_exn ValueError
      "This StandardScaler instance is not fitted yet. Call 'fit' with appropriate arguments before using this estimator.").
Proof.
  intros Ht Hs Ho.
  destruct (train_fits_scaler _ _ _ _ Ht) as (processed & p & _ & _ & Hp).
  destruct (train_sets_fitted_model _ _ _ _ Ht) as (centers & Hm & _ & _).
  split; [eauto|].
  unfold save_model in Hs. rewrite Hm in Hs. injection Hs as <-.
  unfold get_segment_profiles, inverse_transform.
  cbn [model load_model md_model cluster_centers_ Py.bind scaler].
  rewrite Ho. reflexivity.
Qed.

(** A [train] that fails inside [KMeans.fit] (more clusters than
    customers, for one) has already assigned the estimator: the instance
    then counts as trained though nothing was fitted and [last_trained] is
    unchanged.  [save_model] writes the estimator without centres instead
    of refusing, and [get_segment_profiles] fails with [AttributeError]
    instead of [ModelError]. *)
Theorem failed_fit_counts_as_trained {lib : Library}
    (self self1 : CustomerSegmentation) (now : Z) (data : Transactions)
    (processed : list CustomerMetrics) (X : list (list float)) (e : exn) :
  preprocess_data data = Ok processed ->
  engineer_features self processed = (Ok X, self1) ->
  KMeans_fit (n_clusters self) 42 X = Raise e ->
  exists self',
    train self now data
    = (Raise (mk_exn ModelError ("Error training model: " ++ str e)), self') /\
    model self' = Some {| kmeans_n_clusters := n_clusters self;
                          random_state := 42;
                          cluster_centers_ := None |} /\
    last_trained self' = last_trained self /\
    (exists md, save_model self' = Ok md /\
                cluster_centers_ (md_model md) = None) /\
    get_segment_profiles self'
    = Raise (mk_exn AttributeError
               "'KMeans' object has no attribute 'cluster_centers_'").
Proof.
  intros Hp He Hk. unfold train. rewrite Hp, He.
  pose proof He as He'. unfold engineer_features in He'.
  destruct (scaler_fit_transform (raw_features processed)) as [r s].
  injection He' as _ <-. cbn [n_clusters set_scaler].
  rewrite Hk, try_except_handler.
  eexists. split; [reflexivity|].
  split; [reflexivity|]. split; [reflexivity|]. split.
  - eexists. split; reflexivity.
  - reflexivity.
Qed.

Lemma get_segment_profiles_ModelError_iff_untrained_witness :
  model (init 5) = None /\
  get_segment_profiles (init 5)
  = Raise (mk_exn ModelError "Model has not been trained") /\
  model Samples.trained_on_two <> None /\
  forall e, get_segment_profiles Samples.trained_on_two = Raise e ->
            isinstance e ModelError = false.
Proof.
  assert (H1 : model (init 5) = None) by reflexivity.
  assert (H2 : model Samples.trained_on_two <> None)
    by (vm_compute; discriminate).
  split; [exact H1|]. split.
  - exact (proj1 (get_segment_profiles_ModelError_iff_untrained (init 5)) H1).
  - split; [exact H2|].
    exact (proj2 (get_segment_profiles_ModelError_iff_untrained
                    Samples.trained_on_two) H2).
Defined.

Lemma profiles_describe_segments_as_predict_witness :
  exists profiles,
    feature_columns Samples.trained_on_two
    = feature_columns (init (n_clusters Samples.trained_on_two)) /\
    get_segment_profiles Samples.trained_on_two = Ok profiles /\
    exists m centers p descriptions,
      model Samples.trained_on_two = Some m /\
      cluster_centers_ m = Some centers /\
      scaler Samples.trained_on_two = Some p /\
      List.length centers = n_clusters Samples.trained_on_two /\
      _get_segment_descriptions Samples.trained_on_two = Ok descriptions /\
      map p_segment profiles = seq 0 (n_clusters Samples.trained_on_two) /\
      Forall (fun row =>
                description row = lookup_nat (p_segment row) descriptions /\
                description row
                = option_map describe (nth_error centers (p_segment row)))
             profiles.
Proof.
  assert (Hc : feature_columns Samples.trained_on_two
               = feature_columns (init (n_clusters Samples.trained_on_two)))
    by (vm_compute; reflexivity).
  destruct (get_segment_profiles Samples.trained_on_two) as [profiles|e]
    eqn:E; [|vm_compute in E; discriminate].
  exists profiles. split; [exact Hc|]. split; [reflexivity|].
  exact (profiles_describe_segments_as_predict Samples.trained_on_two
           profiles Hc E).
Defined.

Lemma profiles_unavailable_after_reload_witness :
  exists md,
    @train Samples.first_rows_library (init 2) Samples.now
      Samples.two_customers = (Ok tt, Samples.trained_on_two) /\
    save_model Samples.trained_on_two = Ok md /\
    scaler (init 2) = None /\
    (exists p, scaler Samples.trained_on_two = Some p) /\
    get_segment_profiles (load_model (init 2) md)
    = Raise (mk_exn ValueError
        "This StandardScaler instance is not fitted yet. Call 'fit' with appropriate arguments before using this estimator.").
Proof.
  assert (Ht : @train Samples.first_rows_library (init 2) Samples.now
                 Samples.two_customers = (Ok tt, Samples.trained_on_two))
    by (vm_compute; reflexivity).
  destruct (save_model Samples.trained_on_two) as [md|e] eqn:E;
    [|vm_compute in E; discriminate].
  exists md. split; [exact Ht|]. split; [reflexivity|].
  split; [reflexivity|].
  exact (@profiles_unavailable_after_reload Samples.first_rows_library
           (init 2) Samples.trained_on_two (init 2) Samples.now
           Samples.two_customers md Ht E eq_refl).
Defined.

Lemma failed_fit_counts_as_trained_witness :
  exists processed X self1 e,
    preprocess_data Samples.two_customers = Ok processed /\
    @engineer_features Samples.first_rows_library (init 5) processed
    = (Ok X, self1) /\
    @KMeans_fit Samples.first_rows_library (n_clusters (init 5)) 42 X
    = Raise e /\
    exists self',
      @train Samples.first_rows_library (init 5) Samples.now
        Samples.two_customers
      = (Raise (mk_exn ModelError ("Error training model: " ++ str e)),
         self') /\
      model self' = Some {| kmeans_n_clusters := n_clusters (init 5);
                            random_state := 42;
                            cluster_centers_ := None |} /\
      last_trained self' = last_trained (init 5) /\
      (exists md, save_model self' = Ok md /\
                  cluster_centers_ (md_model md) = None) /\
      get_segment_profiles self'
      = Raise (mk_exn AttributeError
                 "'KMeans' object has no attribute 'cluster_centers_'").
Proof.
  destruct (preprocess_data Samples.two_customers) as [processed|e1] eqn:E1;
    [|vm_compute in E1; discriminate].
  destruct (@engineer_features Samples.first_rows_library (init 5) processed)
    as [[X|e2] self1] eqn:E2.
  2:{ exfalso. vm_compute in E1. injection E1 as <-.
      vm_compute in E2. discriminate. }
  destruct (@KMeans_fit Samples.first_rows_library (n_clusters (init 5)) 42 X)
    as [centers|e] eqn:E3.
  { exfalso. vm_compute in E1. injection E1 as <-.
    vm_compute in E2. injection E2 as <- _.
    vm_compute in E3. discriminate. }
  exists processed, X, self1, e.
  split; [reflexivity|]. split; [exact E2|]. split; [exact E3|].
  exact (@failed_fit_counts_as_trained Samples.first_rows_library
           (init 5) self1 Samples.now Samples.two_customers processed X e
           E1 E2 E3).
Defined.

End ProfileExtras.

(** * Further properties of the recommendation engine *)

Module RecommendationExtras.
Import Recommendation.

(** The multiplier [_calculate_offer_value] finds for a description
    [predict] wrote applies to segments of one characteristic only: high
    spender, frequent shopper, multi-banner or points saver, alone.  A
    centre with two or more characteristics has a description joined with
    an ampersand, which matches no key, and so have low spenders,
    infrequent shoppers, points redeemers and the average segment: their
    multiplier is 1. *)
Theorem multiplier_only_for_single_characteristic (center : list Q) :
  let hi j := Qlt_bool (1 # 2) (nth j center 0) in
  let lo j := Qlt_bool (nth j center 0) (- (1 # 2)) in
  let spend := hi 0%nat || lo 0%nat in
  let visits := hi 1%nat || lo 1%nat in
  let points := hi 2%nat || hi 3%nat in
  lookup (Segmentation.describe center) segment_multipliers
  = if hi 0%nat && negb visits && negb (hi 4%nat) && negb points
    then Some (12 # 10)
    else if negb spend && hi 1%nat && negb (hi 4%nat) && negb points
    then Some (11 # 10)
    else if negb spend && negb visits && hi 4%nat && negb points
    then Some (115 # 100)
    else if negb spend && negb visits && negb (hi 4%nat) && hi 2%nat
    then Some (13 # 10)
    else None.
Proof.
  cbv zeta. unfold Segmentation.describe.
  destruct (Qlt_bool (1 # 2) (nth 0 center 0));
    destruct (Qlt_bool (nth 0 center 0) (- (1 # 2)));
    destruct (Qlt_bool (1 # 2) (nth 1 center 0));
    destruct (Qlt_bool (nth 1 center 0) (- (1 # 2)));
    destruct (Qlt_bool (1 # 2) (nth 4 center 0));
    destruct (Qlt_bool (1 # 2) (nth 2 center 0));
    destruct (Qlt_bool (1 # 2) (nth 3 center 0)); reflexivity.
Qed.

End RecommendationExtras.
